(** * monitor-api: the probe orchestration of [src/lib/monitor/monitor.ts]

    A shallow embedding of [monitorWebsite] and of the helpers it calls
    ([abortableTimeout], [safeHeadOrGet], [rdapDomainInfo]) together with the
    properties of the health report it assembles.

    Modelling conventions.

    - JavaScript values that end up in the report are [JsVal]s; an object is
      an association list in property-creation order and [obj_set] is the
      assignment [o[k] = v].
    - [async] code is a function from a [State] (the monotonic clock read by
      [performance.now()], in milliseconds, and the list of network requests
      issued so far) to a [Completion] and the state at the moment the
      promise settles.  [await p] is [bind]; a rejection is [Throw].
    - Only the look-up of a property is modelled, not the order in which
      JavaScript enumerates properties (integer keys first, ascending).
    - Everything the program does not compute itself is read from a [World]:
      the replies of the network (indexed by the instant the request is
      sent) and the few runtime functions whose definition is outside the
      repository ([URL], [Date], [psl]).
    - [Date] values are integral milliseconds since the epoch, [None] being
      the invalid date; [performance.now()] readings are rationals.  The
      quotient handed to [Math.round] is taken exactly.
    - Strings are byte strings: [trim] removes the ASCII white space, and
      the regular expression of [rdapDomainInfo] is matched on bytes.
    - The functions of [node:dns/promises] and [psl.parse] are given a
      string and do not throw synchronously; what they can do is reject,
      respectively return an object without a domain.
    - Synchronous code takes no time: the clock moves when a promise is
      awaited, by the latency the world gives to the reply. *)

From Stdlib Require Import ZArith QArith Qround Qminmax Lia Lqa.
From Stdlib Require Import List String Ascii Bool.
From Stdlib Require Import DecimalString.
Import ListNotations.

Local Open Scope string_scope.
Local Open Scope Z_scope.

Set Warnings "-register-all".

(* ================================================================== *)
(** * JavaScript values *)
(* ================================================================== *)

Module Js.

Inductive JsVal : Type :=
| JNull
| JBool (b : bool)
| JNum (x : Q)
| JStr (s : string)
| JArr (items : list JsVal)
| JObj (fields : list (string * JsVal)).

(** An integral number, the only kind the program itself computes. *)
Definition JInt (n : Z) : JsVal := JNum (inject_Z n).

(** [value ?? null] for a number or a string that may be missing. *)
Definition JIntOrNull (n : option Z) : JsVal :=
  match n with Some z => JInt z | None => JNull end.
Definition JStrOrNull (s : option string) : JsVal :=
  match s with Some z => JStr z | None => JNull end.

Definition Fields := list (string * JsVal).

(** [o[k]]; [None] is [undefined]. *)
Fixpoint obj_get (k : string) (o : Fields) : option JsVal :=
  match o with
  | [] => None
  | (k', v) :: o' => if String.eqb k k' then Some v else obj_get k o'
  end.

(** [o[k] = v]: an existing property keeps its place, a new one is added
    last. *)
Fixpoint obj_set (k : string) (v : JsVal) (o : Fields) : Fields :=
  match o with
  | [] => [(k, v)]
  | (k', v') :: o' =>
      if String.eqb k k' then (k, v) :: o' else (k', v') :: obj_set k v o'
  end.

Definition obj_keys (o : Fields) : list string := map fst o.

(** [v.k] on an arbitrary value, with optional chaining: [undefined] unless
    [v] is an object that has the property. *)
Definition get (k : string) (v : JsVal) : option JsVal :=
  match v with JObj o => obj_get k o | _ => None end.

(** [o[k1][k2] = v] where [o[k1]] is an object. *)
Definition obj_set_in (k1 k2 : string) (v : JsVal) (o : Fields) : Fields :=
  match obj_get k1 o with
  | Some (JObj inner) => obj_set k1 (JObj (obj_set k2 v inner)) o
  | _ => o
  end.

(** ToBoolean. *)
Definition truthy (v : JsVal) : bool :=
  match v with
  | JNull => false
  | JBool b => b
  | JNum x => negb (Qeq_bool x 0)
  | JStr s => negb (String.eqb s "")
  | JArr _ | JObj _ => true
  end.

Definition isArray (v : JsVal) : option (list JsVal) :=
  match v with JArr l => Some l | _ => None end.

End Js.
Import Js.

(* ================================================================== *)
(** * Strings *)
(* ================================================================== *)

Module Str.

Definition is_space (c : ascii) : bool :=
  let n := nat_of_ascii c in
  ((9 <=? n) && (n <=? 13))%nat || (n =? 32)%nat.

Fixpoint trim_start (s : string) : string :=
  match s with
  | String c s' => if is_space c then trim_start s' else s
  | EmptyString => EmptyString
  end.

Fixpoint rev_append (s acc : string) : string :=
  match s with
  | EmptyString => acc
  | String c s' => rev_append s' (String c acc)
  end.

Definition rev (s : string) : string := rev_append s "".

(** [s.trim()], for the ASCII white space (tab, LF, VT, FF, CR, space). *)
Definition trim (s : string) : string := rev (trim_start (rev (trim_start s))).

Definition lower (c : ascii) : ascii :=
  let n := nat_of_ascii c in
  if ((65 <=? n) && (n <=? 90))%nat then ascii_of_nat (n + 32) else c.

Fixpoint to_lower (s : string) : string :=
  match s with
  | EmptyString => EmptyString
  | String c s' => String (lower c) (to_lower s')
  end.

(** [s.includes(p)]. *)
Fixpoint includes (p s : string) : bool :=
  String.prefix p s ||
  match s with
  | EmptyString => false
  | String _ s' => includes p s'
  end.

(** [s.split(sep)] for a one-character separator. *)
Fixpoint split_on (sep : ascii) (s : string) : list string :=
  match s with
  | EmptyString => [""]
  | String c s' =>
      if Ascii.eqb c sep then "" :: split_on sep s'
      else match split_on sep s' with
           | [] => [String c ""]
           | w :: ws => String c w :: ws
           end
  end.

(** [l.slice(-2)]. *)
Definition last_two {A} (l : list A) : list A := skipn (List.length l - 2)%nat l.

(** [l.join(sep)]. *)
Fixpoint join (sep : string) (l : list string) : string :=
  match l with
  | [] => ""
  | [w] => w
  | w :: ws => w ++ sep ++ join sep ws
  end.

(** Decimal rendering of an integer, as in a template literal. *)
Definition of_Z (n : Z) : string := NilZero.string_of_int (Z.to_int n).

Definition hex_digit (n : nat) : ascii :=
  ascii_of_nat (if (n <? 10)%nat then 48 + n else 55 + n).

(** The characters [encodeURIComponent] leaves alone:
    [A-Z a-z 0-9 - _ . ! ~ * ' ( )]. *)
Definition uri_unreserved (c : ascii) : bool :=
  let n := nat_of_ascii c in
  ((48 <=? n) && (n <=? 57))%nat || ((65 <=? n) && (n <=? 90))%nat ||
  ((97 <=? n) && (n <=? 122))%nat ||
  existsb (Nat.eqb n) [45; 95; 46; 33; 126; 42; 39; 40; 41]%nat.

(** [encodeURIComponent(s)] on the UTF-8 bytes of [s]. *)
Fixpoint encodeURIComponent (s : string) : string :=
  match s with
  | EmptyString => EmptyString
  | String c s' =>
      if uri_unreserved c then String c (encodeURIComponent s')
      else
        let n := nat_of_ascii c in
        String "%" (String (hex_digit (n / 16)) (String (hex_digit (n mod 16))
          (encodeURIComponent s')))
  end.

End Str.

(* ================================================================== *)
(** * Numbers *)
(* ================================================================== *)

(** [Math.round]: the nearest integer, a tie going up. *)
Definition Math_round (x : Q) : Z := Qfloor (x + (1 # 2)).

(** [Math.round((a - b) / 86400000)] for two time values. *)
Definition days_between (a b : Z) : Z :=
  Math_round (inject_Z (a - b) / inject_Z 86400000).

(* ================================================================== *)
(** * Asynchronous computations *)
(* ================================================================== *)

Module Async.

(** A thrown value: an [Error] whose [message] may be missing. *)
Record JsError := mkError { name : string; message : option string }.

(** [e?.message ?? dflt]. *)
Definition message_or (dflt : string) (e : JsError) : string :=
  match message e with Some m => m | None => dflt end.

Inductive Method := HEAD | GET.
Inductive RRType := RR_A | RR_MX | RR_TXT | RR_NS.

(** What leaves the process. *)
Inductive Request :=
| ReqFetch (url : string) (method : Method)
| ReqResolve (rr : RRType) (host : string)
| ReqTls (host : string) (port : Z).

Record State := mkState {
  clock : Q;              (* performance.now(), in ms *)
  log : list Request      (* requests issued so far, oldest first *)
}.

Inductive Completion (A : Type) :=
| Return (a : A)
| Throw (e : JsError).
Arguments Return {A} a.
Arguments Throw {A} e.

Definition Async (A : Type) := State -> Completion A * State.

Definition ret {A} (a : A) : Async A := fun s => (Return a, s).

Definition throw {A} (e : JsError) : Async A := fun s => (Throw e, s).

(** [const x = await m; k x]. *)
Definition bind {A B} (m : Async A) (k : A -> Async B) : Async B :=
  fun s =>
    match m s with
    | (Return a, s') => k a s'
    | (Throw e, s') => (Throw e, s')
    end.

(** [try { body } catch (e) { handler e }]. *)
Definition try_catch {A} (body : Async A) (handler : JsError -> Async A)
  : Async A :=
  fun s =>
    match body s with
    | (Return a, s') => (Return a, s')
    | (Throw e, s') => handler e s'
    end.

(** [try { body } finally { cleanup }]. *)
Definition try_finally {A} (body : Async A) (cleanup : Async unit) : Async A :=
  fun s =>
    match body s with
    | (c, s') =>
        match cleanup s' with
        | (Return _, s'') => (c, s'')
        | (Throw e, s'') => (Throw e, s'')
        end
    end.

(** The outcome of a promise as [Promise.allSettled] reports it. *)
Inductive Settled (A : Type) :=
| fulfilled (value : A)
| rejected (reason : JsError).
Arguments fulfilled {A} value.
Arguments rejected {A} reason.

Definition settle {A} (c : Completion A) : Settled A :=
  match c with Return a => fulfilled a | Throw e => rejected e end.

(** A promise started at the instant [t0], after the requests of [s]. *)
Definition start {A} (p : Async A) (t0 : Q) (s : State) : Completion A * State :=
  p (mkState t0 (log s)).

(** [Promise.allSettled([pa, pb, pc, pd])]: the four promises are started
    at the same instant, in order; the result is available when the last of
    them has settled and it never rejects. *)
Definition Promise_allSettled4 {A B C D}
    (pa : Async A) (pb : Async B) (pc : Async C) (pd : Async D)
  : Async (Settled A * Settled B * Settled C * Settled D) :=
  fun s =>
    let t0 := clock s in
    let '(ca, sa) := start pa t0 s in
    let '(cb, sb) := start pb t0 sa in
    let '(cc, sc) := start pc t0 sb in
    let '(cd, sd) := start pd t0 sc in
    (Return (settle ca, settle cb, settle cc, settle cd),
     mkState (Qmax (Qmax (clock sa) (clock sb)) (Qmax (clock sc) (clock sd)))
             (log sd)).

(** [Promise.all(ps)]: all started at the same instant, in order.  It
    fulfils when the last promise has, with the values in the order of
    [ps], and rejects as soon as one of them rejects. *)
Fixpoint Promise_all_from {A} (t0 : Q) (ps : list (Async A))
  : Async (list A) :=
  fun s =>
    match ps with
    | [] => (Return [], mkState t0 (log s))
    | p :: ps' =>
        let '(c, s1) := start p t0 s in
        let '(cs, s2) := Promise_all_from t0 ps' s1 in
        match c, cs with
        | Return a, Return l =>
            (Return (a :: l), mkState (Qmax (clock s1) (clock s2)) (log s2))
        | Throw e, Return _ => (Throw e, mkState (clock s1) (log s2))
        | Return _, Throw e => (Throw e, s2)
        | Throw e1, Throw e2 =>
            if Qle_bool (clock s1) (clock s2)
            then (Throw e1, mkState (clock s1) (log s2))
            else (Throw e2, s2)
        end
    end.

Definition Promise_all {A} (ps : list (Async A)) : Async (list A) :=
  fun s => Promise_all_from (clock s) ps s.

(** [performance.now()]. *)
Definition performance_now : Async Q := fun s => (Return (clock s), s).

(** An answer of the outside world: how long it takes and what it is. *)
Record Reply (A : Type) := mkReply { latency : Q; outcome : Completion A }.
Arguments mkReply {A} latency outcome.
Arguments latency {A} r.
Arguments outcome {A} r.

(** Send [req] and wait for the reply the world gives at this instant. *)
Definition await_reply {A} (req : Request) (world : Q -> Reply A) : Async A :=
  fun s =>
    let r := world (clock s) in
    (outcome r, mkState (clock s + latency r) (log s ++ [req])%list).

End Async.
Import Async.

Declare Scope async_scope.
Delimit Scope async_scope with async.
Notation "x <- m ;; k" := (bind m (fun x => k))
  (at level 61, m at next level, right associativity) : async_scope.
Notation "' pat <- m ;; k" := (bind m (fun x => match x with pat => k end))
  (at level 61, pat pattern, m at next level, right associativity)
  : async_scope.
Local Open Scope async_scope.

(* ================================================================== *)
(** * The world outside the program *)
(* ================================================================== *)

(** A [fetch] response: the status line, and what [res.json()] gives. *)
Record Response := mkResponse {
  status : Z;
  json : Reply JsVal
}.

(** [res.ok]: the status is in the range 200-299. *)
Definition ok (res : Response) : bool :=
  (200 <=? status res) && (status res <=? 299).

(** The distinguished name of a certificate, as far as the program reads it. *)
Record CertName := mkCertName { name_O : option string; name_CN : option string }.

(** [socket.getPeerCertificate()]; every property may be missing. *)
Record PeerCertificate := mkCert {
  issuer : option CertName;
  subject : option CertName;
  valid_from : option string;
  valid_to : option string
}.

(** The first event of a TLS socket among the three the program listens to. *)
Inductive TlsEvent :=
| secureConnect (cert : PeerCertificate)
| timeout
| error (err : JsError).

Record MxRecord := mkMx { priority : Z; exchange : string }.

Record World := mkWorld {
  (** [new URL(s).hostname]; [None] when the constructor throws. *)
  URL_hostname : string -> option string;
  (** [Date.now()] when the monotonic clock reads [t]. *)
  Date_now : Q -> Z;
  (** [new Date(v).getTime()], [v] being [undefined] for [None]; the result
      [None] is [NaN]. *)
  new_Date : option JsVal -> option Z;
  (** [d.toISOString()] of a valid date. *)
  Date_toISOString : Z -> string;
  (** [psl.parse(host).domain], [None] for [null] or [undefined]. *)
  psl_domain : string -> option string;
  (** The network, asked at the instant [t]. *)
  net_fetch : Q -> string -> Method -> Reply Response;
  dns_resolve4 : Q -> string -> Reply (list string);
  dns_resolveMx : Q -> string -> Reply (list MxRecord);
  dns_resolveTxt : Q -> string -> Reply (list (list string));
  dns_resolveNs : Q -> string -> Reply (list string);
  tls_connect : Q -> string -> Z -> Q * TlsEvent
}.

(* ================================================================== *)
(** * The program *)
(* ================================================================== *)

Record HttpPort := mkHttpPort { port : Z; scheme : string }.

(** Only HTTP-reachable ports in serverless. *)
Definition HTTP_PORTS : list HttpPort :=
  [ mkHttpPort 80 "http"; mkHttpPort 443 "https"; mkHttpPort 8080 "http" ].

(** The ports the program lists to mark as skipped. *)
Definition TCP_PORTS : list Z :=
  [21; 22; 23; 25; 53; 110; 143; 993; 995; 3306; 5432].

(** What [rdapDomainInfo] returns. *)
Record RdapInfo := mkRdapInfo {
  raw : JsVal;
  expirationDate : option Z;
  daysUntilExpiry : option Z
}.

(** The controller of [abortableTimeout] with its timer: all that matters
    of them is the instant at which the timer aborts the signal. *)
Record AbortTimer := mkAbortTimer { aborts_at : Q }.

Definition AbortError : JsError :=
  mkError "AbortError" (Some "This operation was aborted").

Section Program.

Variable w : World.

(** [Date.now()]. *)
Definition Date_now_ : Async Z := fun s => (Return (Date_now w (clock s)), s).

(** [d.toISOString()], which throws on the invalid date. *)
Definition toISOString (d : option Z) : Async string :=
  match d with
  | Some t => ret (Date_toISOString w t)
  | None => throw (mkError "RangeError" (Some "Invalid time value"))
  end.

(** [new URL(url).hostname]. *)
Definition new_URL_hostname (url : string) : Async string :=
  match URL_hostname w url with
  | Some h => ret h
  | None => throw (mkError "TypeError" (Some "Invalid URL"))
  end.

(** [fetch(url, { method, signal })].  With a signal, the promise rejects
    at the instant the signal aborts unless the response came before; a
    signal that has aborted already rejects at once, nothing being sent. *)
Definition fetch (url : string) (method : Method) (signal : option AbortTimer)
  : Async Response :=
  fun s =>
    let r := net_fetch w (clock s) url method in
    let sent := (log s ++ [ReqFetch url method])%list in
    match signal with
    | None => (outcome r, mkState (clock s + latency r) sent)
    | Some timer =>
        if Qle_bool (aborts_at timer) (clock s) then (Throw AbortError, s)
        else if Qle_bool (aborts_at timer) (clock s + latency r)
        then (Throw AbortError, mkState (aborts_at timer) sent)
        else (outcome r, mkState (clock s + latency r) sent)
    end.

(** [res.json()]. *)
Definition res_json (res : Response) : Async JsVal :=
  fun s => (outcome (json res), mkState (clock s + latency (json res)) (log s)).

Definition abortableTimeout (ms : Q) : Async AbortTimer :=
  fun s => (Return (mkAbortTimer (clock s + ms)), s).

Definition clearTimeout (id : AbortTimer) : Async unit := ret tt.

Definition safeHeadOrGet (url : string) (timeoutMs : Q) : Async Response :=
  timer <- abortableTimeout timeoutMs ;;
  try_finally
    (res <- fetch url HEAD (Some timer) ;;
     if negb (ok res) || (status res =? 405)
     then fetch url GET (Some timer)
     else ret res)
    (clearTimeout timer).

(** [typeof e?.eventAction === 'string' &&
     /expire|expiration/i.test(e.eventAction)]. *)
Definition is_expiry_event (e : JsVal) : bool :=
  match get "eventAction" e with
  | Some (JStr a) =>
      Str.includes "expire" (Str.to_lower a) ||
      Str.includes "expiration" (Str.to_lower a)
  | _ => false
  end.

(** The [expiration] local of [rdapDomainInfo]. *)
Definition expiration_of (data : JsVal) : option Z :=
  match option_map isArray (get "events" data) with
  | Some (Some events) =>
      match find is_expiry_event events with
      | Some exp =>
          match get "eventDate" exp with
          | Some d => if truthy d then new_Date w (Some d) else None
          | None => None
          end
      | None => None
      end
  | _ => None
  end.

Definition rdapDomainInfo (domain : string) : Async RdapInfo :=
  res <- fetch ("https://rdap.org/domain/" ++ Str.encodeURIComponent domain)
               GET None ;;
  if negb (ok res)
  then throw (mkError "Error" (Some ("RDAP failed with " ++ Str.of_Z (status res))))
  else
    data <- res_json res ;;
    let expiration := expiration_of data in
    now <- Date_now_ ;;
    ret (mkRdapInfo data expiration
           (option_map (fun t => days_between t now) expiration)).

(** ** Website Monitoring + Response Time (HTTP-based) *)

Definition websiteMonitoring (url : string) (result : Fields) : Async Fields :=
  try_catch
    (t0 <- performance_now ;;
     resp <- safeHeadOrGet url 8000 ;;
     t1 <- performance_now ;;
     let result := obj_set "websiteMonitoring" (JObj
       [ ("status", JStr (if ok resp then "online" else "offline"));
         ("statusCode", JInt (status resp)) ]) result in
     ret (obj_set "responseTime" (JObj
       [ ("value", JInt (Math_round (t1 - t0)));
         ("unit", JStr "ms");
         ("status", JStr (if Qle_bool 500 (t1 - t0) then "slow" else "good")) ])
       result))
    (fun e =>
     let result := obj_set "websiteMonitoring" (JObj
       [ ("status", JStr "offline");
         ("statusCode", JNull);
         ("error", JStr (message_or "fetch failed" e)) ]) result in
     ret (obj_set "responseTime" (JObj
       [ ("value", JNull); ("unit", JStr "ms"); ("status", JStr "error") ])
       result)).

(** ** DNS Monitoring (independent lookups) *)

Definition resolve4 (hostname : string) : Async (list string) :=
  await_reply (ReqResolve RR_A hostname) (fun t => dns_resolve4 w t hostname).
Definition resolveMx (hostname : string) : Async (list MxRecord) :=
  await_reply (ReqResolve RR_MX hostname) (fun t => dns_resolveMx w t hostname).
Definition resolveTxt (hostname : string) : Async (list (list string)) :=
  await_reply (ReqResolve RR_TXT hostname) (fun t => dns_resolveTxt w t hostname).
Definition resolveNs (hostname : string) : Async (list string) :=
  await_reply (ReqResolve RR_NS hostname) (fun t => dns_resolveNs w t hostname).

Definition JStrings (l : list string) : JsVal := JArr (map JStr l).

(** [if (p.status === 'fulfilled') records[k] = f(p.value)]. *)
Definition record_if_fulfilled {A} (k : string) (f : A -> JsVal)
    (p : Settled A) (records : Fields) : Fields :=
  match p with
  | fulfilled v => obj_set k (f v) records
  | rejected _ => records
  end.

(** The body of the [try] of the DNS step. *)
Definition dnsMonitoring_try (hostname : string) (result : Fields)
  : Async Fields :=
  ' (a, mx, txt, ns) <- Promise_allSettled4 (resolve4 hostname)
       (resolveMx hostname) (resolveTxt hostname) (resolveNs hostname) ;;
  let records := [] in
  let records := record_if_fulfilled "A" JStrings a records in
  let records := record_if_fulfilled "MX"
                   (fun v => JStrings (map exchange v)) mx records in
  let records := record_if_fulfilled "TXT"
                   (fun v => JStrings (List.concat v)) txt records in
  let records := record_if_fulfilled "NS" JStrings ns records in
  ret (obj_set "dnsMonitoring"
         (JObj [ ("status", JStr "resolved"); ("records", JObj records) ])
         result).

Definition dnsMonitoring (hostname : string) (result : Fields) : Async Fields :=
  try_catch (dnsMonitoring_try hostname result)
    (fun _ => ret (obj_set "dnsMonitoring"
                     (JObj [ ("status", JStr "error") ]) result)).

(** ** SSL Monitoring (TLS handshake) *)

(** The promise around [tls.connect]: it resolves with the certificate on
    [secureConnect] and rejects on [timeout] and on [error]. *)
Definition tls_certificate (hostname : string) : Async PeerCertificate :=
  fun s =>
    let '(d, ev) := tls_connect w (clock s) hostname 443 in
    let s' := mkState (clock s + d) (log s ++ [ReqTls hostname 443])%list in
    match ev with
    | secureConnect cert => (Return cert, s')
    | timeout => (Throw (mkError "Error" (Some "TLS timeout")), s')
    | error err => (Throw err, s')
    end.

(** [data.issuer?.O ?? data.issuer?.CN ?? 'Unknown']. *)
Definition issuer_name (data : PeerCertificate) : string :=
  match issuer data with
  | Some i =>
      match name_O i with
      | Some o => o
      | None => match name_CN i with Some cn => cn | None => "Unknown" end
      end
  | None => "Unknown"
  end.

(** [data.subject?.CN ?? hostname]. *)
Definition subject_name (data : PeerCertificate) (hostname : string) : string :=
  match subject data with
  | Some (mkCertName _ (Some cn)) => cn
  | _ => hostname
  end.

(** [daysUntilExpiry > 0 ? 'valid' : 'expired'], [None] being [NaN]. *)
Definition ssl_status (daysUntilExpiry : option Z) : string :=
  match daysUntilExpiry with
  | Some d => if 0 <? d then "valid" else "expired"
  | None => "expired"
  end.

Definition sslMonitoring (hostname : string) (result : Fields) : Async Fields :=
  try_catch
    (data <- tls_certificate hostname ;;
     let validFrom := new_Date w (option_map JStr (valid_from data)) in
     let validTo := new_Date w (option_map JStr (valid_to data)) in
     now <- Date_now_ ;;
     let daysUntilExpiry := option_map (fun t => days_between t now) validTo in
     let status := ssl_status daysUntilExpiry in
     let issuer := issuer_name data in
     let subject := subject_name data hostname in
     validFromISO <- toISOString validFrom ;;
     validToISO <- toISOString validTo ;;
     ret (obj_set "sslMonitoring" (JObj
       [ ("status", JStr status);
         ("certificate", JObj
            [ ("issuer", JStr issuer);
              ("subject", JStr subject);
              ("validFrom", JStr validFromISO);
              ("validTo", JStr validToISO);
              ("daysUntilExpiry", JIntOrNull daysUntilExpiry) ]) ]) result))
    (fun e =>
     ret (obj_set "sslMonitoring" (JObj
       [ ("status", JStr "error");
         ("error", JStr (message_or "TLS failed" e)) ]) result)).

(** ** Domain Expiration (RDAP over HTTP) *)

(** [parsed?.domain ?? hostname.split('.').slice(-2).join('.')]. *)
Definition domainName (hostname : string) : string :=
  match psl_domain w hostname with
  | Some d => d
  | None => Str.join "." (Str.last_two (Str.split_on "." hostname))
  end.

Definition domainExpiration (hostname : string) (result : Fields)
  : Async Fields :=
  try_catch
    (rdap <- rdapDomainInfo (domainName hostname) ;;
     ret (obj_set "domainExpiration" (JObj
       [ ("status", JStr "success");
         ("daysUntilExpiry", JIntOrNull (daysUntilExpiry rdap));
         ("expirationDate",
            JStrOrNull (option_map (Date_toISOString w) (expirationDate rdap)));
         ("data", raw rdap) ]) result))
    (fun e =>
     ret (obj_set "domainExpiration" (JObj
       [ ("status", JStr "error");
         ("error", JStr (message_or "RDAP failed" e)) ]) result)).

(** ** Port Monitoring (serverless-safe: HTTP ports only) *)

(** The URL a port is probed at. *)
Definition port_target (hostname : string) (hp : HttpPort) : string :=
  scheme hp ++ "://" ++ hostname ++
  (if (String.eqb (scheme hp) "http" && negb (port hp =? 80)) ||
      (String.eqb (scheme hp) "https" && negb (port hp =? 443))
   then ":" ++ Str.of_Z (port hp) else "") ++ "/".

(** The callback mapped over [HTTP_PORTS]; it gives the entry it writes at
    [result.portMonitoring[port]]. *)
Definition port_check (hostname : string) (hp : HttpPort) : Async (Z * JsVal) :=
  let target := port_target hostname hp in
  t0 <- performance_now ;;
  try_catch
    (resp <- safeHeadOrGet target 5000 ;;
     t1 <- performance_now ;;
     let rt := Math_round (t1 - t0) in
     ret (port hp, JObj [ ("status", JStr "open");
                          ("responseTime", JInt rt);
                          ("statusCode", JInt (status resp)) ]))
    (fun _ => ret (port hp, JObj [ ("status", JStr "closed-or-filtered") ])).

(** [result.portMonitoring[p] = entry]. *)
Definition set_port (result : Fields) (pe : Z * JsVal) : Fields :=
  obj_set_in "portMonitoring" (Str.of_Z (fst pe)) (snd pe) result.

Definition skipped_entry : JsVal := JObj [ ("status", JStr "skipped_serverless") ].

(** [[21, ...].filter(p => !HTTP_PORTS.some(h => h.port === p))]. *)
Definition skipped : list Z :=
  filter (fun p => negb (existsb (fun h => port h =? p) HTTP_PORTS)) TCP_PORTS.

(** The writes of the callbacks are applied in the order of [HTTP_PORTS];
    they go to distinct properties, so that the object after [Promise.all]
    has the same properties whatever the order the checks finish in. *)
Definition portMonitoring (hostname : string) (result : Fields) : Async Fields :=
  let result := obj_set "portMonitoring" (JObj []) result in
  written <- Promise_all (map (port_check hostname) HTTP_PORTS) ;;
  let result := fold_left set_port written result in
  ret (fold_left (fun r p => set_port r (p, skipped_entry)) skipped result).

(** ** Ping Monitoring (HTTP-based reachability) *)

Definition pingMonitoring (url : string) (result : Fields) : Async Fields :=
  try_catch
    (t0 <- performance_now ;;
     _ <- safeHeadOrGet url 6000 ;;
     t1 <- performance_now ;;
     ret (obj_set "pingMonitoring" (JObj
       [ ("status", JStr "reachable");
         ("time", JInt (Math_round (t1 - t0)));
         ("unit", JStr "ms");
         ("method", JStr "http") ]) result))
    (fun e =>
     ret (obj_set "pingMonitoring" (JObj
       [ ("status", JStr "unreachable");
         ("method", JStr "http");
         ("error", JStr (message_or "fetch failed" e)) ]) result)).

(** ** The report *)

(** The six steps that follow the parsing of the target, in order. *)
Definition probes (url hostname : string) (result : Fields) : Async Fields :=
  result <- websiteMonitoring url result ;;
  result <- dnsMonitoring hostname result ;;
  result <- sslMonitoring hostname result ;;
  result <- domainExpiration hostname result ;;
  result <- portMonitoring hostname result ;;
  pingMonitoring url result.

Definition monitorWebsite (inputUrl : string) : Async JsVal :=
  now <- Date_now_ ;;
  let timestamp := Date_toISOString w now in
  let url := Str.trim inputUrl in
  hostname <- new_URL_hostname url ;;
  let result := [ ("url", JStr url); ("timestamp", JStr timestamp) ] in
  result <- probes url hostname result ;;
  ret (JObj result).

End Program.

(* ================================================================== *)
(** * Where each step starts *)
(* ================================================================== *)

(** The state a computation leaves. *)
Definition after {A} (p : Async A) (s : State) : State := snd (p s).

(** The states in which the steps of [probes] begin when the first one
    begins in [s].  What a step does to the state does not depend on the
    report under construction (see the [_writes] lemmas below), so that the
    steps are run here on the empty object. *)
Section Starts.

Variables (w : World) (url hostname : string) (s : State).

Definition dns_start : State := after (websiteMonitoring w url []) s.
Definition ssl_start : State := after (dnsMonitoring w hostname []) dns_start.
Definition rdap_start : State := after (sslMonitoring w hostname []) ssl_start.
Definition ports_start : State := after (domainExpiration w hostname []) rdap_start.
Definition ping_start : State := after (portMonitoring w hostname []) ports_start.
Definition finish : State := after (pingMonitoring w url []) ping_start.

End Starts.

(** A world in which no reply comes before its request. *)
Record causal (w : World) : Prop := mkCausal {
  fetch_causal : forall t u m, (0 <= latency (net_fetch w t u m))%Q;
  json_causal : forall t u m res,
    outcome (net_fetch w t u m) = Return res -> (0 <= latency (json res))%Q;
  resolve4_causal : forall t h, (0 <= latency (dns_resolve4 w t h))%Q;
  resolveMx_causal : forall t h, (0 <= latency (dns_resolveMx w t h))%Q;
  resolveTxt_causal : forall t h, (0 <= latency (dns_resolveTxt w t h))%Q;
  resolveNs_causal : forall t h, (0 <= latency (dns_resolveNs w t h))%Q;
  tls_causal : forall t h p, (0 <= fst (tls_connect w t h p))%Q
}.

(** The time a computation takes from [s]. *)
Definition elapsed {A} (p : Async A) (s : State) : Q := clock (after p s) - clock s.

(* ================================================================== *)
(** * The vocabulary of the statements *)
(* ================================================================== *)

Definition InvalidURL : JsError := mkError "TypeError" (Some "Invalid URL").

(** The URL of the registration data lookup. *)
Definition rdap_url (domain : string) : string :=
  "https://rdap.org/domain/" ++ Str.encodeURIComponent domain.

Definition rdap_failed (res : Response) : JsError :=
  mkError "Error" (Some ("RDAP failed with " ++ Str.of_Z (status res))).

Definition error_slot (dflt : string) (e : JsError) : JsVal :=
  JObj [ ("status", JStr "error"); ("error", JStr (message_or dflt e)) ].

Definition fetch_of (url : string) (q : Request) : Prop :=
  exists m, q = ReqFetch url m.

(** A key of the record set, as the reply to its lookup decides. *)
Definition record_of {A} (f : A -> JsVal) (c : Completion A) : option JsVal :=
  match c with Return v => Some (f v) | Throw _ => None end.

(** The record set for the four replies of the resolver. *)
Definition dns_records (a : Settled (list string)) (mx : Settled (list MxRecord))
    (txt : Settled (list (list string))) (ns : Settled (list string)) : Fields :=
  record_if_fulfilled "NS" JStrings ns
    (record_if_fulfilled "TXT" (fun v => JStrings (List.concat v)) txt
       (record_if_fulfilled "MX" (fun v => JStrings (map exchange v)) mx
          (record_if_fulfilled "A" JStrings a []))).

(** The instant the slowest of the four lookups started at [t] settles. *)
Definition dns_settled_at (w : World) (hostname : string) (t : Q) : Q :=
  Qmax (Qmax (t + latency (dns_resolve4 w t hostname))
             (t + latency (dns_resolveMx w t hostname)))
       (Qmax (t + latency (dns_resolveTxt w t hostname))
             (t + latency (dns_resolveNs w t hostname))).

Definition http80 : HttpPort := mkHttpPort 80 "http".
Definition https443 : HttpPort := mkHttpPort 443 "https".
Definition http8080 : HttpPort := mkHttpPort 8080 "http".

(** The entry a port check started in [s] writes. *)
Definition port_entry (w : World) (hostname : string) (hp : HttpPort)
    (s : State) : JsVal :=
  match safeHeadOrGet w (port_target hostname hp) 5000 s with
  | (Return resp, s1) =>
      JObj [ ("status", JStr "open");
             ("responseTime", JInt (Math_round (clock s1 - clock s)));
             ("statusCode", JInt (status resp)) ]
  | (Throw _, _) => JObj [ ("status", JStr "closed-or-filtered") ]
  end.

(** The object under [portMonitoring] once the three checks have written
    [e80], [e443] and [e8080] and the skipped ports have been marked. *)
Definition port_object (e80 e443 e8080 : JsVal) : Fields :=
  [ ("80", e80); ("443", e443); ("8080", e8080);
    ("21", skipped_entry); ("22", skipped_entry); ("23", skipped_entry);
    ("25", skipped_entry); ("53", skipped_entry); ("110", skipped_entry);
    ("143", skipped_entry); ("993", skipped_entry); ("995", skipped_entry);
    ("3306", skipped_entry); ("5432", skipped_entry) ].

Definition PORT_STATUSES : list string :=
  [ "open"; "closed-or-filtered"; "skipped_serverless" ].

(** The ports of the report: the three that are checked, then the eleven
    that are skipped. *)
Definition ALL_PORTS : list Z := map port HTTP_PORTS ++ TCP_PORTS.

Definition TOP_LEVEL_KEYS : list string :=
  [ "url"; "timestamp"; "websiteMonitoring"; "responseTime"; "dnsMonitoring";
    "sslMonitoring"; "domainExpiration"; "portMonitoring"; "pingMonitoring" ].

(** The value has a [status] property, one of the strings [allowed]. *)
Definition has_status (allowed : list string) (v : JsVal) : Prop :=
  exists st, get "status" v = Some (JStr st) /\ In st allowed.

(** The report [fields] has the property [k], and its value a [status]
    among [allowed]. *)
Definition slot_with_status (k : string) (allowed : list string)
    (fields : Fields) : Prop :=
  exists v, obj_get k fields = Some v /\ has_status allowed v.

(** The claim as it is worded: the ping outcome is the timing of the HTTP
    reachability probe, reused.  When that probe failed
    ([responseTime.status] is ['error']) the ping is ['unreachable'], and
    otherwise it is ['reachable'] with the elapsed time of that probe. *)
Definition ping_reuses_http_timing (fields : Fields) : Prop :=
  exists rt ping,
    obj_get "responseTime" fields = Some rt /\
    obj_get "pingMonitoring" fields = Some ping /\
    (get "status" rt = Some (JStr "error") ->
     get "status" ping = Some (JStr "unreachable")) /\
    (get "status" rt <> Some (JStr "error") ->
     get "status" ping = Some (JStr "reachable") /\
     get "time" ping = get "value" rt).

(** The largest of the time-outs of the program: 8000 ms for the HTTP
    probe, 6000 ms on the TLS socket, 5000 ms for a port check and 6000 ms
    for the ping. *)
Definition LARGEST_TIMEOUT : Q := Qmax 8000 (Qmax 6000 (Qmax 5000 6000)).

(** The claim as it is worded: a run takes no longer than the largest
    time-out plus the time of the resolver. *)
Definition within_largest_timeout (w : World) (input hostname : string)
    (s : State) : Prop :=
  (elapsed (monitorWebsite w input) s <=
   LARGEST_TIMEOUT +
   elapsed (dnsMonitoring w hostname []) (dns_start w (Str.trim input) s))%Q.

(* ================================================================== *)
(** * Sample worlds *)
(* ================================================================== *)

(** Concrete worlds on which the program is run in the examples below.
    The runtime functions are given on the inputs the examples use: URLs of
    the form [scheme:rest] whose host, if any, is made of letters, digits,
    [-] and [.]; dates between the years 0 and 9999. *)
Module Sample.

Definition is_alpha (c : ascii) : bool :=
  let n := nat_of_ascii c in
  (((65 <=? n) && (n <=? 90)) || ((97 <=? n) && (n <=? 122)))%nat.

Definition is_digit (c : ascii) : bool :=
  let n := nat_of_ascii c in ((48 <=? n) && (n <=? 57))%nat.

Definition is_scheme_char (c : ascii) : bool :=
  is_alpha c || is_digit c || existsb (Ascii.eqb c) ["+"; "-"; "."]%char.

(** The scheme state of the URL parser: letters, digits, [+], [-] and [.]
    up to the first [:]; anything else and there is no scheme. *)
Fixpoint scheme_rest (s : string) : option (string * string) :=
  match s with
  | EmptyString => None
  | String c s' =>
      if Ascii.eqb c ":" then Some ("", s')
      else if is_scheme_char c then
        match scheme_rest s' with
        | Some (sc, rest) => Some (String (Str.lower c) sc, rest)
        | None => None
        end
      else None
  end.

(** The scheme start state: a scheme begins with a letter.  Without a
    scheme, and without a base URL, parsing fails. *)
Definition split_scheme (s : string) : option (string * string) :=
  match s with
  | String c _ => if is_alpha c then scheme_rest s else None
  | EmptyString => None
  end.

Fixpoint skip_slashes (s : string) : string :=
  match s with
  | String c s' =>
      if Ascii.eqb c "/" || Ascii.eqb c "\" then skip_slashes s' else s
  | EmptyString => EmptyString
  end.

Fixpoint take_until (stop : ascii -> bool) (s : string) : string :=
  match s with
  | String c s' => if stop c then EmptyString else String c (take_until stop s')
  | EmptyString => EmptyString
  end.

Definition ends_authority (c : ascii) : bool :=
  existsb (Ascii.eqb c) ["/"; "?"; "#"; "\"]%char.

Definition host_of (authority : string) : string :=
  take_until (Ascii.eqb ":") authority.

Definition special (sc : string) : bool :=
  existsb (String.eqb sc) ["http"; "https"; "ws"; "wss"; "ftp"].

Definition hostname (s : string) : option string :=
  match split_scheme s with
  | None => None
  | Some (sc, rest) =>
      if special sc then
        let host := Str.to_lower
                      (host_of (take_until ends_authority (skip_slashes rest))) in
        if String.eqb host "" then None else Some host
      else if String.prefix "//" rest then
        Some (host_of (take_until ends_authority
                         (String.substring 2 (String.length rest) rest)))
      else Some ""
  end.

(** Two decimal digits, and so on. *)
Definition pad (width : nat) (n : Z) : string :=
  let d := Str.of_Z n in
  Str.rev (String.substring 0 width
             (Str.rev d ++ "0000"))%string.

(** The calendar date of a day number (days since 1970-01-01). *)
Definition civil (days : Z) : Z * Z * Z :=
  let z := days + 719468 in
  let era := z / 146097 in
  let doe := z - era * 146097 in
  let yoe := (doe - doe / 1460 + doe / 36524 - doe / 146096) / 365 in
  let doy := doe - (365 * yoe + yoe / 4 - yoe / 100) in
  let mp := (5 * doy + 2) / 153 in
  let d := doy - (153 * mp + 2) / 5 + 1 in
  let m := if mp <? 10 then mp + 3 else mp - 9 in
  let y := yoe + era * 400 + (if m <=? 2 then 1 else 0) in
  (y, m, d).

Definition toISOString (t : Z) : string :=
  let '(y, m, d) := civil (t / 86400000) in
  let r := t mod 86400000 in
  pad 4 y ++ "-" ++ pad 2 m ++ "-" ++ pad 2 d ++ "T" ++
  pad 2 (r / 3600000) ++ ":" ++ pad 2 (r / 60000 mod 60) ++ ":" ++
  pad 2 (r / 1000 mod 60) ++ "." ++ pad 3 (r mod 1000) ++ "Z".

(** The dates that occur in the examples. *)
Definition parse_date (v : option JsVal) : option Z :=
  match v with
  | Some (JStr s) =>
      if String.eqb s "Oct  3 00:00:00 2026 GMT" then Some 1790985600000
      else if String.eqb s "Nov 12 04:46:00 2026 GMT" then Some 1794458760000
      else if String.eqb s "1995-08-14T04:00:00Z" then Some 808372800000
      else if String.eqb s "2027-08-13T04:00:00Z" then Some 1818129600000
      else None
  | _ => None
  end.

(** The wall clock shows 2026-11-02T04:46:00Z when the monotonic clock
    shows 0. *)
Definition now (t : Q) : Z := 1793594760000 + Qfloor t.

Definition registrable (host : string) : option string :=
  if String.eqb host "example.com" || String.eqb host "www.example.com"
  then Some "example.com" else None.

Definition certificate : PeerCertificate :=
  mkCert (Some (mkCertName (Some "Example CA") (Some "Example CA R1")))
         (Some (mkCertName None (Some "example.com")))
         (Some "Oct  3 00:00:00 2026 GMT")
         (Some "Nov 12 04:46:00 2026 GMT").

Definition rdap_body : JsVal :=
  JObj [ ("objectClassName", JStr "domain");
         ("events", JArr
            [ JObj [ ("eventAction", JStr "registration");
                     ("eventDate", JStr "1995-08-14T04:00:00Z") ];
              JObj [ ("eventAction", JStr "expiration");
                     ("eventDate", JStr "2027-08-13T04:00:00Z") ] ]) ].

Definition no_body : Reply JsVal :=
  mkReply 0 (Throw (mkError "SyntaxError" (Some "Unexpected end of JSON input"))).

(** A world around a given behaviour of the HTTP servers: the resolver
    answers the address and name-server queries in 20 ms and has no MX nor
    TXT data, and the TLS handshake takes 40 ms. *)
Definition world (net : Q -> string -> Method -> Reply Response) : World :=
  {| URL_hostname := hostname;
     Date_now := now;
     new_Date := parse_date;
     Date_toISOString := toISOString;
     psl_domain := registrable;
     net_fetch := net;
     dns_resolve4 := fun _ _ => mkReply 20 (Return ["93.184.215.14"]);
     dns_resolveMx := fun _ _ =>
       mkReply 25 (Throw (mkError "Error" (Some "queryMx ENODATA example.com")));
     dns_resolveTxt := fun _ _ =>
       mkReply 25 (Throw (mkError "Error" (Some "queryTxt ENODATA example.com")));
     dns_resolveNs := fun _ _ =>
       mkReply 20 (Return ["a.iana-servers.net"; "b.iana-servers.net"]);
     tls_connect := fun _ _ _ => (40%Q, secureConnect certificate) |}.

Definition is_rdap (url : string) : bool :=
  String.prefix "https://rdap.org/domain/" url.

(** Every server answers 200 in 120 ms; the registry answers in 80 ms. *)
Definition net_up (t : Q) (url : string) (m : Method) : Reply Response :=
  if is_rdap url
  then mkReply 80 (Return (mkResponse 200 (mkReply 5 (Return rdap_body))))
  else mkReply 120 (Return (mkResponse 200 no_body)).

(** The web servers of the target never answer; the registry does. *)
Definition net_down (t : Q) (url : string) (m : Method) : Reply Response :=
  if is_rdap url
  then mkReply 80 (Return (mkResponse 200 (mkReply 5 (Return rdap_body))))
  else mkReply 60000 (Throw (mkError "TypeError" (Some "fetch failed"))).

(** The web servers refuse connections during the first second, and answer
    quickly from then on. *)
Definition net_flap (t : Q) (url : string) (m : Method) : Reply Response :=
  if is_rdap url
  then mkReply 80 (Return (mkResponse 200 (mkReply 5 (Return rdap_body))))
  else if Qle_bool 1000 t
  then mkReply 30 (Return (mkResponse 200 no_body))
  else mkReply 700 (Throw (mkError "TypeError" (Some "fetch failed"))).

(** The registry answers 200 with a body that is not JSON. *)
Definition net_bad_rdap (t : Q) (url : string) (m : Method) : Reply Response :=
  if is_rdap url
  then mkReply 80 (Return (mkResponse 200 no_body))
  else mkReply 120 (Return (mkResponse 200 no_body)).

Definition s0 : State := mkState 0 [].

End Sample.

(* ================================================================== *)
(** * The API route *)
(* ================================================================== *)

(** [pages/api/monitor.ts]: the handler that calls [monitorWebsite]. *)

(** [req.headers['x-monitor-url']]: [undefined], a string, or an array of
    strings. *)
Inductive HeaderValue :=
| header_absent
| header_one (v : string)
| header_many (vs : list string).

(** What the handler reads of the request; [req.method] may be missing. *)
Record NextApiRequest := mkRequest {
  req_method : option string;
  req_x_monitor_url : HeaderValue
}.

(** The calls the handler makes on [res], in order. *)
Inductive ResCall :=
| ResSetHeader (name value : string)
| ResStatus (code : Z)
| ResJson (body : JsVal).

(** [Array.isArray(urlHeader) ? urlHeader[0] : urlHeader]. *)
Definition header_target (urlHeader : HeaderValue) : option string :=
  match urlHeader with
  | header_absent => None
  | header_one v => Some v
  | header_many vs => hd_error vs
  end.

(** [{ error: msg }]. *)
Definition error_body (msg : string) : JsVal := JObj [ ("error", JStr msg) ].

(** [req.method !== 'GET']. *)
Definition not_GET (method : option string) : bool :=
  match method with
  | Some m => negb (String.eqb m "GET")
  | None => true
  end.

Definition handler (w : World) (req : NextApiRequest) : Async (list ResCall) :=
  if not_GET (req_method req)
  then ret [ ResStatus 405; ResJson (error_body "Method not allowed. Use GET.") ]
  else
    let urlHeader := req_x_monitor_url req in
    match header_target urlHeader with
    | None =>
        ret [ ResStatus 400; ResJson (error_body "Missing x-monitor-url header") ]
    | Some target =>
        if String.eqb target ""
        then ret [ ResStatus 400;
                   ResJson (error_body "Missing x-monitor-url header") ]
        else
          try_catch
            (data <- monitorWebsite w target ;;
             ret [ ResSetHeader "Content-Type" "application/json";
                   ResStatus 200; ResJson data ])
            (fun e =>
             ret [ ResStatus 500;
                   ResJson (error_body (message_or "Internal error" e)) ])
    end.

(** A GET request with the given header. *)
Definition GET_with (h : HeaderValue) : NextApiRequest := mkRequest (Some "GET") h.

(* ================================================================== *)
(** * The earlier DNS step *)
(* ================================================================== *)

(** The DNS step of the earlier [monitorWebsite], which awaits the four
    lookups one after the other inside one [try]. *)
Module Legacy.

Section Program.

Variable w : World.

Definition dnsMonitoring (hostname : string) (result : Fields) : Async Fields :=
  try_catch
    (a <- resolve4 w hostname ;;
     mx <- resolveMx w hostname ;;
     txt <- resolveTxt w hostname ;;
     ns <- resolveNs w hostname ;;
     ret (obj_set "dnsMonitoring" (JObj
       [ ("status", JStr "resolved");
         ("records", JObj
            [ ("A", JStrings a);
              ("MX", JStrings (map exchange mx));
              ("TXT", JStrings (List.concat txt));
              ("NS", JStrings ns) ]) ]) result))
    (fun _ => ret (obj_set "dnsMonitoring"
                     (JObj [ ("status", JStr "error") ]) result)).

End Program.

End Legacy.

(* ================================================================== *)
(** * Further vocabulary *)
(* ================================================================== *)

(** The report after a DNS step that gave up. *)
Definition dns_error_slot (result : Fields) : Fields :=
  obj_set "dnsMonitoring" (JObj [ ("status", JStr "error") ]) result.

(** The characters of an encoded URI component: unreserved, or [%] and the
    hexadecimal digits of an escape. *)
Definition uri_component_char (c : ascii) : bool :=
  Str.uri_unreserved c || Ascii.eqb c "%".

Fixpoint string_forallb (p : ascii -> bool) (s : string) : bool :=
  match s with
  | EmptyString => true
  | String c s' => p c && string_forallb p s'
  end.

(** A label: a string without the separator. *)
Definition free_of (c : ascii) (word : string) : Prop :=
  string_forallb (fun x => negb (Ascii.eqb x c)) word = true.

(** A world whose answers do not depend on the instant they are asked
    at, the reading of the wall clock included. *)
Record stationary (w : World) : Prop := mkStationary {
  fetch_stationary : forall t t' u m, net_fetch w t u m = net_fetch w t' u m;
  resolve4_stationary : forall t t' h, dns_resolve4 w t h = dns_resolve4 w t' h;
  resolveMx_stationary : forall t t' h, dns_resolveMx w t h = dns_resolveMx w t' h;
  resolveTxt_stationary : forall t t' h, dns_resolveTxt w t h = dns_resolveTxt w t' h;
  resolveNs_stationary : forall t t' h, dns_resolveNs w t h = dns_resolveNs w t' h;
  tls_stationary : forall t t' h p, tls_connect w t h p = tls_connect w t' h p;
  date_stationary : forall t t', Date_now w t = Date_now w t'
}.

(** What [safeHeadOrGet] comes to in a stationary world, whenever it is
    called: its outcome and the time it takes. *)
Definition steady_safeHeadOrGet (w : World) (url : string) (T : Q)
  : Completion Response * Q :=
  let head := net_fetch w 0 url HEAD in
  let get := net_fetch w 0 url GET in
  if Qle_bool T (latency head) then (Throw AbortError, T)
  else
    match outcome head with
    | Throw e => (Throw e, latency head)
    | Return res =>
        if ok res then (Return res, latency head)
        else if Qle_bool T (latency head + latency get)%Q
        then (Throw AbortError, T)
        else (outcome get, (latency head + latency get)%Q)
    end.

(** The requests a run may send, for the target [url] whose host is
    [hostname]. *)
Definition allowed_request (w : World) (url hostname : string) (q : Request)
  : Prop :=
  fetch_of url q \/
  (exists rr, q = ReqResolve rr hostname) \/
  q = ReqTls hostname 443 \/
  q = ReqFetch (rdap_url (domainName w hostname)) GET \/
  exists hp, In hp HTTP_PORTS /\ fetch_of (port_target hostname hp) q.

(** A world whose web servers answer every request with [code] after
    [ms] milliseconds; the rest is as in [Sample.world]. *)
Module Examples.

Definition net_steady (ms : Q) (code : Z) (t : Q) (url : string) (m : Method)
  : Reply Response :=
  if Sample.is_rdap url
  then mkReply 80 (Return (mkResponse 200 (mkReply 5 (Return Sample.rdap_body))))
  else mkReply ms (Return (mkResponse code Sample.no_body)).

(** A certificate that ends eleven hours after the run starts. *)
Definition parse_date (v : option JsVal) : option Z :=
  match v with
  | Some (JStr s) =>
      if String.eqb s "Nov  2 15:46:00 2026 GMT" then Some 1793634360000
      else Sample.parse_date v
  | _ => Sample.parse_date v
  end.

Definition expiring : PeerCertificate :=
  mkCert (Some (mkCertName (Some "Example CA") None))
         (Some (mkCertName None (Some "example.com")))
         (Some "Oct  3 00:00:00 2026 GMT")
         (Some "Nov  2 15:46:00 2026 GMT").

(** A certificate without dates. *)
Definition undated : PeerCertificate := mkCert None None None None.

Definition world_with_certificate (cert : PeerCertificate) : World :=
  let W := Sample.world Sample.net_up in
  {| URL_hostname := URL_hostname W;
     Date_now := Date_now W;
     new_Date := parse_date;
     Date_toISOString := Date_toISOString W;
     psl_domain := psl_domain W;
     net_fetch := net_fetch W;
     dns_resolve4 := dns_resolve4 W;
     dns_resolveMx := dns_resolveMx W;
     dns_resolveTxt := dns_resolveTxt W;
     dns_resolveNs := dns_resolveNs W;
     tls_connect := fun _ _ _ => (40%Q, secureConnect cert) |}.

(** [Sample.world] with a wall clock that stands still. *)
Definition frozen (net : Q -> string -> Method -> Reply Response) : World :=
  let W := Sample.world net in
  {| URL_hostname := URL_hostname W;
     Date_now := fun _ => 1793594760000;
     new_Date := new_Date W;
     Date_toISOString := Date_toISOString W;
     psl_domain := psl_domain W;
     net_fetch := net_fetch W;
     dns_resolve4 := dns_resolve4 W;
     dns_resolveMx := dns_resolveMx W;
     dns_resolveTxt := dns_resolveTxt W;
     dns_resolveNs := dns_resolveNs W;
     tls_connect := tls_connect W |}.

End Examples.

(* ================================================================== *)
(** * Objects *)
(* ================================================================== *)

Lemma obj_get_set_same k v o : obj_get k (obj_set k v o) = Some v.
Proof.
  induction o as [|[k' v'] o IH]; simpl.
  - now rewrite String.eqb_refl.
  - destruct (String.eqb k k') eqn:E; simpl.
    + now rewrite String.eqb_refl.
    + now rewrite E.
Qed.

Lemma obj_get_set_other k k' v o :
  k <> k' -> obj_get k (obj_set k' v o) = obj_get k o.
Proof.
  intros Hk. induction o as [|[k0 v0] o IH]; simpl.
  - apply String.eqb_neq in Hk. now rewrite Hk.
  - destruct (String.eqb k' k0) eqn:E; simpl.
    + apply String.eqb_eq in E. subst k0.
      apply String.eqb_neq in Hk. now rewrite Hk.
    + now rewrite IH.
Qed.

Lemma obj_set_set_same k v1 v2 o :
  obj_set k v2 (obj_set k v1 o) = obj_set k v2 o.
Proof.
  induction o as [|[k' v'] o IH]; simpl.
  - now rewrite String.eqb_refl.
  - destruct (String.eqb k k') eqn:E; simpl.
    + now rewrite String.eqb_refl.
    + now rewrite E, IH.
Qed.

(** Writing a port entry into the object stored under [portMonitoring]. *)
Lemma set_port_set inner p e r :
  set_port (obj_set "portMonitoring" (JObj inner) r) (p, e) =
  obj_set "portMonitoring" (JObj (obj_set (Str.of_Z p) e inner)) r.
Proof.
  unfold set_port, obj_set_in; simpl fst; simpl snd.
  now rewrite obj_get_set_same, obj_set_set_same.
Qed.

(* ================================================================== *)
(** * The request pattern of [safeHeadOrGet] *)
(* ================================================================== *)

Lemma Qle_bool_false a b : Qle_bool a b = false -> (b < a)%Q.
Proof.
  intros H. apply Qnot_le_lt. intros Hle.
  apply Qle_bool_iff in Hle. congruence.
Qed.

Ltac qbool :=
  repeat match goal with
  | H : Qle_bool _ _ = true |- _ => apply Qle_bool_iff in H
  | H : Qle_bool _ _ = false |- _ => apply Qle_bool_false in H
  end.

(** Only the clock of the state matters to [fetch]: the completion and the
    instant it settles at are those of any state with the same clock. *)
Lemma fetch_clock_only w url m sg s l :
  fst (fetch w url m sg (mkState (clock s) l)) = fst (fetch w url m sg s) /\
  clock (snd (fetch w url m sg (mkState (clock s) l))) =
  clock (snd (fetch w url m sg s)).
Proof.
  unfold fetch; simpl. destruct sg as [timer|]; simpl; [|easy].
  destruct (Qle_bool (aborts_at timer) (clock s)); simpl; [easy|].
  destruct (Qle_bool _ (clock s + _)); simpl; easy.
Qed.

(** A guarded [fetch] settles between the instant it starts and the
    instant its signal aborts, and sends at most its own request. *)
Lemma fetch_signal_bounds w url m timer s :
  (forall t u m', 0 <= latency (net_fetch w t u m'))%Q ->
  (clock s <= aborts_at timer)%Q ->
  let r := fetch w url m (Some timer) s in
  (clock s <= clock (snd r) <= aborts_at timer)%Q /\
  (log (snd r) = log s \/ log (snd r) = (log s ++ [ReqFetch url m])%list).
Proof.
  intros Hc Hs. unfold fetch; simpl.
  pose proof (Hc (clock s) url m) as Hl.
  destruct (Qle_bool (aborts_at timer) (clock s)) eqn:E1; simpl.
  - qbool. repeat split; auto; lra.
  - destruct (Qle_bool (aborts_at timer) (clock s + _)) eqn:E2; simpl; qbool.
    + repeat split; auto; lra.
    + repeat split; auto; lra.
Qed.

(** [safeHeadOrGet] without the plumbing of its timer. *)
Lemma safeHeadOrGet_unfold w url T s :
  safeHeadOrGet w url T s =
  let timer := mkAbortTimer (clock s + T) in
  match fetch w url HEAD (Some timer) s with
  | (Return res, s1) =>
      if negb (ok res) || (status res =? 405)
      then fetch w url GET (Some timer) s1
      else (Return res, s1)
  | (Throw e, s1) => (Throw e, s1)
  end.
Proof.
  unfold safeHeadOrGet, bind, abortableTimeout, try_finally, clearTimeout, ret.
  cbv zeta.
  destruct (fetch w url HEAD _ s) as [[res|e] s1]; [|reflexivity].
  destruct (negb (ok res) || (status res =? 405)); [|reflexivity].
  now destruct (fetch w url GET _ s1) as [c2 s2].
Qed.

(** [safeHeadOrGet] settles within its time-out and sends nothing but
    requests to its URL. *)
Lemma safeHeadOrGet_bounds w url T s :
  (forall t u m, 0 <= latency (net_fetch w t u m))%Q ->
  (0 <= T)%Q ->
  let r := safeHeadOrGet w url T s in
  (clock s <= clock (snd r) <= clock s + T)%Q /\
  exists l, log (snd r) = (log s ++ l)%list /\ Forall (fetch_of url) l.
Proof.
  intros Hc HT. rewrite safeHeadOrGet_unfold. cbv zeta.
  set (timer := mkAbortTimer (clock s + T)).
  assert (H0 : (clock s <= aborts_at timer)%Q) by (simpl; lra).
  assert (HT' : aborts_at timer = (clock s + T)%Q) by reflexivity.
  destruct (fetch_signal_bounds w url HEAD timer s Hc H0) as [Hb1 Hl1].
  cbv zeta in Hb1, Hl1. clearbody timer.
  destruct (fetch w url HEAD (Some timer) s) as [[res|e] s1];
    simpl in Hb1, Hl1.
  - assert (Hl1' : exists l, log s1 = (log s ++ l)%list /\ Forall (fetch_of url) l).
    { destruct Hl1 as [-> | ->].
      - exists []. now rewrite app_nil_r.
      - exists [ReqFetch url HEAD]. split; [easy|].
        constructor; [now exists HEAD | constructor]. }
    destruct (negb (ok res) || (status res =? 405)).
    + destruct (fetch_signal_bounds w url GET timer s1 Hc (proj2 Hb1)) as [Hb2 Hl2].
      cbv zeta in Hb2, Hl2.
      destruct (fetch w url GET (Some timer) s1) as [c2 s2]; simpl in *.
      split; [rewrite HT' in *; lra|].
      destruct Hl1' as (l & El & Fl).
      destruct Hl2 as [-> | ->].
      * now exists l.
      * exists (l ++ [ReqFetch url GET])%list. rewrite El, app_assoc.
        split; [easy|]. apply Forall_app. split; [easy|].
        constructor; [now exists GET | constructor].
    + simpl. split; [rewrite HT' in *; lra | exact Hl1'].
  - simpl. split; [rewrite HT' in *; lra|].
    destruct Hl1 as [-> | ->].
    + exists []. now rewrite app_nil_r.
    + exists [ReqFetch url HEAD]. split; [easy|].
      constructor; [now exists HEAD | constructor].
Qed.

(** Its outcome depends on the clock of the state only. *)
Lemma safeHeadOrGet_clock_only w url T s l :
  fst (safeHeadOrGet w url T (mkState (clock s) l)) =
  fst (safeHeadOrGet w url T s) /\
  clock (snd (safeHeadOrGet w url T (mkState (clock s) l))) =
  clock (snd (safeHeadOrGet w url T s)).
Proof.
  rewrite !safeHeadOrGet_unfold. cbv zeta.
  change (clock (mkState (clock s) l)) with (clock s).
  set (timer := mkAbortTimer (clock s + T)). clearbody timer.
  destruct (fetch_clock_only w url HEAD (Some timer) s l) as [Hf Hk].
  destruct (fetch w url HEAD (Some timer) (mkState (clock s) l)) as [c1 s1].
  destruct (fetch w url HEAD (Some timer) s) as [c1' s1'].
  simpl in Hf, Hk. subst c1'.
  destruct c1 as [res|e]; simpl; [|easy].
  destruct (negb (ok res) || (status res =? 405)); simpl; [|easy].
  destruct s1 as [k1 l1], s1' as [k1' l1']. simpl in Hk. subst k1'.
  exact (fetch_clock_only w url GET (Some timer) (mkState k1 l1') l1).
Qed.

Arguments fetch : simpl never.
Arguments safeHeadOrGet : simpl never.
Arguments rdapDomainInfo : simpl never.
Arguments tls_certificate : simpl never.
Arguments Qmax : simpl never.
Arguments Math_round : simpl never.
Arguments days_between : simpl never.
Arguments Str.of_Z : simpl never.

(* ================================================================== *)
(** * What each step writes *)
(* ================================================================== *)

Section Steps.

Variable w : World.

(** ** Website monitoring *)

Lemma websiteMonitoring_resolved url s resp s1 :
  safeHeadOrGet w url 8000 s = (Return resp, s1) ->
  forall r, websiteMonitoring w url r s =
    (Return (obj_set "responseTime" (JObj
       [ ("value", JInt (Math_round (clock s1 - clock s)));
         ("unit", JStr "ms");
         ("status", JStr (if Qle_bool 500 (clock s1 - clock s)
                          then "slow" else "good")) ])
      (obj_set "websiteMonitoring" (JObj
       [ ("status", JStr (if ok resp then "online" else "offline"));
         ("statusCode", JInt (status resp)) ]) r)), s1).
Proof.
  intros E r. unfold websiteMonitoring, try_catch, bind, performance_now, ret.
  now rewrite E.
Qed.

Lemma websiteMonitoring_rejected url s e s1 :
  safeHeadOrGet w url 8000 s = (Throw e, s1) ->
  forall r, websiteMonitoring w url r s =
    (Return (obj_set "responseTime" (JObj
       [ ("value", JNull); ("unit", JStr "ms"); ("status", JStr "error") ])
      (obj_set "websiteMonitoring" (JObj
       [ ("status", JStr "offline");
         ("statusCode", JNull);
         ("error", JStr (message_or "fetch failed" e)) ]) r)), s1).
Proof.
  intros E r. unfold websiteMonitoring, try_catch, bind, performance_now, ret.
  now rewrite E.
Qed.

Lemma websiteMonitoring_writes url s :
  exists wm rt, forall r,
    websiteMonitoring w url r s =
    (Return (obj_set "responseTime" rt (obj_set "websiteMonitoring" wm r)),
     dns_start w url s).
Proof.
  unfold dns_start, after.
  destruct (safeHeadOrGet w url 8000 s) as [[resp|e] s1] eqn:E.
  - rewrite (websiteMonitoring_resolved _ _ _ _ E []).
    do 2 eexists. intros r. now rewrite (websiteMonitoring_resolved _ _ _ _ E r).
  - rewrite (websiteMonitoring_rejected _ _ _ _ E []).
    do 2 eexists. intros r. now rewrite (websiteMonitoring_rejected _ _ _ _ E r).
Qed.

(** ** DNS monitoring *)

Lemma dnsMonitoring_try_returns hostname r s :
  dnsMonitoring_try w hostname r s =
  (Return (obj_set "dnsMonitoring" (JObj
     [ ("status", JStr "resolved");
       ("records", JObj (dns_records
          (settle (outcome (dns_resolve4 w (clock s) hostname)))
          (settle (outcome (dns_resolveMx w (clock s) hostname)))
          (settle (outcome (dns_resolveTxt w (clock s) hostname)))
          (settle (outcome (dns_resolveNs w (clock s) hostname))))) ]) r),
   mkState (dns_settled_at w hostname (clock s))
     (log s ++ [ ReqResolve RR_A hostname; ReqResolve RR_MX hostname;
                 ReqResolve RR_TXT hostname; ReqResolve RR_NS hostname ])%list).
Proof.
  unfold dnsMonitoring_try, bind, Promise_allSettled4, start, resolve4,
    resolveMx, resolveTxt, resolveNs, await_reply, ret, dns_records,
    dns_settled_at.
  simpl. repeat rewrite <- app_assoc. reflexivity.
Qed.

Lemma dnsMonitoring_returns hostname r s :
  dnsMonitoring w hostname r s = dnsMonitoring_try w hostname r s.
Proof.
  unfold dnsMonitoring, try_catch. now rewrite dnsMonitoring_try_returns.
Qed.

Lemma dnsMonitoring_writes hostname url s0 :
  exists dns, forall r,
    dnsMonitoring w hostname r (dns_start w url s0) =
    (Return (obj_set "dnsMonitoring" dns r), ssl_start w url hostname s0).
Proof.
  unfold ssl_start, after. rewrite dnsMonitoring_returns, dnsMonitoring_try_returns.
  eexists. intros r. now rewrite dnsMonitoring_returns, dnsMonitoring_try_returns.
Qed.

(** ** SSL monitoring *)

Lemma sslMonitoring_completed hostname s cert s1 vf vt :
  tls_certificate w hostname s = (Return cert, s1) ->
  new_Date w (option_map JStr (valid_from cert)) = Some vf ->
  new_Date w (option_map JStr (valid_to cert)) = Some vt ->
  forall r, sslMonitoring w hostname r s =
    (Return (obj_set "sslMonitoring" (JObj
       [ ("status", JStr (if 0 <? days_between vt (Date_now w (clock s1))
                          then "valid" else "expired"));
         ("certificate", JObj
            [ ("issuer", JStr (issuer_name cert));
              ("subject", JStr (subject_name cert hostname));
              ("validFrom", JStr (Date_toISOString w vf));
              ("validTo", JStr (Date_toISOString w vt));
              ("daysUntilExpiry",
                 JInt (days_between vt (Date_now w (clock s1)))) ]) ]) r),
     s1).
Proof.
  intros E Ef Et r.
  unfold sslMonitoring, try_catch, bind, Date_now_, toISOString, ret.
  now rewrite E, Ef, Et.
Qed.

Lemma sslMonitoring_rejected hostname s e s1 :
  tls_certificate w hostname s = (Throw e, s1) ->
  forall r, sslMonitoring w hostname r s =
    (Return (obj_set "sslMonitoring" (JObj
       [ ("status", JStr "error");
         ("error", JStr (message_or "TLS failed" e)) ]) r), s1).
Proof.
  intros E r. unfold sslMonitoring, try_catch, bind. now rewrite E.
Qed.

(** A certificate one of whose dates does not parse makes [toISOString]
    throw inside the [try]. *)
Lemma sslMonitoring_invalid_date hostname s cert s1 :
  tls_certificate w hostname s = (Return cert, s1) ->
  new_Date w (option_map JStr (valid_from cert)) = None \/
  new_Date w (option_map JStr (valid_to cert)) = None ->
  forall r, sslMonitoring w hostname r s =
    (Return (obj_set "sslMonitoring" (JObj
       [ ("status", JStr "error");
         ("error", JStr "Invalid time value") ]) r), s1).
Proof.
  intros E Hd r.
  unfold sslMonitoring, try_catch, bind, Date_now_, toISOString, ret, throw.
  rewrite E.
  destruct (new_Date w (option_map JStr (valid_from cert))) as [vf|];
    [|reflexivity].
  destruct Hd as [Hd|Hd]; [discriminate|]. now rewrite Hd.
Qed.

Lemma sslMonitoring_writes hostname url s0 :
  exists ssl, forall r,
    sslMonitoring w hostname r (ssl_start w url hostname s0) =
    (Return (obj_set "sslMonitoring" ssl r), rdap_start w url hostname s0).
Proof.
  unfold rdap_start, after. set (s := ssl_start w url hostname s0).
  destruct (tls_certificate w hostname s) as [[cert|e] s1] eqn:E.
  - destruct (new_Date w (option_map JStr (valid_from cert))) as [vf|] eqn:Ef.
    + destruct (new_Date w (option_map JStr (valid_to cert))) as [vt|] eqn:Et.
      * rewrite (sslMonitoring_completed _ _ _ _ _ _ E Ef Et []).
        eexists. intros r.
        now rewrite (sslMonitoring_completed _ _ _ _ _ _ E Ef Et r).
      * rewrite (sslMonitoring_invalid_date _ _ _ _ E (or_intror Et) []).
        eexists. intros r.
        now rewrite (sslMonitoring_invalid_date _ _ _ _ E (or_intror Et) r).
    + rewrite (sslMonitoring_invalid_date _ _ _ _ E (or_introl Ef) []).
      eexists. intros r.
      now rewrite (sslMonitoring_invalid_date _ _ _ _ E (or_introl Ef) r).
  - rewrite (sslMonitoring_rejected _ _ _ _ E []).
    eexists. intros r. now rewrite (sslMonitoring_rejected _ _ _ _ E r).
Qed.

(** ** Domain expiration *)

Lemma domainExpiration_success hostname s rdap s1 :
  rdapDomainInfo w (domainName w hostname) s = (Return rdap, s1) ->
  forall r, domainExpiration w hostname r s =
    (Return (obj_set "domainExpiration" (JObj
       [ ("status", JStr "success");
         ("daysUntilExpiry", JIntOrNull (daysUntilExpiry rdap));
         ("expirationDate",
            JStrOrNull (option_map (Date_toISOString w) (expirationDate rdap)));
         ("data", raw rdap) ]) r), s1).
Proof.
  intros E r. unfold domainExpiration, try_catch, bind, ret. now rewrite E.
Qed.

Lemma domainExpiration_error hostname s e s1 :
  rdapDomainInfo w (domainName w hostname) s = (Throw e, s1) ->
  forall r, domainExpiration w hostname r s =
    (Return (obj_set "domainExpiration" (JObj
       [ ("status", JStr "error");
         ("error", JStr (message_or "RDAP failed" e)) ]) r), s1).
Proof.
  intros E r. unfold domainExpiration, try_catch, bind, ret. now rewrite E.
Qed.

Lemma domainExpiration_writes hostname url s0 :
  exists de, forall r,
    domainExpiration w hostname r (rdap_start w url hostname s0) =
    (Return (obj_set "domainExpiration" de r), ports_start w url hostname s0).
Proof.
  unfold ports_start, after. set (s := rdap_start w url hostname s0).
  destruct (rdapDomainInfo w (domainName w hostname) s) as [[rdap|e] s1] eqn:E.
  - rewrite (domainExpiration_success _ _ _ _ E []).
    eexists. intros r. now rewrite (domainExpiration_success _ _ _ _ E r).
  - rewrite (domainExpiration_error _ _ _ _ E []).
    eexists. intros r. now rewrite (domainExpiration_error _ _ _ _ E r).
Qed.

(** ** Ping monitoring *)

Lemma pingMonitoring_resolved url s resp s1 :
  safeHeadOrGet w url 6000 s = (Return resp, s1) ->
  forall r, pingMonitoring w url r s =
    (Return (obj_set "pingMonitoring" (JObj
       [ ("status", JStr "reachable");
         ("time", JInt (Math_round (clock s1 - clock s)));
         ("unit", JStr "ms");
         ("method", JStr "http") ]) r), s1).
Proof.
  intros E r. unfold pingMonitoring, try_catch, bind, performance_now, ret.
  now rewrite E.
Qed.

Lemma pingMonitoring_rejected url s e s1 :
  safeHeadOrGet w url 6000 s = (Throw e, s1) ->
  forall r, pingMonitoring w url r s =
    (Return (obj_set "pingMonitoring" (JObj
       [ ("status", JStr "unreachable");
         ("method", JStr "http");
         ("error", JStr (message_or "fetch failed" e)) ]) r), s1).
Proof.
  intros E r. unfold pingMonitoring, try_catch, bind, performance_now, ret.
  now rewrite E.
Qed.

Lemma pingMonitoring_writes hostname url s0 :
  exists ping, forall r,
    pingMonitoring w url r (ping_start w url hostname s0) =
    (Return (obj_set "pingMonitoring" ping r), finish w url hostname s0).
Proof.
  unfold finish, after. set (s := ping_start w url hostname s0).
  destruct (safeHeadOrGet w url 6000 s) as [[resp|e] s1] eqn:E.
  - rewrite (pingMonitoring_resolved _ _ _ _ E []).
    eexists. intros r. now rewrite (pingMonitoring_resolved _ _ _ _ E r).
  - rewrite (pingMonitoring_rejected _ _ _ _ E []).
    eexists. intros r. now rewrite (pingMonitoring_rejected _ _ _ _ E r).
Qed.

(** ** Port monitoring *)

Lemma port_check_returns hostname hp s :
  port_check w hostname hp s =
  (Return (port hp, port_entry w hostname hp s),
   after (safeHeadOrGet w (port_target hostname hp) 5000) s).
Proof.
  unfold port_check, port_entry, after, try_catch, bind, performance_now, ret.
  now destruct (safeHeadOrGet w (port_target hostname hp) 5000 s) as [[resp|e] s1].
Qed.

Lemma port_entry_clock_only hostname hp s l :
  port_entry w hostname hp (mkState (clock s) l) = port_entry w hostname hp s.
Proof.
  unfold port_entry.
  destruct (safeHeadOrGet_clock_only w (port_target hostname hp) 5000 s l)
    as [Hf Hk].
  destruct (safeHeadOrGet w _ 5000 (mkState (clock s) l)) as [c1 s1].
  destruct (safeHeadOrGet w _ 5000 s) as [c2 s2].
  simpl in Hf, Hk. subst c2. destruct c1; [|reflexivity].
  simpl clock at 2. now rewrite Hk.
Qed.

(** The checks never reject, so neither does the [Promise.all] over them;
    each entry is the one of a check started when [Promise.all] was. *)
Lemma Promise_all_port_checks hostname hps t0 s :
  fst (Promise_all_from t0 (map (port_check w hostname) hps) s) =
  Return (map (fun hp => (port hp, port_entry w hostname hp (mkState t0 []))) hps).
Proof.
  revert s. induction hps as [|hp hps IH]; intros s; simpl; [reflexivity|].
  unfold start. rewrite port_check_returns.
  specialize (IH (after (safeHeadOrGet w (port_target hostname hp) 5000)
                        (mkState t0 (log s)))).
  destruct (Promise_all_from t0 _ _) as [cs s2]. simpl in IH. subst cs. simpl.
  f_equal. f_equal. f_equal.
  exact (port_entry_clock_only hostname hp (mkState t0 []) (log s)).
Qed.

(** When the checks are over: not before they started, at most five
    seconds later, and nothing was sent but requests to the checked URLs. *)
Lemma Promise_all_port_checks_bounds hostname hps t0 s :
  (forall t u m, 0 <= latency (net_fetch w t u m))%Q ->
  let s' := snd (Promise_all_from t0 (map (port_check w hostname) hps) s) in
  (t0 <= clock s' <= t0 + 5000)%Q /\
  exists l, log s' = (log s ++ l)%list /\
    Forall (fun q => exists hp, In hp hps /\ fetch_of (port_target hostname hp) q) l.
Proof.
  intros Hc. revert s. induction hps as [|hp hps IH]; intros s; simpl.
  - split; [lra|]. exists []. now rewrite app_nil_r.
  - unfold start. rewrite port_check_returns.
    pose proof (safeHeadOrGet_bounds w (port_target hostname hp) 5000
                  (mkState t0 (log s)) Hc ltac:(lra)) as [Hb (l1 & El1 & Fl1)].
    unfold after. simpl in Hb, El1.
    set (s1 := snd (safeHeadOrGet w (port_target hostname hp) 5000
                      (mkState t0 (log s)))) in *.
    specialize (IH s1). cbv zeta in IH. destruct IH as [Hb2 (l2 & El2 & Fl2)].
    pose proof (Promise_all_port_checks hostname hps t0 s1) as Hr.
    destruct (Promise_all_from t0 _ s1) as [cs s2]. simpl in Hr, Hb2, El2.
    subst cs. simpl. split.
    + destruct (Q.max_spec (clock s1) (clock s2)) as [[_ ->]|[_ ->]]; lra.
    + exists (l1 ++ l2)%list. rewrite El2, El1, app_assoc. split; [easy|].
      apply Forall_app. split.
      * eapply Forall_impl; [|exact Fl1]. intros q Hq. exists hp. now split; [left|].
      * eapply Forall_impl; [|exact Fl2]. intros q (hp' & Hin & Hq).
        exists hp'. now split; [right|].
Qed.

Lemma skipped_ports : skipped = TCP_PORTS.
Proof. reflexivity. Qed.

Lemma fold_set_port l inner r :
  fold_left set_port l (obj_set "portMonitoring" (JObj inner) r) =
  obj_set "portMonitoring"
    (JObj (fold_left (fun i pe => obj_set (Str.of_Z (fst pe)) (snd pe) i) l inner))
    r.
Proof.
  revert inner. induction l as [|[p e] l IH]; intros inner; simpl; [reflexivity|].
  now rewrite set_port_set, IH.
Qed.

Lemma fold_set_skipped l inner r :
  fold_left (fun r p => set_port r (p, skipped_entry)) l
    (obj_set "portMonitoring" (JObj inner) r) =
  obj_set "portMonitoring"
    (JObj (fold_left (fun i p => obj_set (Str.of_Z p) skipped_entry i) l inner))
    r.
Proof.
  revert inner. induction l as [|p l IH]; intros inner; simpl; [reflexivity|].
  now rewrite set_port_set, IH.
Qed.

Lemma port_object_built e80 e443 e8080 :
  fold_left (fun i p => obj_set (Str.of_Z p) skipped_entry i) skipped
    (fold_left (fun i pe => obj_set (Str.of_Z (fst pe)) (snd pe) i)
       [ (80, e80); (443, e443); (8080, e8080) ] []) =
  port_object e80 e443 e8080.
Proof. reflexivity. Qed.

Lemma portMonitoring_returns hostname s r :
  portMonitoring w hostname r s =
  (Return (obj_set "portMonitoring" (JObj (port_object
             (port_entry w hostname http80 s)
             (port_entry w hostname https443 s)
             (port_entry w hostname http8080 s))) r),
   after (Promise_all (map (port_check w hostname) HTTP_PORTS)) s).
Proof.
  unfold portMonitoring, bind, after, Promise_all.
  pose proof (Promise_all_port_checks hostname HTTP_PORTS (clock s) s) as Hr.
  destruct (Promise_all_from (clock s) _ s) as [cs s']. simpl in Hr. subst cs.
  unfold ret. simpl snd. f_equal. f_equal.
  change HTTP_PORTS with [http80; https443; http8080]. simpl map.
  rewrite fold_set_port, fold_set_skipped, port_object_built.
  now rewrite !(port_entry_clock_only hostname _ s []).
Qed.

Lemma portMonitoring_writes hostname url s0 :
  exists pm, forall r,
    portMonitoring w hostname r (ports_start w url hostname s0) =
    (Return (obj_set "portMonitoring" pm r), ping_start w url hostname s0).
Proof.
  unfold ping_start, after. rewrite portMonitoring_returns.
  eexists. intros r. now rewrite portMonitoring_returns.
Qed.

(** ** All the steps *)

(** The report for a target that parses: the nine properties in the order
    they are created, and the final state. *)
Lemma probes_writes url hostname ts s :
  exists wm rt dns ssl de pm ping,
    (forall r, websiteMonitoring w url r s =
       (Return (obj_set "responseTime" rt (obj_set "websiteMonitoring" wm r)),
        dns_start w url s)) /\
    (forall r, dnsMonitoring w hostname r (dns_start w url s) =
       (Return (obj_set "dnsMonitoring" dns r), ssl_start w url hostname s)) /\
    (forall r, sslMonitoring w hostname r (ssl_start w url hostname s) =
       (Return (obj_set "sslMonitoring" ssl r), rdap_start w url hostname s)) /\
    (forall r, domainExpiration w hostname r (rdap_start w url hostname s) =
       (Return (obj_set "domainExpiration" de r), ports_start w url hostname s)) /\
    (forall r, portMonitoring w hostname r (ports_start w url hostname s) =
       (Return (obj_set "portMonitoring" pm r), ping_start w url hostname s)) /\
    (forall r, pingMonitoring w url r (ping_start w url hostname s) =
       (Return (obj_set "pingMonitoring" ping r), finish w url hostname s)) /\
    probes w url hostname [ ("url", JStr url); ("timestamp", JStr ts) ] s =
    (Return [ ("url", JStr url); ("timestamp", JStr ts);
              ("websiteMonitoring", wm); ("responseTime", rt);
              ("dnsMonitoring", dns); ("sslMonitoring", ssl);
              ("domainExpiration", de); ("portMonitoring", pm);
              ("pingMonitoring", ping) ],
     finish w url hostname s).
Proof.
  destruct (websiteMonitoring_writes url s) as (wm & rt & H1).
  destruct (dnsMonitoring_writes hostname url s) as (dns & H2).
  destruct (sslMonitoring_writes hostname url s) as (ssl & H3).
  destruct (domainExpiration_writes hostname url s) as (de & H4).
  destruct (portMonitoring_writes hostname url s) as (pm & H5).
  destruct (pingMonitoring_writes hostname url s) as (ping & H6).
  exists wm, rt, dns, ssl, de, pm, ping.
  repeat (split; [assumption|]).
  unfold probes, bind. now rewrite H1, H2, H3, H4, H5, H6.
Qed.

End Steps.

(* ================================================================== *)
(** * The report of [monitorWebsite] *)
(* ================================================================== *)

Section Report.

Variable w : World.

Lemma monitorWebsite_invalid input s :
  URL_hostname w (Str.trim input) = None ->
  monitorWebsite w input s = (Throw InvalidURL, s).
Proof.
  intros E. unfold monitorWebsite, bind, Date_now_, new_URL_hostname, throw.
  cbv zeta. now rewrite E.
Qed.

(** The run on a target that parses: what the six steps write, each in the
    state the previous one left, and the report made of it. *)
Lemma monitorWebsite_report input hostname s :
  URL_hostname w (Str.trim input) = Some hostname ->
  let url := Str.trim input in
  exists wm rt dns ssl de pm ping,
    (forall r, websiteMonitoring w url r s =
       (Return (obj_set "responseTime" rt (obj_set "websiteMonitoring" wm r)),
        dns_start w url s)) /\
    (forall r, dnsMonitoring w hostname r (dns_start w url s) =
       (Return (obj_set "dnsMonitoring" dns r), ssl_start w url hostname s)) /\
    (forall r, sslMonitoring w hostname r (ssl_start w url hostname s) =
       (Return (obj_set "sslMonitoring" ssl r), rdap_start w url hostname s)) /\
    (forall r, domainExpiration w hostname r (rdap_start w url hostname s) =
       (Return (obj_set "domainExpiration" de r), ports_start w url hostname s)) /\
    (forall r, portMonitoring w hostname r (ports_start w url hostname s) =
       (Return (obj_set "portMonitoring" pm r), ping_start w url hostname s)) /\
    (forall r, pingMonitoring w url r (ping_start w url hostname s) =
       (Return (obj_set "pingMonitoring" ping r), finish w url hostname s)) /\
    monitorWebsite w input s =
    (Return (JObj
       [ ("url", JStr url);
         ("timestamp", JStr (Date_toISOString w (Date_now w (clock s))));
         ("websiteMonitoring", wm); ("responseTime", rt);
         ("dnsMonitoring", dns); ("sslMonitoring", ssl);
         ("domainExpiration", de); ("portMonitoring", pm);
         ("pingMonitoring", ping) ]),
     finish w url hostname s).
Proof.
  intros E url.
  destruct (probes_writes w url hostname
              (Date_toISOString w (Date_now w (clock s))) s)
    as (wm & rt & dns & ssl & de & pm & ping & H1 & H2 & H3 & H4 & H5 & H6 & HP).
  exists wm, rt, dns, ssl, de, pm, ping.
  repeat (split; [assumption|]).
  unfold monitorWebsite, bind, Date_now_, new_URL_hostname, ret.
  cbv zeta. rewrite E. fold url. now rewrite HP.
Qed.

(** Reading a step's value back from what it wrote on the empty object. *)
Lemma written_value {k v v'} {s s' : State} :
  (Return (obj_set k v []), s) = (Return (obj_set k v' []), s') ->
  v = v' /\ s = s'.
Proof. simpl. intros H. now inversion H. Qed.

(** ** The status of every slot *)

Lemma websiteMonitoring_status url s wm rt s' :
  (forall r, websiteMonitoring w url r s =
     (Return (obj_set "responseTime" rt (obj_set "websiteMonitoring" wm r)), s')) ->
  has_status ["online"; "offline"] wm /\ has_status ["good"; "slow"; "error"] rt.
Proof.
  intros H. specialize (H []).
  destruct (safeHeadOrGet w url 8000 s) as [[resp|e] s1] eqn:E.
  - rewrite (websiteMonitoring_resolved w _ _ _ _ E) in H.
    cbn [obj_set String.eqb Ascii.eqb Bool.eqb] in H.
    inversion H; subst. split.
    + eexists. split; [reflexivity|]. destruct (ok resp); simpl; auto.
    + eexists. split; [reflexivity|]. destruct (Qle_bool _ _); simpl; auto.
  - rewrite (websiteMonitoring_rejected w _ _ _ _ E) in H.
    cbn [obj_set String.eqb Ascii.eqb Bool.eqb] in H.
    inversion H; subst. split; eexists; (split; [reflexivity|]); simpl; auto.
Qed.

Lemma dnsMonitoring_status hostname s dns s' :
  (forall r, dnsMonitoring w hostname r s =
     (Return (obj_set "dnsMonitoring" dns r), s')) ->
  has_status ["resolved"] dns.
Proof.
  intros H. specialize (H []).
  rewrite dnsMonitoring_returns, dnsMonitoring_try_returns in H.
  apply written_value in H. destruct H as [<- _].
  eexists. split; [reflexivity|]. simpl; auto.
Qed.

Lemma sslMonitoring_status hostname s ssl s' :
  (forall r, sslMonitoring w hostname r s =
     (Return (obj_set "sslMonitoring" ssl r), s')) ->
  has_status ["valid"; "expired"; "error"] ssl.
Proof.
  intros H. specialize (H []).
  destruct (tls_certificate w hostname s) as [[cert|e] s1] eqn:E.
  - destruct (new_Date w (option_map JStr (valid_from cert))) as [vf|] eqn:Ef.
    + destruct (new_Date w (option_map JStr (valid_to cert))) as [vt|] eqn:Et.
      * rewrite (sslMonitoring_completed w _ _ _ _ _ _ E Ef Et) in H.
        apply written_value in H. destruct H as [<- _].
        eexists. split; [reflexivity|]. destruct (0 <? _); simpl; auto.
      * rewrite (sslMonitoring_invalid_date w _ _ _ _ E (or_intror Et)) in H.
        apply written_value in H. destruct H as [<- _].
        eexists. split; [reflexivity|]. simpl; auto.
    + rewrite (sslMonitoring_invalid_date w _ _ _ _ E (or_introl Ef)) in H.
      apply written_value in H. destruct H as [<- _].
      eexists. split; [reflexivity|]. simpl; auto.
  - rewrite (sslMonitoring_rejected w _ _ _ _ E) in H.
    apply written_value in H. destruct H as [<- _].
    eexists. split; [reflexivity|]. simpl; auto.
Qed.

Lemma domainExpiration_status hostname s de s' :
  (forall r, domainExpiration w hostname r s =
     (Return (obj_set "domainExpiration" de r), s')) ->
  has_status ["success"; "error"] de.
Proof.
  intros H. specialize (H []).
  destruct (rdapDomainInfo w (domainName w hostname) s) as [[rdap|e] s1] eqn:E.
  - rewrite (domainExpiration_success w _ _ _ _ E) in H.
    apply written_value in H. destruct H as [<- _].
    eexists. split; [reflexivity|]. simpl; auto.
  - rewrite (domainExpiration_error w _ _ _ _ E) in H.
    apply written_value in H. destruct H as [<- _].
    eexists. split; [reflexivity|]. simpl; auto.
Qed.

Lemma pingMonitoring_status url s ping s' :
  (forall r, pingMonitoring w url r s =
     (Return (obj_set "pingMonitoring" ping r), s')) ->
  has_status ["reachable"; "unreachable"] ping.
Proof.
  intros H. specialize (H []).
  destruct (safeHeadOrGet w url 6000 s) as [[resp|e] s1] eqn:E.
  - rewrite (pingMonitoring_resolved w _ _ _ _ E) in H.
    apply written_value in H. destruct H as [<- _].
    eexists. split; [reflexivity|]. simpl; auto.
  - rewrite (pingMonitoring_rejected w _ _ _ _ E) in H.
    apply written_value in H. destruct H as [<- _].
    eexists. split; [reflexivity|]. simpl; auto.
Qed.

Lemma port_entry_status hostname hp s :
  has_status ["open"; "closed-or-filtered"] (port_entry w hostname hp s).
Proof.
  unfold port_entry.
  destruct (safeHeadOrGet w _ 5000 s) as [[resp|e] s1];
    eexists; (split; [reflexivity|]); simpl; auto.
Qed.

Lemma portMonitoring_status hostname s pm s' :
  (forall r, portMonitoring w hostname r s =
     (Return (obj_set "portMonitoring" pm r), s')) ->
  exists ports, pm = JObj ports /\
    forall p, In p ALL_PORTS ->
      exists e, obj_get (Str.of_Z p) ports = Some e /\ has_status PORT_STATUSES e.
Proof.
  intros H. specialize (H []). rewrite portMonitoring_returns in H.
  apply written_value in H. destruct H as [<- _].
  eexists. split; [reflexivity|]. intros p Hp.
  assert (Hskip : has_status PORT_STATUSES skipped_entry).
  { eexists. split; [reflexivity|]. simpl; auto. }
  assert (Hchk : forall hp, has_status PORT_STATUSES (port_entry w hostname hp s)).
  { intros hp. destruct (port_entry_status hostname hp s) as (st & Hst & Hin).
    exists st. split; [exact Hst|]. simpl in *. tauto. }
  simpl in Hp.
  repeat (destruct Hp as [<- | Hp];
          [eexists; split; [reflexivity|]; solve [apply Hskip | apply Hchk]|]).
  contradiction.
Qed.

End Report.

Ltac read_slot H L :=
  specialize (H []); rewrite L in H; apply written_value in H;
  destruct H as [<- _].

(* ================================================================== *)
(** * The shape of the report *)
(* ================================================================== *)

(** C1.  For every target that parses, whatever the network does,
    [monitorWebsite] returns an object whose properties are exactly [url],
    [timestamp], [websiteMonitoring], [responseTime], [dnsMonitoring],
    [sslMonitoring], [domainExpiration], [portMonitoring] and
    [pingMonitoring]; each probe slot carries a [status] out of the values
    of that probe (success or error), the port slot carrying one per port,
    for each of the fourteen ports. *)
Theorem report_has_every_slot w input hostname s :
  URL_hostname w (Str.trim input) = Some hostname ->
  exists fields s',
    monitorWebsite w input s = (Return (JObj fields), s') /\
    obj_keys fields = TOP_LEVEL_KEYS /\
    obj_get "url" fields = Some (JStr (Str.trim input)) /\
    (exists ts, obj_get "timestamp" fields = Some (JStr ts)) /\
    slot_with_status "websiteMonitoring" ["online"; "offline"] fields /\
    slot_with_status "responseTime" ["good"; "slow"; "error"] fields /\
    slot_with_status "dnsMonitoring" ["resolved"] fields /\
    slot_with_status "sslMonitoring" ["valid"; "expired"; "error"] fields /\
    slot_with_status "domainExpiration" ["success"; "error"] fields /\
    slot_with_status "pingMonitoring" ["reachable"; "unreachable"] fields /\
    exists ports,
      obj_get "portMonitoring" fields = Some (JObj ports) /\
      forall p, In p ALL_PORTS ->
        exists e, obj_get (Str.of_Z p) ports = Some e /\
                  has_status PORT_STATUSES e.
Proof.
  intros E.
  destruct (monitorWebsite_report w input hostname s E)
    as (wm & rt & dns & ssl & de & pm & ping & H1 & H2 & H3 & H4 & H5 & H6 & HR).
  destruct (websiteMonitoring_status w _ _ _ _ _ H1) as [Swm Srt].
  pose proof (dnsMonitoring_status w _ _ _ _ H2) as Sdns.
  pose proof (sslMonitoring_status w _ _ _ _ H3) as Sssl.
  pose proof (domainExpiration_status w _ _ _ _ H4) as Sde.
  pose proof (pingMonitoring_status w _ _ _ _ H6) as Sping.
  destruct (portMonitoring_status w _ _ _ _ H5) as (ports & -> & Sports).
  do 2 eexists. split; [exact HR|].
  split; [reflexivity|]. split; [reflexivity|]. split; [now eexists|].
  repeat (split; [eexists; split; [reflexivity|assumption]|]).
  exists ports. split; [reflexivity | exact Sports].
Qed.

Lemma report_has_every_slot_witness :
  URL_hostname (Sample.world Sample.net_down) (Str.trim "https://example.com")
    = Some "example.com" /\
  exists fields s',
    monitorWebsite (Sample.world Sample.net_down) "https://example.com"
      Sample.s0 = (Return (JObj fields), s') /\
    obj_keys fields = TOP_LEVEL_KEYS.
Proof.
  assert (E : URL_hostname (Sample.world Sample.net_down)
                (Str.trim "https://example.com") = Some "example.com")
    by (vm_compute; reflexivity).
  split; [exact E|].
  destruct (report_has_every_slot (Sample.world Sample.net_down)
              "https://example.com" "example.com" Sample.s0 E)
    as (fields & s' & HR & HK & _).
  exists fields, s'. split; assumption.
Defined.

(* ================================================================== *)
(** * Failure isolation *)
(* ================================================================== *)

(** C2.  On a target that parses, no failure of a probe leaves
    [monitorWebsite]: it returns a report with all its properties whatever
    each request does, and a request that fails is turned into the error
    outcome of its own slot.  In particular, when the HTTP request fails,
    [websiteMonitoring.status] is ['offline'] and [responseTime.status] is
    ['error'], while the DNS slot holds the records of its own lookups,
    the TLS slot its own status and the port slot the entries of its own
    checks. *)
Theorem probe_failures_are_isolated w input hostname s :
  URL_hostname w (Str.trim input) = Some hostname ->
  let url := Str.trim input in
  exists fields s',
    monitorWebsite w input s = (Return (JObj fields), s') /\
    (forall k, In k TOP_LEVEL_KEYS -> obj_get k fields <> None) /\
    (forall e s1, safeHeadOrGet w url 8000 s = (Throw e, s1) ->
       obj_get "websiteMonitoring" fields = Some (JObj
         [ ("status", JStr "offline");
           ("statusCode", JNull);
           ("error", JStr (message_or "fetch failed" e)) ]) /\
       obj_get "responseTime" fields = Some (JObj
         [ ("value", JNull); ("unit", JStr "ms"); ("status", JStr "error") ]) /\
       obj_get "dnsMonitoring" fields = Some (JObj
         [ ("status", JStr "resolved");
           ("records", JObj (dns_records
              (settle (outcome (dns_resolve4 w (clock s1) hostname)))
              (settle (outcome (dns_resolveMx w (clock s1) hostname)))
              (settle (outcome (dns_resolveTxt w (clock s1) hostname)))
              (settle (outcome (dns_resolveNs w (clock s1) hostname))))) ]) /\
       slot_with_status "sslMonitoring" ["valid"; "expired"; "error"] fields /\
       obj_get "portMonitoring" fields = Some (JObj (port_object
         (port_entry w hostname http80 (ports_start w url hostname s))
         (port_entry w hostname https443 (ports_start w url hostname s))
         (port_entry w hostname http8080 (ports_start w url hostname s))))) /\
    (forall e s1,
       tls_certificate w hostname (ssl_start w url hostname s) = (Throw e, s1) ->
       obj_get "sslMonitoring" fields = Some (JObj
         [ ("status", JStr "error");
           ("error", JStr (message_or "TLS failed" e)) ])) /\
    (forall e s1,
       rdapDomainInfo w (domainName w hostname) (rdap_start w url hostname s)
         = (Throw e, s1) ->
       obj_get "domainExpiration" fields = Some (JObj
         [ ("status", JStr "error");
           ("error", JStr (message_or "RDAP failed" e)) ])) /\
    (forall hp e s1, In hp HTTP_PORTS ->
       safeHeadOrGet w (port_target hostname hp) 5000
         (ports_start w url hostname s) = (Throw e, s1) ->
       exists ports,
         obj_get "portMonitoring" fields = Some (JObj ports) /\
         obj_get (Str.of_Z (port hp)) ports =
           Some (JObj [ ("status", JStr "closed-or-filtered") ])) /\
    (forall e s1,
       safeHeadOrGet w url 6000 (ping_start w url hostname s) = (Throw e, s1) ->
       obj_get "pingMonitoring" fields = Some (JObj
         [ ("status", JStr "unreachable");
           ("method", JStr "http");
           ("error", JStr (message_or "fetch failed" e)) ])).
Proof.
  intros E url.
  destruct (monitorWebsite_report w input hostname s E)
    as (wm & rt & dns & ssl & de & pm & ping & H1 & H2 & H3 & H4 & H5 & H6 & HR).
  fold url in H1, H2, H3, H4, H5, H6, HR.
  do 2 eexists. split; [exact HR|]. split; [|split; [|split; [|split; [|split]]]].
  - intros k Hk. simpl in Hk.
    repeat (destruct Hk as [<- | Hk]; [discriminate|]). contradiction.
  - intros e s1 Ef.
    pose proof (sslMonitoring_status w _ _ _ _ H3) as Sssl.
    pose proof (H1 []) as H1'.
    rewrite (websiteMonitoring_rejected w _ _ _ _ Ef) in H1'.
    cbn [obj_set String.eqb Ascii.eqb Bool.eqb] in H1'.
    injection H1' as Hwm Hrt Hs. subst wm rt s1.
    read_slot H5 portMonitoring_returns.
    specialize (H2 []).
    rewrite dnsMonitoring_returns, dnsMonitoring_try_returns in H2.
    apply written_value in H2. destruct H2 as [<- _].
    repeat split; try reflexivity.
    eexists. split; [reflexivity | exact Sssl].
  - intros e s1 Ef. read_slot H3 (sslMonitoring_rejected w _ _ _ _ Ef).
    reflexivity.
  - intros e s1 Ef. read_slot H4 (domainExpiration_error w _ _ _ _ Ef).
    reflexivity.
  - intros hp e s1 Hin Ef. read_slot H5 portMonitoring_returns.
    eexists. split; [reflexivity|].
    simpl in Hin. destruct Hin as [<- | [<- | [<- | []]]];
      unfold port_object, port_entry;
      change http80 with (mkHttpPort 80 "http");
      change https443 with (mkHttpPort 443 "https");
      change http8080 with (mkHttpPort 8080 "http");
      rewrite Ef; reflexivity.
  - intros e s1 Ef. read_slot H6 (pingMonitoring_rejected w _ _ _ _ Ef).
    reflexivity.
Qed.

Lemma probe_failures_are_isolated_witness :
  URL_hostname (Sample.world Sample.net_down) (Str.trim "https://example.com")
    = Some "example.com" /\
  exists fields s',
    monitorWebsite (Sample.world Sample.net_down) "https://example.com"
      Sample.s0 = (Return (JObj fields), s') /\
    obj_get "websiteMonitoring" fields = Some (JObj
      [ ("status", JStr "offline");
        ("statusCode", JNull);
        ("error", JStr "This operation was aborted") ]) /\
    obj_get "responseTime" fields = Some (JObj
      [ ("value", JNull); ("unit", JStr "ms"); ("status", JStr "error") ]) /\
    slot_with_status "sslMonitoring" ["valid"; "expired"; "error"] fields.
Proof.
  assert (E : URL_hostname (Sample.world Sample.net_down)
                (Str.trim "https://example.com") = Some "example.com")
    by (vm_compute; reflexivity).
  split; [exact E|].
  destruct (probe_failures_are_isolated (Sample.world Sample.net_down)
              "https://example.com" "example.com" Sample.s0 E)
    as (fields & s' & HR & _ & Hhttp & _).
  assert (Ef : safeHeadOrGet (Sample.world Sample.net_down)
                 (Str.trim "https://example.com") 8000 Sample.s0 =
               (Throw AbortError,
                mkState 8000 [ReqFetch "https://example.com" HEAD]))
    by (vm_compute; reflexivity).
  destruct (Hhttp _ _ Ef) as (Hwm & Hrt & _ & Hssl & _).
  exists fields, s'. repeat split; assumption.
Defined.

(* ================================================================== *)
(** * The DNS probe *)
(* ================================================================== *)

Lemma dns_records_get {a mx txt ns} :
  let records := dns_records (settle a) (settle mx) (settle txt) (settle ns) in
  obj_get "A" records = record_of JStrings a /\
  obj_get "MX" records = record_of (fun v => JStrings (map exchange v)) mx /\
  obj_get "TXT" records = record_of (fun v => JStrings (List.concat v)) txt /\
  obj_get "NS" records = record_of JStrings ns /\
  incl (obj_keys records) ["A"; "MX"; "TXT"; "NS"].
Proof.
  destruct a, mx, txt, ns; cbv zeta; repeat split; try reflexivity;
    intros k Hk; simpl in Hk |- *; tauto.
Qed.

(** C6.  In the report of a target that parses, [dnsMonitoring.status] is
    ['resolved'] and each of the keys [A], [MX], [TXT] and [NS] of
    [dnsMonitoring.records] is there exactly when its own lookup succeeded,
    with the addresses, the exchanges, the flattened texts or the name
    servers it returned, whatever the three other lookups did; no other key
    is there.  The status ['error'] does not arise from a failing lookup,
    not even when all four fail. *)
Theorem dns_lookups_are_independent w input hostname s :
  URL_hostname w (Str.trim input) = Some hostname ->
  let t := clock (dns_start w (Str.trim input) s) in
  exists fields s' records,
    monitorWebsite w input s = (Return (JObj fields), s') /\
    obj_get "dnsMonitoring" fields = Some (JObj
      [ ("status", JStr "resolved"); ("records", JObj records) ]) /\
    obj_get "A" records =
      record_of JStrings (outcome (dns_resolve4 w t hostname)) /\
    obj_get "MX" records =
      record_of (fun v => JStrings (map exchange v))
        (outcome (dns_resolveMx w t hostname)) /\
    obj_get "TXT" records =
      record_of (fun v => JStrings (List.concat v))
        (outcome (dns_resolveTxt w t hostname)) /\
    obj_get "NS" records =
      record_of JStrings (outcome (dns_resolveNs w t hostname)) /\
    incl (obj_keys records) ["A"; "MX"; "TXT"; "NS"].
Proof.
  intros E t.
  destruct (monitorWebsite_report w input hostname s E)
    as (wm & rt & dns & ssl & de & pm & ping & H1 & H2 & H3 & H4 & H5 & H6 & HR).
  specialize (H2 []).
  rewrite dnsMonitoring_returns, dnsMonitoring_try_returns in H2.
  apply written_value in H2. destruct H2 as [<- _].
  do 3 eexists. split; [exact HR|]. split; [reflexivity|].
  exact dns_records_get.
Qed.

Lemma dns_lookups_are_independent_witness :
  URL_hostname (Sample.world Sample.net_up) (Str.trim "https://example.com")
    = Some "example.com" /\
  exists fields s' records,
    monitorWebsite (Sample.world Sample.net_up) "https://example.com"
      Sample.s0 = (Return (JObj fields), s') /\
    obj_get "dnsMonitoring" fields = Some (JObj
      [ ("status", JStr "resolved"); ("records", JObj records) ]) /\
    obj_get "A" records = Some (JStrings ["93.184.215.14"]) /\
    obj_get "MX" records = None.
Proof.
  assert (E : URL_hostname (Sample.world Sample.net_up)
                (Str.trim "https://example.com") = Some "example.com")
    by (vm_compute; reflexivity).
  split; [exact E|].
  destruct (dns_lookups_are_independent (Sample.world Sample.net_up)
              "https://example.com" "example.com" Sample.s0 E)
    as (fields & s' & records & HR & Hd & HA & HMX & _).
  exists fields, s', records. repeat split; assumption.
Defined.

(** C10.  The [try] of the DNS step never throws: in every world and from
    every state it returns, the four lookups being settled by
    [Promise.allSettled]; so no handler put around it ever runs, the
    [catch] that would write [{ status: 'error' }] included, and the step
    always writes the status ['resolved'], be it with an empty record
    set. *)
Theorem dns_catch_is_unreachable w hostname result s :
  (exists r' s', dnsMonitoring_try w hostname result s = (Return r', s')) /\
  (forall handler,
     try_catch (dnsMonitoring_try w hostname result) handler s =
     dnsMonitoring_try w hostname result s) /\
  (exists records s',
     dnsMonitoring w hostname result s =
     (Return (obj_set "dnsMonitoring" (JObj
        [ ("status", JStr "resolved"); ("records", JObj records) ]) result),
      s')) /\
  fst (dnsMonitoring w hostname result s) <>
  Return (obj_set "dnsMonitoring" (JObj [ ("status", JStr "error") ]) result).
Proof.
  split; [|split; [|split]].
  - rewrite dnsMonitoring_try_returns. now do 2 eexists.
  - intros handler. unfold try_catch. now rewrite dnsMonitoring_try_returns.
  - rewrite dnsMonitoring_returns, dnsMonitoring_try_returns. now do 2 eexists.
  - rewrite dnsMonitoring_returns, dnsMonitoring_try_returns. simpl fst.
    intros H. injection H as H.
    assert (G : obj_get "dnsMonitoring" (obj_set "dnsMonitoring"
                  (JObj [("status", JStr "error")]) result) =
                Some (JObj [("status", JStr "error")]))
      by apply obj_get_set_same.
    rewrite <- H, obj_get_set_same in G. discriminate.
Qed.

(* ================================================================== *)
(** * The TLS probe *)
(* ================================================================== *)

(** [Math.round] of a quotient of integers, in integers. *)
Lemma days_between_div a b :
  days_between a b = (2 * (a - b) + 86400000) / 172800000.
Proof.
  unfold days_between, Math_round, Qfloor, Qplus, Qdiv, Qmult, Qinv, inject_Z.
  cbn [Qnum Qden]. f_equal. lia.
Qed.

(** [days_between a b] is the whole number of days nearest to [a - b], the
    half going up. *)
Lemma days_between_nearest a b :
  let d := days_between a b in
  86400000 * (2 * d - 1) <= 2 * (a - b) < 86400000 * (2 * d + 1).
Proof.
  cbv zeta. rewrite days_between_div.
  pose proof (Z.div_mod (2 * (a - b) + 86400000) 172800000 ltac:(lia)) as Hd.
  pose proof (Z.mod_pos_bound (2 * (a - b) + 86400000) 172800000 ltac:(lia)) as Hm.
  lia.
Qed.

Lemma days_between_whole a b n : a = b + n * 86400000 -> days_between a b = n.
Proof.
  intros ->. rewrite days_between_div.
  replace (2 * (b + n * 86400000 - b) + 86400000)
    with (86400000 + n * 172800000) by lia.
  rewrite Z.div_add by lia. reflexivity.
Qed.

(** C9.  When the handshake of the TLS step completes with a certificate
    whose two dates parse, [sslMonitoring.certificate.daysUntilExpiry] is
    the whole number of days nearest to [validTo - Date.now()] (a half
    going up) and [sslMonitoring.status] is ['valid'] when that number is
    positive and ['expired'] otherwise; a certificate that ends in exactly
    ten days gives 10 and ['valid']. *)
Theorem ssl_days_until_expiry w input hostname s cert s1 vf vt :
  URL_hostname w (Str.trim input) = Some hostname ->
  tls_certificate w hostname (ssl_start w (Str.trim input) hostname s)
    = (Return cert, s1) ->
  new_Date w (option_map JStr (valid_from cert)) = Some vf ->
  new_Date w (option_map JStr (valid_to cert)) = Some vt ->
  let now := Date_now w (clock s1) in
  let days := days_between vt now in
  exists fields s',
    monitorWebsite w input s = (Return (JObj fields), s') /\
    obj_get "sslMonitoring" fields = Some (JObj
      [ ("status", JStr (if 0 <? days then "valid" else "expired"));
        ("certificate", JObj
           [ ("issuer", JStr (issuer_name cert));
             ("subject", JStr (subject_name cert hostname));
             ("validFrom", JStr (Date_toISOString w vf));
             ("validTo", JStr (Date_toISOString w vt));
             ("daysUntilExpiry", JInt days) ]) ]) /\
    86400000 * (2 * days - 1) <= 2 * (vt - now) < 86400000 * (2 * days + 1) /\
    (vt = now + 10 * 86400000 -> days = 10 /\ (0 <? days) = true).
Proof.
  intros E Et Ef Eto now days.
  destruct (monitorWebsite_report w input hostname s E)
    as (wm & rt & dns & ssl & de & pm & ping & H1 & H2 & H3 & H4 & H5 & H6 & HR).
  read_slot H3 (sslMonitoring_completed w _ _ _ _ _ _ Et Ef Eto).
  do 2 eexists. split; [exact HR|]. split; [reflexivity|].
  split; [apply days_between_nearest|].
  intros Hten. unfold days. rewrite (days_between_whole _ _ 10 Hten). now split.
Qed.

Lemma ssl_days_until_expiry_witness :
  exists fields s',
    monitorWebsite (Sample.world Sample.net_up) "https://example.com"
      Sample.s0 = (Return (JObj fields), s') /\
    obj_get "sslMonitoring" fields = Some (JObj
      [ ("status", JStr "valid");
        ("certificate", JObj
           [ ("issuer", JStr "Example CA");
             ("subject", JStr "example.com");
             ("validFrom", JStr "2026-10-03T00:00:00.000Z");
             ("validTo", JStr "2026-11-12T04:46:00.000Z");
             ("daysUntilExpiry", JInt 10) ]) ]).
Proof.
  pose (W := Sample.world Sample.net_up).
  assert (E : URL_hostname W (Str.trim "https://example.com")
              = Some "example.com") by (vm_compute; reflexivity).
  assert (Et : tls_certificate W "example.com"
                 (ssl_start W (Str.trim "https://example.com") "example.com"
                    Sample.s0) =
               (Return Sample.certificate,
                mkState 185 [ ReqFetch "https://example.com" HEAD;
                              ReqResolve RR_A "example.com";
                              ReqResolve RR_MX "example.com";
                              ReqResolve RR_TXT "example.com";
                              ReqResolve RR_NS "example.com";
                              ReqTls "example.com" 443 ]))
    by (vm_compute; reflexivity).
  destruct (ssl_days_until_expiry W "https://example.com" "example.com"
              Sample.s0 Sample.certificate _ 1790985600000 1794458760000
              E Et eq_refl eq_refl)
    as (fields & s' & HR & Hssl & _).
  exists fields, s'. split; [exact HR|].
  rewrite Hssl. vm_compute. reflexivity.
Defined.

(* ================================================================== *)
(** * The port probe *)
(* ================================================================== *)

Lemma Math_round_bounds a b x :
  (inject_Z a <= x <= inject_Z b)%Q -> a <= Math_round x <= b.
Proof.
  intros [Ha Hb]. unfold Math_round. split.
  - rewrite <- (Qfloor_Z a). apply Qfloor_resp_le. lra.
  - assert (Hq : Qfloor (inject_Z b + (1 # 2)) = b).
    { unfold Qfloor, Qplus, inject_Z. cbn [Qnum Qden].
      symmetry. apply Z.div_unique with (r := 1); lia. }
    etransitivity; [|apply Z.eq_le_incl, Hq]. apply Qfloor_resp_le. lra.
Qed.

(** C8.  In the report of a target that parses, in a world where no reply
    precedes its request: each of the ports 21, 22, 23, 25, 53, 110, 143,
    993, 995, 3306 and 5432 has the entry [{ status: 'skipped_serverless' }]
    and the port step sends nothing but HEAD and GET requests to
    [http://host/], [https://host/] and [http://host:8080/]; each of the
    ports 80, 443 and 8080 is probed with [safeHeadOrGet] under a time-out
    of 5000 ms, and has the entry [{ status: 'open', responseTime,
    statusCode }], with the status code of the response and a rounded
    duration between 0 and 5000, when that request resolves, and
    [{ status: 'closed-or-filtered' }] when it rejects. *)
Theorem port_statuses w input hostname s :
  causal w ->
  URL_hostname w (Str.trim input) = Some hostname ->
  let url := Str.trim input in
  let sp := ports_start w url hostname s in
  exists fields s' ports,
    monitorWebsite w input s = (Return (JObj fields), s') /\
    obj_get "portMonitoring" fields = Some (JObj ports) /\
    (forall p, In p TCP_PORTS ->
       obj_get (Str.of_Z p) ports =
       Some (JObj [ ("status", JStr "skipped_serverless") ])) /\
    map (fun hp => (port hp, port_target hostname hp)) HTTP_PORTS =
      [ (80, "http://" ++ hostname ++ "/");
        (443, "https://" ++ hostname ++ "/");
        (8080, "http://" ++ hostname ++ ":8080/") ] /\
    (forall hp, In hp HTTP_PORTS ->
       match safeHeadOrGet w (port_target hostname hp) 5000 sp with
       | (Return resp, s1) =>
           exists rt,
             obj_get (Str.of_Z (port hp)) ports = Some (JObj
               [ ("status", JStr "open");
                 ("responseTime", JInt rt);
                 ("statusCode", JInt (status resp)) ]) /\
             rt = Math_round (clock s1 - clock sp) /\
             0 <= rt <= 5000
       | (Throw _, _) =>
           obj_get (Str.of_Z (port hp)) ports =
           Some (JObj [ ("status", JStr "closed-or-filtered") ])
       end) /\
    exists sent,
      log (ping_start w url hostname s) = (log sp ++ sent)%list /\
      Forall (fun q => exists hp, In hp HTTP_PORTS /\
                                  fetch_of (port_target hostname hp) q) sent.
Proof.
  intros Hc E url sp.
  destruct (monitorWebsite_report w input hostname s E)
    as (wm & rt & dns & ssl & de & pm & ping & H1 & H2 & H3 & H4 & H5 & H6 & HR).
  fold url in H5, HR. fold sp in H5.
  read_slot H5 portMonitoring_returns.
  do 3 eexists. split; [exact HR|]. split; [reflexivity|].
  split; [|split; [reflexivity|split]].
  - intros p Hp. simpl in Hp.
    repeat (destruct Hp as [<- | Hp]; [reflexivity|]). contradiction.
  - intros hp Hin.
    assert (Hget : obj_get (Str.of_Z (port hp))
                     (port_object (port_entry w hostname http80 sp)
                        (port_entry w hostname https443 sp)
                        (port_entry w hostname http8080 sp)) =
                   Some (port_entry w hostname hp sp)).
    { simpl in Hin. destruct Hin as [<- | [<- | [<- | []]]]; reflexivity. }
    rewrite Hget. unfold port_entry.
    pose proof (safeHeadOrGet_bounds w (port_target hostname hp) 5000 sp
                  (fetch_causal w Hc) ltac:(lra)) as [Hb _].
    destruct (safeHeadOrGet w (port_target hostname hp) 5000 sp)
      as [[resp|e] s1]; [|reflexivity].
    simpl in Hb. eexists. split; [reflexivity|]. split; [reflexivity|].
    apply Math_round_bounds.
    change (inject_Z 0) with 0%Q. change (inject_Z 5000) with 5000%Q. lra.
  - unfold ping_start, after. rewrite portMonitoring_returns.
    unfold after, Promise_all. simpl snd.
    apply (Promise_all_port_checks_bounds w hostname HTTP_PORTS (clock sp) sp
             (fetch_causal w Hc)).
Qed.

(** The sample worlds are causal. *)
Ltac sample_causal :=
  constructor; simpl; intros;
  repeat match goal with
  | H : context [Sample.is_rdap ?u] |- _ => destruct (Sample.is_rdap u)
  | |- context [Sample.is_rdap ?u] => destruct (Sample.is_rdap u)
  | H : context [Qle_bool ?a ?b] |- _ => destruct (Qle_bool a b)
  | |- context [Qle_bool ?a ?b] => destruct (Qle_bool a b)
  | H : outcome _ = Return _ |- _ => simpl in H
  | H : Return _ = Return _ |- _ => injection H as H; subst
  | H : Throw _ = Return _ |- _ => discriminate H
  end; simpl; try discriminate.

Lemma net_up_causal : causal (Sample.world Sample.net_up).
Proof. unfold Sample.net_up. sample_causal. Defined.

Lemma net_down_causal : causal (Sample.world Sample.net_down).
Proof. unfold Sample.net_down. sample_causal. Defined.

Lemma port_statuses_witness :
  exists fields s' ports,
    monitorWebsite (Sample.world Sample.net_up) "https://example.com"
      Sample.s0 = (Return (JObj fields), s') /\
    obj_get "portMonitoring" fields = Some (JObj ports) /\
    obj_get "22" ports = Some (JObj [ ("status", JStr "skipped_serverless") ]) /\
    obj_get "443" ports = Some (JObj
      [ ("status", JStr "open");
        ("responseTime", JInt 120);
        ("statusCode", JInt 200) ]).
Proof.
  pose (W := Sample.world Sample.net_up).
  assert (E : URL_hostname W (Str.trim "https://example.com")
              = Some "example.com") by (vm_compute; reflexivity).
  destruct (port_statuses W "https://example.com" "example.com" Sample.s0
              net_up_causal E)
    as (fields & s' & ports & HR & Hpm & Hskip & _ & Hopen & _).
  exists fields, s', ports. split; [exact HR|]. split; [exact Hpm|]. split.
  - apply (Hskip 22). simpl. tauto.
  - specialize (Hopen https443 (or_intror (or_introl eq_refl))).
    vm_compute in Hopen. destruct Hopen as (rt & Hget & -> & _).
    exact Hget.
Defined.

(* ================================================================== *)
(** * The ping probe *)
(* ================================================================== *)

(** Servers that come up one second after the run started: the HTTP probe
    fails, and the ping, a request of its own sent later, succeeds. *)
Lemma ping_does_not_reuse_http_timing :
  exists fields s',
    monitorWebsite (Sample.world Sample.net_flap) "https://example.com"
      Sample.s0 = (Return (JObj fields), s') /\
    obj_get "responseTime" fields = Some (JObj
      [ ("value", JNull); ("unit", JStr "ms"); ("status", JStr "error") ]) /\
    obj_get "pingMonitoring" fields = Some (JObj
      [ ("status", JStr "reachable"); ("time", JInt 30);
        ("unit", JStr "ms"); ("method", JStr "http") ]) /\
    ~ ping_reuses_http_timing fields.
Proof.
  do 2 eexists. split; [vm_compute; reflexivity|].
  split; [reflexivity|]. split; [reflexivity|].
  intros (rt & ping & Hrt & Hping & Hfail & _).
  injection Hrt as <-. injection Hping as <-.
  specialize (Hfail eq_refl). discriminate Hfail.
Qed.

(** C5, amended.  The ping outcome comes from a request of its own: once
    the port step is over, [safeHeadOrGet] is called again on the URL with
    a time-out of 6000 ms.  [pingMonitoring] is [{ status: 'reachable',
    time, unit: 'ms', method: 'http' }] with the rounded duration of that
    request when it resolves, and [{ status: 'unreachable', method: 'http',
    error }] with the message of the error when it rejects; [method] is
    ['http'] in both. *)
Theorem ping_is_a_request_of_its_own w input hostname s :
  URL_hostname w (Str.trim input) = Some hostname ->
  let url := Str.trim input in
  let sp := ping_start w url hostname s in
  exists fields s' ping,
    monitorWebsite w input s = (Return (JObj fields), s') /\
    obj_get "pingMonitoring" fields = Some ping /\
    get "method" ping = Some (JStr "http") /\
    match safeHeadOrGet w url 6000 sp with
    | (Return _, s1) =>
        ping = JObj [ ("status", JStr "reachable");
                      ("time", JInt (Math_round (clock s1 - clock sp)));
                      ("unit", JStr "ms");
                      ("method", JStr "http") ]
    | (Throw e, _) =>
        ping = JObj [ ("status", JStr "unreachable");
                      ("method", JStr "http");
                      ("error", JStr (message_or "fetch failed" e)) ]
    end.
Proof.
  intros E url sp.
  destruct (monitorWebsite_report w input hostname s E)
    as (wm & rt & dns & ssl & de & pm & ping & H1 & H2 & H3 & H4 & H5 & H6 & HR).
  fold url in H6, HR. fold sp in H6.
  destruct (safeHeadOrGet w url 6000 sp) as [[resp|e] s1] eqn:Ep.
  - read_slot H6 (pingMonitoring_resolved w _ _ _ _ Ep).
    do 3 eexists. split; [exact HR|]. repeat split; reflexivity.
  - read_slot H6 (pingMonitoring_rejected w _ _ _ _ Ep).
    do 3 eexists. split; [exact HR|]. repeat split; reflexivity.
Qed.

Lemma ping_is_a_request_of_its_own_witness :
  exists fields s',
    monitorWebsite (Sample.world Sample.net_down) "https://example.com"
      Sample.s0 = (Return (JObj fields), s') /\
    obj_get "pingMonitoring" fields = Some (JObj
      [ ("status", JStr "unreachable");
        ("method", JStr "http");
        ("error", JStr "This operation was aborted") ]).
Proof.
  pose (W := Sample.world Sample.net_down).
  assert (E : URL_hostname W (Str.trim "https://example.com")
              = Some "example.com") by (vm_compute; reflexivity).
  destruct (ping_is_a_request_of_its_own W "https://example.com" "example.com"
              Sample.s0 E)
    as (fields & s' & ping & HR & Hget & _ & Hping).
  exists fields, s'. split; [exact HR|].
  vm_compute in Hping. now rewrite Hget, Hping.
Defined.

(* ================================================================== *)
(** * The domain expiry probe *)
(* ================================================================== *)

(** [rdapDomainInfo], case by case on what the registry answers. *)
Lemma rdapDomainInfo_unfold w domain s :
  rdapDomainInfo w domain s =
  let reply := net_fetch w (clock s) (rdap_url domain) GET in
  let s1 := mkState (clock s + latency reply)
              (log s ++ [ReqFetch (rdap_url domain) GET])%list in
  match outcome reply with
  | Throw e => (Throw e, s1)
  | Return res =>
      if ok res then
        let s2 := mkState (clock s1 + latency (json res)) (log s1) in
        match outcome (json res) with
        | Throw e => (Throw e, s2)
        | Return data =>
            (Return (mkRdapInfo data (expiration_of w data)
                       (option_map
                          (fun t => days_between t (Date_now w (clock s2)))
                          (expiration_of w data))), s2)
        end
      else (Throw (rdap_failed res), s1)
  end.
Proof.
  unfold rdapDomainInfo, bind, fetch, throw, res_json, Date_now_, ret, rdap_url.
  cbv zeta.
  destruct (outcome (net_fetch w (clock s) _ GET)) as [res|e]; [|reflexivity].
  destruct (ok res); simpl; [|reflexivity].
  now destruct (outcome (json res)).
Qed.

(** The registry answers 200 and the body is not JSON: the status of the
    answer is OK and [domainExpiration.status] is ['error'], against
    "success if and only if the lookup responds with an OK status". *)
Lemma domain_expiry_error_on_ok_response :
  let W := Sample.world Sample.net_bad_rdap in
  let sr := rdap_start W "https://example.com" "example.com" Sample.s0 in
  exists res fields s',
    outcome (net_fetch W (clock sr) (rdap_url (domainName W "example.com")) GET)
      = Return res /\
    ok res = true /\
    monitorWebsite W "https://example.com" Sample.s0
      = (Return (JObj fields), s') /\
    obj_get "domainExpiration" fields = Some (JObj
      [ ("status", JStr "error");
        ("error", JStr "Unexpected end of JSON input") ]) /\
    ~ slot_with_status "domainExpiration" ["success"] fields.
Proof.
  cbv zeta. do 3 eexists.
  split; [vm_compute; reflexivity|]. split; [reflexivity|].
  split; [vm_compute; reflexivity|]. split; [reflexivity|].
  intros (v & Hv & st & Hst & Hin).
  injection Hv as <-. injection Hst as <-.
  simpl in Hin. destruct Hin as [Hin|[]]. discriminate Hin.
Qed.

(** No event that matches: no expiration date. *)
Lemma expiration_of_no_event w data events :
  get "events" data = Some (JArr events) ->
  find is_expiry_event events = None ->
  expiration_of w data = None.
Proof. intros He Hf. unfold expiration_of. now rewrite He; simpl; rewrite Hf. Qed.

(** The first event that matches has a date that does not parse: no
    expiration date. *)
Lemma expiration_of_bad_date w data events exp :
  get "events" data = Some (JArr events) ->
  find is_expiry_event events = Some exp ->
  match get "eventDate" exp with
  | Some d => truthy d = false \/ new_Date w (Some d) = None
  | None => True
  end ->
  expiration_of w data = None.
Proof.
  intros He Hf Hd. unfold expiration_of. rewrite He; simpl; rewrite Hf.
  destruct (get "eventDate" exp) as [d|]; [|reflexivity].
  destruct (truthy d); [|reflexivity]. destruct Hd as [Hd|Hd]; [discriminate|exact Hd].
Qed.

(** C7, amended.  [domainExpiration.status] is ['success'] if and only if
    the registry answers with an OK status and the body of the answer
    parses as JSON.  Then [daysUntilExpiry] is the rounded number of days
    to the date of the first event whose action matches
    [/expire|expiration/i], and [null] when there is no such event or its
    date does not parse.  A request that fails, an answer that is not OK
    and a body that does not parse give the status ['error'] with the
    message of the error. *)
Theorem domain_expiry_status w input hostname s :
  URL_hostname w (Str.trim input) = Some hostname ->
  let sr := rdap_start w (Str.trim input) hostname s in
  let reply := net_fetch w (clock sr) (rdap_url (domainName w hostname)) GET in
  exists fields s',
    monitorWebsite w input s = (Return (JObj fields), s') /\
    obj_get "domainExpiration" fields = Some
      match outcome reply with
      | Throw e => error_slot "RDAP failed" e
      | Return res =>
          if ok res then
            match outcome (json res) with
            | Throw e => error_slot "RDAP failed" e
            | Return data =>
                let now := Date_now w
                             (clock sr + latency reply + latency (json res)) in
                let expiration := expiration_of w data in
                JObj [ ("status", JStr "success");
                       ("daysUntilExpiry",
                          JIntOrNull (option_map (fun t => days_between t now)
                                        expiration));
                       ("expirationDate",
                          JStrOrNull (option_map (Date_toISOString w) expiration));
                       ("data", data) ]
            end
          else error_slot "RDAP failed" (rdap_failed res)
      end /\
    (slot_with_status "domainExpiration" ["success"] fields <->
     exists res data,
       outcome reply = Return res /\ ok res = true /\
       outcome (json res) = Return data) /\
    (forall data events,
       get "events" data = Some (JArr events) ->
       find is_expiry_event events = None ->
       expiration_of w data = None) /\
    (forall data events exp,
       get "events" data = Some (JArr events) ->
       find is_expiry_event events = Some exp ->
       match get "eventDate" exp with
       | Some d => truthy d = false \/ new_Date w (Some d) = None
       | None => True
       end ->
       expiration_of w data = None).
Proof.
  intros E sr reply.
  destruct (monitorWebsite_report w input hostname s E)
    as (wm & rt & dns & ssl & de & pm & ping & H1 & H2 & H3 & H4 & H5 & H6 & HR).
  fold sr in H4.
  pose proof (rdapDomainInfo_unfold w (domainName w hostname) sr) as Hu.
  cbv zeta in Hu. fold reply in Hu.
  assert (Hno : forall e, ~ has_status ["success"] (error_slot "RDAP failed" e)).
  { intros e (st & Hst & Hin). injection Hst as <-.
    destruct Hin as [Hin|[]]. discriminate Hin. }
  exists [ ("url", JStr (Str.trim input));
           ("timestamp", JStr (Date_toISOString w (Date_now w (clock s))));
           ("websiteMonitoring", wm); ("responseTime", rt);
           ("dnsMonitoring", dns); ("sslMonitoring", ssl);
           ("domainExpiration", de); ("portMonitoring", pm);
           ("pingMonitoring", ping) ].
  exists (finish w (Str.trim input) hostname s).
  split; [exact HR|].
  match goal with
  | |- ?A /\ ?B /\ _ =>
      enough (Hmain : A /\ B)
        by (destruct Hmain as [Ha [Hb Hb']];
            split; [exact Ha|]; split; [split; [exact Hb | exact Hb']|];
            split; [exact (expiration_of_no_event w)
                   |exact (expiration_of_bad_date w)])
  end.
  assert (Hslot : forall P : Prop,
            (has_status ["success"] de <-> P) ->
            (slot_with_status "domainExpiration" ["success"]
               [ ("url", JStr (Str.trim input));
                 ("timestamp", JStr (Date_toISOString w (Date_now w (clock s))));
                 ("websiteMonitoring", wm); ("responseTime", rt);
                 ("dnsMonitoring", dns); ("sslMonitoring", ssl);
                 ("domainExpiration", de); ("portMonitoring", pm);
                 ("pingMonitoring", ping) ] <-> P)).
  { intros P HP. rewrite <- HP. split.
    - intros (v & Hv & Hs). now injection Hv as <-.
    - intros Hs. now exists de. }
  destruct (outcome reply) as [res|e] eqn:Er.
  - destruct (ok res) eqn:Eok.
    + destruct (outcome (json res)) as [data|e] eqn:Ej.
      * read_slot H4 (domainExpiration_success w _ _ _ _ Hu).
        split; [reflexivity|]. apply Hslot. split.
        -- intros _. now exists res, data.
        -- intros _. eexists. split; [reflexivity|]. now left.
      * read_slot H4 (domainExpiration_error w _ _ _ _ Hu).
        split; [reflexivity|]. apply Hslot. split.
        -- intros H. now apply Hno in H.
        -- intros (res' & data & Hr & _ & Hj). injection Hr as <-. congruence.
    + read_slot H4 (domainExpiration_error w _ _ _ _ Hu).
      split; [reflexivity|]. apply Hslot. split.
      * intros H. now apply Hno in H.
      * intros (res' & data & Hr & Ho & _). injection Hr as <-. congruence.
  - read_slot H4 (domainExpiration_error w _ _ _ _ Hu).
    split; [reflexivity|]. apply Hslot. split.
    + intros H. now apply Hno in H.
    + intros (res' & data & Hr & _). discriminate Hr.
Qed.

Lemma domain_expiry_status_witness :
  exists fields s',
    monitorWebsite (Sample.world Sample.net_up) "https://example.com"
      Sample.s0 = (Return (JObj fields), s') /\
    obj_get "domainExpiration" fields = Some (JObj
      [ ("status", JStr "success");
        ("daysUntilExpiry", JInt 284);
        ("expirationDate", JStr "2027-08-13T04:00:00.000Z");
        ("data", Sample.rdap_body) ]).
Proof.
  pose (W := Sample.world Sample.net_up).
  assert (E : URL_hostname W (Str.trim "https://example.com")
              = Some "example.com") by (vm_compute; reflexivity).
  destruct (domain_expiry_status W "https://example.com" "example.com"
              Sample.s0 E)
    as (fields & s' & HR & Hde & _).
  exists fields, s'. split; [exact HR|].
  rewrite Hde. vm_compute. reflexivity.
Defined.

(* ================================================================== *)
(** * The target *)
(* ================================================================== *)

(** A bare host name is not a URL for [new URL]: the run ends with its
    [TypeError], and gives no report. *)
Lemma bare_hostname_is_rejected :
  let W := Sample.world Sample.net_up in
  URL_hostname W "https://example.com" = Some "example.com" /\
  monitorWebsite W "example.com" Sample.s0 = (Throw InvalidURL, Sample.s0) /\
  ~ exists report s',
      monitorWebsite W "example.com" Sample.s0 = (Return report, s').
Proof.
  cbv zeta. split; [reflexivity|].
  assert (H : monitorWebsite (Sample.world Sample.net_up) "example.com"
                Sample.s0 = (Throw InvalidURL, Sample.s0))
    by (vm_compute; reflexivity).
  split; [exact H|]. intros (report & s' & Hr). congruence.
Qed.

(** C4, amended.  [monitorWebsite] gives a report exactly when the
    trimmed input parses as a URL for [new URL], and the report then has
    the nine properties.  On any other input, a bare host name included, it
    throws the [TypeError] of [new URL] in the state it was called in:
    nothing has been sent yet and no time has passed.  No other error
    leaves it. *)
Theorem report_iff_target_parses w input s :
  (URL_hostname w (Str.trim input) = None <->
   exists e s', monitorWebsite w input s = (Throw e, s')) /\
  (forall e s', monitorWebsite w input s = (Throw e, s') ->
                e = InvalidURL /\ s' = s) /\
  (URL_hostname w (Str.trim input) <> None <->
   exists fields s',
     monitorWebsite w input s = (Return (JObj fields), s') /\
     obj_keys fields = TOP_LEVEL_KEYS).
Proof.
  destruct (URL_hostname w (Str.trim input)) as [hostname|] eqn:E.
  - destruct (monitorWebsite_report w input hostname s E)
      as (wm & rt & dns & ssl & de & pm & ping & _ & _ & _ & _ & _ & _ & HR).
    rewrite HR. split; [|split].
    + split; [discriminate|]. intros (e & s' & H). discriminate H.
    + intros e s' H. discriminate H.
    + split; [|discriminate]. intros _. now do 2 eexists.
  - rewrite (monitorWebsite_invalid w input s E). split; [|split].
    + split; [|reflexivity]. intros _. now do 2 eexists.
    + intros e s' H. now injection H as <- <-.
    + split; [congruence|]. intros (fields & s' & H & _). discriminate H.
Qed.

Lemma report_iff_target_parses_witness :
  exists fields s',
    monitorWebsite (Sample.world Sample.net_up) " https://example.com "
      Sample.s0 = (Return (JObj fields), s') /\
    obj_keys fields = TOP_LEVEL_KEYS.
Proof.
  apply (report_iff_target_parses (Sample.world Sample.net_up)
           " https://example.com " Sample.s0).
  vm_compute. discriminate.
Defined.

(* ================================================================== *)
(** * Time *)
(* ================================================================== *)

(** Web servers that never answer: every request runs into its time-out,
    one step after the other, and the run takes 19150 ms, not 8025.  The
    DNS lookups, which need nothing from the HTTP probe, are sent when that
    probe has timed out, after 8000 ms; with servers that answer in 120 ms
    they are sent after 120 ms. *)
Lemma run_exceeds_largest_timeout :
  let W := Sample.world Sample.net_down in
  causal W /\
  (elapsed (monitorWebsite W "https://example.com") Sample.s0 == 19150)%Q /\
  (LARGEST_TIMEOUT +
   elapsed (dnsMonitoring W "example.com" [])
     (dns_start W "https://example.com" Sample.s0) == 8025)%Q /\
  ~ within_largest_timeout W "https://example.com" "example.com" Sample.s0 /\
  (clock (dns_start W "https://example.com" Sample.s0) == 8000)%Q /\
  (clock (dns_start (Sample.world Sample.net_up) "https://example.com"
            Sample.s0) == 120)%Q.
Proof.
  cbv zeta. split; [exact net_down_causal|].
  assert (H1 : (elapsed (monitorWebsite (Sample.world Sample.net_down)
                           "https://example.com") Sample.s0 == 19150)%Q)
    by (vm_compute; reflexivity).
  assert (H2 : (LARGEST_TIMEOUT +
                elapsed (dnsMonitoring (Sample.world Sample.net_down)
                           "example.com" [])
                  (dns_start (Sample.world Sample.net_down)
                     "https://example.com" Sample.s0) == 8025)%Q)
    by (vm_compute; reflexivity).
  split; [exact H1|]. split; [exact H2|]. split; [|split].
  - unfold within_largest_timeout.
    change (Str.trim "https://example.com") with "https://example.com".
    rewrite H1, H2. intros H. vm_compute in H. now apply H.
  - vm_compute; reflexivity.
  - vm_compute; reflexivity.
Qed.

Section Timing.

Variable w : World.
Hypothesis Hc : causal w.

Lemma websiteMonitoring_after url r s :
  after (websiteMonitoring w url r) s = after (safeHeadOrGet w url 8000) s.
Proof.
  unfold after. destruct (safeHeadOrGet w url 8000 s) as [[resp|e] s1] eqn:E.
  - now rewrite (websiteMonitoring_resolved w _ _ _ _ E).
  - now rewrite (websiteMonitoring_rejected w _ _ _ _ E).
Qed.

Lemma pingMonitoring_after url r s :
  after (pingMonitoring w url r) s = after (safeHeadOrGet w url 6000) s.
Proof.
  unfold after. destruct (safeHeadOrGet w url 6000 s) as [[resp|e] s1] eqn:E.
  - now rewrite (pingMonitoring_resolved w _ _ _ _ E).
  - now rewrite (pingMonitoring_rejected w _ _ _ _ E).
Qed.

Lemma sslMonitoring_after hostname r s :
  clock (after (sslMonitoring w hostname r) s) =
  (clock s + fst (tls_connect w (clock s) hostname 443))%Q.
Proof.
  assert (Ht : clock (after (tls_certificate w hostname) s) =
               (clock s + fst (tls_connect w (clock s) hostname 443))%Q).
  { unfold after, tls_certificate.
    destruct (tls_connect w (clock s) hostname 443) as [d [cert| |err]];
      reflexivity. }
  rewrite <- Ht. unfold after.
  destruct (tls_certificate w hostname s) as [[cert|e] s1] eqn:E.
  - destruct (new_Date w (option_map JStr (valid_from cert))) as [vf|] eqn:Ef.
    + destruct (new_Date w (option_map JStr (valid_to cert))) as [vt|] eqn:Et.
      * now rewrite (sslMonitoring_completed w _ _ _ _ _ _ E Ef Et).
      * now rewrite (sslMonitoring_invalid_date w _ _ _ _ E (or_intror Et)).
    + now rewrite (sslMonitoring_invalid_date w _ _ _ _ E (or_introl Ef)).
  - now rewrite (sslMonitoring_rejected w _ _ _ _ E).
Qed.

Lemma domainExpiration_after hostname r s :
  (clock s + latency (net_fetch w (clock s)
                        (rdap_url (domainName w hostname)) GET)
   <= clock (after (domainExpiration w hostname r) s))%Q.
Proof.
  pose proof (rdapDomainInfo_unfold w (domainName w hostname) s) as Hu.
  cbv zeta in Hu.
  assert (Hr : (clock s + latency (net_fetch w (clock s)
                                     (rdap_url (domainName w hostname)) GET)
                <= clock (after (rdapDomainInfo w (domainName w hostname)) s))%Q).
  { unfold after. rewrite Hu.
    destruct (outcome (net_fetch w (clock s) _ GET)) as [res|e] eqn:Eo;
      [|simpl; lra].
    pose proof (json_causal w Hc _ _ _ _ Eo) as Hj.
    destruct (ok res); [|simpl; lra].
    destruct (outcome (json res)); simpl; lra. }
  unfold after in *.
  destruct (rdapDomainInfo w (domainName w hostname) s) as [[rdap|e] s1] eqn:E.
  - now rewrite (domainExpiration_success w _ _ _ _ E).
  - now rewrite (domainExpiration_error w _ _ _ _ E).
Qed.

End Timing.

(** C3, amended.  In a world where no reply precedes its request, the six
    steps of a run on a target that parses take place one after the other,
    each starting when the one before is over; only the four DNS lookups
    among themselves, and the three port checks among themselves, run at
    the same time.  The HTTP step takes at most 8000 ms, the DNS step as
    long as the slowest of its four lookups, the TLS step as long as the
    handshake, the registry step at least as long as the registry takes to
    answer, the port step at most 5000 ms and the ping step at most
    6000 ms; the run ends with the ping step, so that it takes the sum of
    these times. *)
Theorem steps_run_one_after_the_other w input hostname s :
  causal w ->
  URL_hostname w (Str.trim input) = Some hostname ->
  let url := Str.trim input in
  let t0 := clock s in
  let t1 := clock (dns_start w url s) in
  let t2 := clock (ssl_start w url hostname s) in
  let t3 := clock (rdap_start w url hostname s) in
  let t4 := clock (ports_start w url hostname s) in
  let t5 := clock (ping_start w url hostname s) in
  let t6 := clock (finish w url hostname s) in
  (after (monitorWebsite w input) s = finish w url hostname s /\
   t0 <= t1 <= t0 + 8000 /\
   t2 == t1 + Qmax (Qmax (latency (dns_resolve4 w t1 hostname))
                         (latency (dns_resolveMx w t1 hostname)))
                   (Qmax (latency (dns_resolveTxt w t1 hostname))
                         (latency (dns_resolveNs w t1 hostname))) /\
   t1 <= t2 /\
   t3 == t2 + fst (tls_connect w t2 hostname 443) /\
   t2 <= t3 /\
   t3 + latency (net_fetch w t3 (rdap_url (domainName w hostname)) GET) <= t4 /\
   t3 <= t4 /\
   t4 <= t5 <= t4 + 5000 /\
   t5 <= t6 <= t5 + 6000 /\
   elapsed (monitorWebsite w input) s ==
     (t1 - t0) + (t2 - t1) + (t3 - t2) + (t4 - t3) + (t5 - t4) + (t6 - t5))%Q.
Proof.
  intros Hc E url t0 t1 t2 t3 t4 t5 t6.
  destruct (monitorWebsite_report w input hostname s E)
    as (wm & rt & dns & ssl & de & pm & ping & _ & _ & _ & _ & _ & _ & HR).
  fold url in HR.
  assert (Hend : after (monitorWebsite w input) s = finish w url hostname s)
    by (unfold after; now rewrite HR).
  assert (H01 : (t0 <= t1 <= t0 + 8000)%Q).
  { unfold t1, dns_start. rewrite websiteMonitoring_after.
    apply (safeHeadOrGet_bounds w url 8000 s (fetch_causal w Hc)). lra. }
  assert (H12 : (t2 == t1 + Qmax
                   (Qmax (latency (dns_resolve4 w t1 hostname))
                         (latency (dns_resolveMx w t1 hostname)))
                   (Qmax (latency (dns_resolveTxt w t1 hostname))
                         (latency (dns_resolveNs w t1 hostname))))%Q).
  { unfold t2, ssl_start, after.
    rewrite dnsMonitoring_returns, dnsMonitoring_try_returns.
    simpl snd. simpl clock. unfold dns_settled_at. fold t1.
    now rewrite !Q.plus_max_distr_l. }
  assert (H12' : (t1 <= t2)%Q).
  { rewrite H12.
    pose proof (resolve4_causal w Hc t1 hostname) as Ha.
    pose proof (Q.le_max_l (latency (dns_resolve4 w t1 hostname))
                  (latency (dns_resolveMx w t1 hostname))) as Hb.
    pose proof (Q.le_max_l
                  (Qmax (latency (dns_resolve4 w t1 hostname))
                        (latency (dns_resolveMx w t1 hostname)))
                  (Qmax (latency (dns_resolveTxt w t1 hostname))
                        (latency (dns_resolveNs w t1 hostname)))) as Hd.
    lra. }
  assert (H23 : t3 = (t2 + fst (tls_connect w t2 hostname 443))%Q)
    by apply sslMonitoring_after.
  assert (H23' : (t2 <= t3)%Q).
  { rewrite H23. pose proof (tls_causal w Hc t2 hostname 443). lra. }
  assert (H34 : (t3 + latency (net_fetch w t3
                                 (rdap_url (domainName w hostname)) GET)
                 <= t4)%Q)
    by apply (domainExpiration_after w Hc).
  assert (H34' : (t3 <= t4)%Q).
  { pose proof (fetch_causal w Hc t3 (rdap_url (domainName w hostname)) GET).
    lra. }
  assert (H45 : (t4 <= t5 <= t4 + 5000)%Q).
  { unfold t5, ping_start, after. rewrite portMonitoring_returns.
    unfold after, Promise_all. simpl snd.
    apply (Promise_all_port_checks_bounds w hostname HTTP_PORTS t4
             (ports_start w url hostname s) (fetch_causal w Hc)). }
  assert (H56 : (t5 <= t6 <= t5 + 6000)%Q).
  { unfold t6, finish. rewrite pingMonitoring_after.
    apply (safeHeadOrGet_bounds w url 6000 _ (fetch_causal w Hc)). lra. }
  repeat (split; [first [assumption | now rewrite H23 | tauto]|]).
  unfold elapsed. rewrite Hend. fold t6 t0. lra.
Qed.

Lemma steps_run_one_after_the_other_witness :
  let W := Sample.world Sample.net_down in
  let t1 := clock (dns_start W "https://example.com" Sample.s0) in
  let t5 := clock (ping_start W "https://example.com" "example.com" Sample.s0) in
  let t6 := clock (finish W "https://example.com" "example.com" Sample.s0) in
  after (monitorWebsite W "https://example.com") Sample.s0 =
    finish W "https://example.com" "example.com" Sample.s0 /\
  (0 <= t1 <= 0 + 8000)%Q /\ (t5 <= t6 <= t5 + 6000)%Q.
Proof.
  cbv zeta.
  assert (E : URL_hostname (Sample.world Sample.net_down)
                (Str.trim "https://example.com") = Some "example.com")
    by (vm_compute; reflexivity).
  pose proof (steps_run_one_after_the_other (Sample.world Sample.net_down)
                "https://example.com" "example.com" Sample.s0
                net_down_causal E) as H.
  cbv zeta in H.
  change (Str.trim "https://example.com") with "https://example.com" in H.
  change (clock Sample.s0) with 0%Q in H.
  destruct H as (H0 & H1 & _ & _ & _ & _ & _ & _ & _ & H6 & _).
  split; [exact H0|]. split; [exact H1 | exact H6].
Defined.

(* ================================================================== *)
(** * More on [safeHeadOrGet] *)
(* ================================================================== *)

Lemma Qle_bool_true a b : (a <= b)%Q -> Qle_bool a b = true.
Proof. apply Qle_bool_iff. Qed.

Lemma Qle_bool_lt_false a b : (b < a)%Q -> Qle_bool a b = false.
Proof.
  intros H. destruct (Qle_bool a b) eqn:E; [|reflexivity].
  apply Qle_bool_iff in E. lra.
Qed.

(** A status that is OK is not 405: the second test of [safeHeadOrGet]
    never decides. *)
Lemma retry_test res : negb (ok res) || (status res =? 405) = negb (ok res).
Proof.
  unfold ok. destruct (200 <=? status res) eqn:E1; simpl; [|reflexivity].
  destruct (status res <=? 299) eqn:E2; simpl; [|reflexivity].
  apply Z.eqb_neq. apply Z.leb_le in E2. lia.
Qed.

(** X1.  What [safeHeadOrGet] does, read off the replies of the network,
    for a positive time-out.  A HEAD request is sent.  If its reply does not
    come before the deadline, the result is an [AbortError] at the
    deadline.  If the request fails, the error is passed on and nothing
    else is sent.  If the response is OK, it is the result and nothing else
    is sent.  Otherwise one GET request is sent, under what is left of the
    same deadline, and its outcome is the result. *)
Theorem safeHeadOrGet_by_cases w url T s :
  (0 < T)%Q ->
  let deadline := (clock s + T)%Q in
  let head := net_fetch w (clock s) url HEAD in
  let t1 := (clock s + latency head)%Q in
  let sent1 := (log s ++ [ReqFetch url HEAD])%list in
  let get := net_fetch w t1 url GET in
  let sent2 := (sent1 ++ [ReqFetch url GET])%list in
  safeHeadOrGet w url T s =
  if Qle_bool deadline t1 then (Throw AbortError, mkState deadline sent1)
  else
    match outcome head with
    | Throw e => (Throw e, mkState t1 sent1)
    | Return res =>
        if ok res then (Return res, mkState t1 sent1)
        else if Qle_bool deadline (t1 + latency get)
        then (Throw AbortError, mkState deadline sent2)
        else (outcome get, mkState (t1 + latency get) sent2)
    end.
Proof.
  intros HT. cbv zeta. rewrite safeHeadOrGet_unfold. cbv zeta.
  unfold fetch at 1. cbn [aborts_at].
  rewrite (Qle_bool_lt_false (clock s + T) (clock s)) by lra.
  destruct (Qle_bool (clock s + T)
              (clock s + latency (net_fetch w (clock s) url HEAD))) eqn:E1;
    [reflexivity|].
  destruct (outcome (net_fetch w (clock s) url HEAD)) as [res|e]; [|reflexivity].
  rewrite retry_test. destruct (ok res); [reflexivity|]. cbn [negb].
  unfold fetch. cbn [aborts_at clock log]. now rewrite E1.
Qed.

Lemma safeHeadOrGet_by_cases_witness :
  safeHeadOrGet (Sample.world (Examples.net_steady 300 404))
    "https://example.com" 8000 Sample.s0 =
  (Return (mkResponse 404 Sample.no_body),
   mkState 600 [ ReqFetch "https://example.com" HEAD;
                 ReqFetch "https://example.com" GET ]).
Proof.
  rewrite (safeHeadOrGet_by_cases (Sample.world (Examples.net_steady 300 404))
             "https://example.com" 8000 Sample.s0); [|reflexivity].
  vm_compute. reflexivity.
Defined.

(** The requests of [safeHeadOrGet]: a HEAD, or a HEAD then a GET. *)
Lemma safeHeadOrGet_requests w url T s :
  (0 < T)%Q ->
  log (after (safeHeadOrGet w url T) s) = (log s ++ [ReqFetch url HEAD])%list \/
  log (after (safeHeadOrGet w url T) s) =
    (log s ++ [ReqFetch url HEAD; ReqFetch url GET])%list.
Proof.
  intros HT. unfold after. rewrite safeHeadOrGet_unfold. cbv zeta.
  unfold fetch. cbn [aborts_at].
  rewrite (Qle_bool_lt_false (clock s + T) (clock s)) by lra.
  destruct (Qle_bool (clock s + T)
              (clock s + latency (net_fetch w (clock s) url HEAD))) eqn:E1;
    [now left|].
  destruct (outcome (net_fetch w (clock s) url HEAD)) as [res|e]; [|now left].
  destruct (negb (ok res) || (status res =? 405)); [|now left].
  cbn [clock log]. rewrite E1. right.
  destruct (Qle_bool (clock s + T)
              (clock s + latency (net_fetch w (clock s) url HEAD) + _));
    cbn [snd log]; now rewrite <- app_assoc.
Qed.

(** X2.  With a positive time-out, and replies that do not precede their
    requests, [safeHeadOrGet] settles no later than its time-out, having
    sent one HEAD request, or one HEAD then one GET request, to its URL and
    nothing else. *)
Theorem safeHeadOrGet_is_bounded w url T s :
  (forall t u m, 0 <= latency (net_fetch w t u m))%Q ->
  (0 < T)%Q ->
  let s' := after (safeHeadOrGet w url T) s in
  (clock s <= clock s' <= clock s + T)%Q /\
  (log s' = (log s ++ [ReqFetch url HEAD])%list \/
   log s' = (log s ++ [ReqFetch url HEAD; ReqFetch url GET])%list).
Proof.
  intros Hc HT. cbv zeta. split.
  - apply (safeHeadOrGet_bounds w url T s Hc). lra.
  - now apply safeHeadOrGet_requests.
Qed.

Lemma safeHeadOrGet_is_bounded_witness :
  let s' := after (safeHeadOrGet (Sample.world Sample.net_down)
                     "https://example.com" 8000) Sample.s0 in
  (0 <= clock s' <= 0 + 8000)%Q /\
  (log s' = [ReqFetch "https://example.com" HEAD] \/
   log s' = [ReqFetch "https://example.com" HEAD;
             ReqFetch "https://example.com" GET]).
Proof.
  apply (safeHeadOrGet_is_bounded (Sample.world Sample.net_down)
           "https://example.com" 8000 Sample.s0).
  - exact (fetch_causal _ net_down_causal).
  - reflexivity.
Defined.

(* ================================================================== *)
(** * More on the HTTP step *)
(* ================================================================== *)

(** X3.  In the report of a target that parses, in a causal world, the two
    slots of the HTTP step agree.  Either the request failed, and then
    [websiteMonitoring] is ['offline'] with a [null] status code and
    [responseTime] is ['error'] with a [null] value.  Or there was a
    response, and then [websiteMonitoring.status] is ['online'] exactly
    when the status code is between 200 and 299, [responseTime.value] is
    between 0 and 8000, and [responseTime.status] is ['good'] only for a
    value of at most 500 and ['slow'] only for a value of at least 500
    (the threshold is tested before rounding, so that 500 may go with
    either). *)
Theorem http_slots_agree w input hostname s :
  causal w ->
  URL_hostname w (Str.trim input) = Some hostname ->
  exists fields s',
    monitorWebsite w input s = (Return (JObj fields), s') /\
    ((exists msg,
        obj_get "websiteMonitoring" fields = Some (JObj
          [ ("status", JStr "offline"); ("statusCode", JNull);
            ("error", JStr msg) ]) /\
        obj_get "responseTime" fields = Some (JObj
          [ ("value", JNull); ("unit", JStr "ms"); ("status", JStr "error") ]))
     \/
     (exists code value speed,
        obj_get "websiteMonitoring" fields = Some (JObj
          [ ("status", JStr (if (200 <=? code) && (code <=? 299)
                             then "online" else "offline"));
            ("statusCode", JInt code) ]) /\
        obj_get "responseTime" fields = Some (JObj
          [ ("value", JInt value); ("unit", JStr "ms");
            ("status", JStr speed) ]) /\
        0 <= value <= 8000 /\
        ((speed = "good" /\ value <= 500) \/
         (speed = "slow" /\ 500 <= value)))).
Proof.
  intros Hc E.
  destruct (monitorWebsite_report w input hostname s E)
    as (wm & rt & dns & ssl & de & pm & ping & H1 & _ & _ & _ & _ & _ & HR).
  do 2 eexists. split; [exact HR|].
  specialize (H1 []).
  pose proof (safeHeadOrGet_bounds w (Str.trim input) 8000 s
                (fetch_causal w Hc) ltac:(lra)) as [Hb _].
  destruct (safeHeadOrGet w (Str.trim input) 8000 s) as [[resp|e] s1] eqn:Eh.
  - right.
    rewrite (websiteMonitoring_resolved w _ _ _ _ Eh) in H1.
    cbn [obj_set String.eqb Ascii.eqb Bool.eqb] in H1.
    injection H1 as Hwm Hrt _. subst wm rt.
    simpl in Hb.
    exists (status resp), (Math_round (clock s1 - clock s)).
    destruct (Qle_bool 500 (clock s1 - clock s)) eqn:Eq.
    + exists "slow". split; [reflexivity|]. split; [reflexivity|].
      apply Qle_bool_iff in Eq.
      assert (H500 : 500 <= Math_round (clock s1 - clock s) <= 8000).
      { apply Math_round_bounds.
        change (inject_Z 500) with 500%Q. change (inject_Z 8000) with 8000%Q.
        lra. }
      split; [lia|]. right. split; [reflexivity | lia].
    + exists "good". split; [reflexivity|]. split; [reflexivity|].
      apply Qle_bool_false in Eq.
      assert (H500 : 0 <= Math_round (clock s1 - clock s) <= 500).
      { apply Math_round_bounds.
        change (inject_Z 0) with 0%Q. change (inject_Z 500) with 500%Q.
        lra. }
      split; [lia|]. left. split; [reflexivity | lia].
  - left.
    rewrite (websiteMonitoring_rejected w _ _ _ _ Eh) in H1.
    cbn [obj_set String.eqb Ascii.eqb Bool.eqb] in H1.
    injection H1 as Hwm Hrt _. subst wm rt.
    eexists. split; reflexivity.
Qed.

(** A server that answers 503 after 249.8 ms, to the HEAD and then to the
    GET request: ['offline'] with the code, and the value 500 with the
    status ['good']. *)
Lemma http_slots_agree_witness :
  exists fields s',
    monitorWebsite (Sample.world (Examples.net_steady (2498 # 10) 503))
      "https://example.com" Sample.s0 = (Return (JObj fields), s') /\
    obj_get "websiteMonitoring" fields = Some (JObj
      [ ("status", JStr "offline"); ("statusCode", JInt 503) ]) /\
    obj_get "responseTime" fields = Some (JObj
      [ ("value", JInt 500); ("unit", JStr "ms"); ("status", JStr "good") ]).
Proof.
  pose (W := Sample.world (Examples.net_steady (2498 # 10) 503)).
  assert (Hc : causal W) by (unfold W, Examples.net_steady; sample_causal).
  assert (E : URL_hostname W (Str.trim "https://example.com")
              = Some "example.com") by (vm_compute; reflexivity).
  destruct (http_slots_agree W "https://example.com" "example.com"
              Sample.s0 Hc E) as (fields & s' & HR & _).
  exists fields, s'. split; [exact HR|].
  assert (HR' : fst (monitorWebsite W "https://example.com" Sample.s0)
                = Return (JObj fields)) by now rewrite HR.
  vm_compute in HR'. injection HR' as <-. split; reflexivity.
Defined.

(* ================================================================== *)
(** * More on the TLS step *)
(* ================================================================== *)

(** X4.  The three ways in which the TLS step of a run ends in the status
    ['error']: the socket times out, with the message ['TLS timeout']; the
    socket reports an error, with the message of that error, or
    ['TLS failed'] when it has none; the handshake completes with a
    certificate one of whose two dates does not parse (an empty
    certificate object, for one), with the message of the [RangeError] of
    [toISOString] - the status is then not ['expired']. *)
Theorem ssl_error_outcomes w input hostname s :
  URL_hostname w (Str.trim input) = Some hostname ->
  let ss := ssl_start w (Str.trim input) hostname s in
  exists fields s',
    monitorWebsite w input s = (Return (JObj fields), s') /\
    match snd (tls_connect w (clock ss) hostname 443) with
    | timeout =>
        obj_get "sslMonitoring" fields = Some (JObj
          [ ("status", JStr "error"); ("error", JStr "TLS timeout") ])
    | error err =>
        obj_get "sslMonitoring" fields = Some (JObj
          [ ("status", JStr "error");
            ("error", JStr (message_or "TLS failed" err)) ])
    | secureConnect cert =>
        new_Date w (option_map JStr (valid_from cert)) = None \/
        new_Date w (option_map JStr (valid_to cert)) = None ->
        obj_get "sslMonitoring" fields = Some (JObj
          [ ("status", JStr "error"); ("error", JStr "Invalid time value") ])
    end.
Proof.
  intros E ss.
  destruct (monitorWebsite_report w input hostname s E)
    as (wm & rt & dns & ssl & de & pm & ping & _ & _ & H3 & _ & _ & _ & HR).
  fold ss in H3. do 2 eexists. split; [exact HR|].
  assert (Ht : tls_certificate w hostname ss =
               (match snd (tls_connect w (clock ss) hostname 443) with
                | secureConnect cert => Return cert
                | timeout => Throw (mkError "Error" (Some "TLS timeout"))
                | error err => Throw err
                end,
                mkState (clock ss + fst (tls_connect w (clock ss) hostname 443))
                  (log ss ++ [ReqTls hostname 443]))).
  { unfold tls_certificate.
    now destruct (tls_connect w (clock ss) hostname 443) as [d [cert| |err]]. }
  destruct (snd (tls_connect w (clock ss) hostname 443)) as [cert| |err].
  - intros Hd. read_slot H3 (sslMonitoring_invalid_date w _ _ _ _ Ht Hd).
    reflexivity.
  - read_slot H3 (sslMonitoring_rejected w _ _ _ _ Ht). reflexivity.
  - read_slot H3 (sslMonitoring_rejected w _ _ _ _ Ht). reflexivity.
Qed.

Lemma ssl_error_outcomes_witness :
  exists fields s',
    monitorWebsite (Examples.world_with_certificate Examples.undated)
      "https://example.com" Sample.s0 = (Return (JObj fields), s') /\
    obj_get "sslMonitoring" fields = Some (JObj
      [ ("status", JStr "error"); ("error", JStr "Invalid time value") ]).
Proof.
  pose (W := Examples.world_with_certificate Examples.undated).
  assert (E : URL_hostname W (Str.trim "https://example.com")
              = Some "example.com") by (vm_compute; reflexivity).
  destruct (ssl_error_outcomes W "https://example.com" "example.com"
              Sample.s0 E) as (fields & s' & HR & Hssl).
  exists fields, s'. split; [exact HR|].
  apply Hssl. left. reflexivity.
Defined.

Lemma days_between_positive a b : 0 < days_between a b <-> 43200000 <= a - b.
Proof.
  rewrite days_between_div.
  pose proof (Z.div_mod (2 * (a - b) + 86400000) 172800000 ltac:(lia)) as Hd.
  pose proof (Z.mod_pos_bound (2 * (a - b) + 86400000) 172800000 ltac:(lia)) as Hm.
  lia.
Qed.

(** X5.  When the handshake completes with a certificate whose dates
    parse, [sslMonitoring.status] is ['valid'] exactly when the certificate
    still has twelve hours or more to go at the moment of the test, and
    ['expired'] otherwise: a certificate that ends in less than twelve
    hours is reported as expired, with [daysUntilExpiry] 0, while it is
    still valid. *)
Theorem ssl_valid_needs_twelve_hours w input hostname s cert s1 vf vt :
  URL_hostname w (Str.trim input) = Some hostname ->
  tls_certificate w hostname (ssl_start w (Str.trim input) hostname s)
    = (Return cert, s1) ->
  new_Date w (option_map JStr (valid_from cert)) = Some vf ->
  new_Date w (option_map JStr (valid_to cert)) = Some vt ->
  let left := vt - Date_now w (clock s1) in
  exists fields s' ssl days,
    monitorWebsite w input s = (Return (JObj fields), s') /\
    obj_get "sslMonitoring" fields = Some ssl /\
    get "status" ssl =
      Some (JStr (if 43200000 <=? left then "valid" else "expired")) /\
    option_map (get "daysUntilExpiry") (get "certificate" ssl)
      = Some (Some (JInt days)) /\
    (0 <= left < 43200000 -> days = 0).
Proof.
  intros E Et Ef Eto left.
  destruct (monitorWebsite_report w input hostname s E)
    as (wm & rt & dns & ssl & de & pm & ping & _ & _ & H3 & _ & _ & _ & HR).
  read_slot H3 (sslMonitoring_completed w _ _ _ _ _ _ Et Ef Eto).
  do 4 eexists. split; [exact HR|]. split; [reflexivity|].
  split; [|split; [reflexivity|]].
  - cbn [get obj_get String.eqb Ascii.eqb Bool.eqb]. do 3 f_equal.
    pose proof (days_between_positive vt (Date_now w (clock s1))) as Hp.
    fold left in Hp.
    destruct (0 <? days_between vt (Date_now w (clock s1))) eqn:E1;
      destruct (43200000 <=? left) eqn:E2; try reflexivity.
    + apply Z.ltb_lt in E1. apply Z.leb_gt in E2. lia.
    + apply Z.ltb_ge in E1. apply Z.leb_le in E2. lia.
  - intros Hl. pose proof (days_between_nearest vt (Date_now w (clock s1))) as Hn.
    cbv zeta in Hn. fold left in Hn. lia.
Qed.

(** A certificate that ends eleven hours after the run started. *)
Lemma ssl_valid_needs_twelve_hours_witness :
  exists fields s' ssl,
    monitorWebsite (Examples.world_with_certificate Examples.expiring)
      "https://example.com" Sample.s0 = (Return (JObj fields), s') /\
    obj_get "sslMonitoring" fields = Some ssl /\
    get "status" ssl = Some (JStr "expired") /\
    option_map (get "daysUntilExpiry") (get "certificate" ssl)
      = Some (Some (JInt 0)).
Proof.
  pose (W := Examples.world_with_certificate Examples.expiring).
  assert (E : URL_hostname W (Str.trim "https://example.com")
              = Some "example.com") by (vm_compute; reflexivity).
  assert (Et : tls_certificate W "example.com"
                 (ssl_start W (Str.trim "https://example.com") "example.com"
                    Sample.s0) =
               (Return Examples.expiring,
                mkState 185 [ ReqFetch "https://example.com" HEAD;
                              ReqResolve RR_A "example.com";
                              ReqResolve RR_MX "example.com";
                              ReqResolve RR_TXT "example.com";
                              ReqResolve RR_NS "example.com";
                              ReqTls "example.com" 443 ]))
    by (vm_compute; reflexivity).
  assert (Ef : new_Date W (option_map JStr (valid_from Examples.expiring))
               = Some 1790985600000) by (vm_compute; reflexivity).
  assert (Eto : new_Date W (option_map JStr (valid_to Examples.expiring))
                = Some 1793634360000) by (vm_compute; reflexivity).
  destruct (ssl_valid_needs_twelve_hours W "https://example.com" "example.com"
              Sample.s0 Examples.expiring _ 1790985600000 1793634360000
              E Et Ef Eto)
    as (fields & s' & ssl & days & HR & Hssl & Hst & Hdays & Hzero).
  exists fields, s', ssl. split; [exact HR|]. split; [exact Hssl|].
  lazymatch type of Hzero with
  | ?P -> _ =>
      assert (Hleft : P)
        by (vm_compute; split; [intros H; discriminate H | reflexivity])
  end.
  split.
  - rewrite Hst. vm_compute. reflexivity.
  - rewrite Hdays, (Hzero Hleft). reflexivity.
Defined.

(* ================================================================== *)
(** * More on the domain expiry step *)
(* ================================================================== *)




(** Every byte is left alone or replaced by [%] and two digits that are
    left alone. *)
Lemma escape_digits c :
  Str.uri_unreserved (Str.hex_digit (nat_of_ascii c / 16)) = true /\
  Str.uri_unreserved (Str.hex_digit (nat_of_ascii c mod 16)) = true.
Proof.
  destruct c as [[] [] [] [] [] [] [] []]; split; vm_compute; reflexivity.
Qed.

Lemma encodeURIComponent_chars s :
  string_forallb uri_component_char (Str.encodeURIComponent s) = true.
Proof.
  induction s as [|c s IH]; [reflexivity|]. cbn [Str.encodeURIComponent].
  destruct (Str.uri_unreserved c) eqn:Ec; cbv zeta.
  - cbn [string_forallb]. unfold uri_component_char at 1. now rewrite Ec.
  - destruct (escape_digits c) as [H1 H2].
    cbn [string_forallb]. unfold uri_component_char at 1 2 3.
    rewrite H1, H2, IH. reflexivity.
Qed.

Lemma encodeURIComponent_unreserved s :
  string_forallb Str.uri_unreserved s = true -> Str.encodeURIComponent s = s.
Proof.
  induction s as [|c s IH]; [reflexivity|].
  cbn [Str.encodeURIComponent string_forallb].
  intros H. apply andb_true_iff in H. destruct H as [Hc Hs].
  now rewrite Hc, IH.
Qed.

(** X7.  [rdapDomainInfo] sends one request, whatever the domain it is
    given: a GET to [https://rdap.org/domain/] followed by one path
    segment made of unreserved characters and [%]-escapes only, so that no
    [/], [?], [#], [&], [=], [:], [@] or space of the domain reaches the
    URL; a domain made of letters, digits, [-] and [.] is that segment,
    unchanged. *)
Theorem rdap_request_is_confined w domain s :
  log (after (rdapDomainInfo w domain) s) =
    (log s ++ [ReqFetch (rdap_url domain) GET])%list /\
  exists segment,
    rdap_url domain = "https://rdap.org/domain/" ++ segment /\
    string_forallb uri_component_char segment = true /\
    (string_forallb Str.uri_unreserved domain = true -> segment = domain) /\
    forall c, In c ["/"; "?"; "#"; "&"; "="; ":"; "@"; " "]%char ->
              uri_component_char c = false.
Proof.
  split.
  - unfold after. rewrite rdapDomainInfo_unfold. cbv zeta.
    destruct (outcome (net_fetch w (clock s) (rdap_url domain) GET))
      as [res|e]; [|reflexivity].
    destruct (ok res); [|reflexivity].
    now destruct (outcome (json res)).
  - exists (Str.encodeURIComponent domain). split; [reflexivity|].
    split; [apply encodeURIComponent_chars|].
    split; [apply encodeURIComponent_unreserved|].
    intros c Hc. simpl in Hc.
    repeat (destruct Hc as [<- | Hc]; [reflexivity|]). contradiction.
Qed.

(** X8.  The first event of the answer whose action matches decides the
    expiration date: it is the date of that event's [eventDate] when that
    is there, truthy and parses, and there is none otherwise, whatever the
    events that follow say.  There is none either when [events] is missing
    or is not an array. *)
Theorem first_expiry_event_decides w data before event later :
  get "events" data = Some (JArr (before ++ event :: later)) ->
  Forall (fun e => is_expiry_event e = false) before ->
  is_expiry_event event = true ->
  expiration_of w data =
    match get "eventDate" event with
    | Some d => if truthy d then new_Date w (Some d) else None
    | None => None
    end /\
  forall other,
    match get "events" other with
    | Some (JArr _) => True
    | _ => expiration_of w other = None
    end.
Proof.
  intros He Hb Hm. split.
  - unfold expiration_of. rewrite He. cbn [option_map isArray].
    assert (Hf : find is_expiry_event (before ++ event :: later) = Some event).
    { clear He. induction Hb as [|e l He _ IH]; simpl.
      - now rewrite Hm.
      - now rewrite He. }
    now rewrite Hf.
  - intros other. unfold expiration_of.
    destruct (get "events" other) as [[]|]; simpl; trivial.
Qed.

(** An expiration event without a usable date hides the one after it. *)
Lemma first_expiry_event_decides_witness :
  expiration_of (Sample.world Sample.net_up)
    (JObj [ ("events", JArr
       [ JObj [ ("eventAction", JStr "registration");
                ("eventDate", JStr "1995-08-14T04:00:00Z") ];
         JObj [ ("eventAction", JStr "Registrar Expiration");
                ("eventDate", JStr "soon") ];
         JObj [ ("eventAction", JStr "expiration");
                ("eventDate", JStr "2027-08-13T04:00:00Z") ] ]) ]) = None.
Proof.
  apply (first_expiry_event_decides (Sample.world Sample.net_up) _
           [ JObj [ ("eventAction", JStr "registration");
                    ("eventDate", JStr "1995-08-14T04:00:00Z") ] ]
           (JObj [ ("eventAction", JStr "Registrar Expiration");
                   ("eventDate", JStr "soon") ])
           [ JObj [ ("eventAction", JStr "expiration");
                    ("eventDate", JStr "2027-08-13T04:00:00Z") ] ]).
  - reflexivity.
  - repeat constructor.
  - reflexivity.
Defined.

(* ================================================================== *)
(** * The fallback for the registrable domain *)
(* ================================================================== *)

Lemma split_on_not_nil c s : Str.split_on c s <> [].
Proof.
  destruct s as [|a s]; simpl; [discriminate|].
  destruct (Ascii.eqb a c); [discriminate|].
  destruct (Str.split_on c s); discriminate.
Qed.

(** [s.split(c).join(c)] is [s]. *)
Lemma join_split_on c s :
  Str.join (String c "") (Str.split_on c s) = s.
Proof.
  induction s as [|a s IH]; [reflexivity|]. simpl.
  destruct (Ascii.eqb a c) eqn:Ea.
  - apply Ascii.eqb_eq in Ea. subst a.
    destruct (Str.split_on c s) as [|word words] eqn:Es.
    + now destruct (split_on_not_nil c s).
    + cbn [Str.join]. simpl. now rewrite <- IH.
  - destruct (Str.split_on c s) as [|word words] eqn:Es.
    + now destruct (split_on_not_nil c s).
    + rewrite <- IH. now destruct words.
Qed.

(** The pieces of a split are free of the separator. *)
Lemma split_on_free c s : Forall (free_of c) (Str.split_on c s).
Proof.
  induction s as [|a s IH]; simpl.
  - now repeat constructor.
  - destruct (Ascii.eqb a c) eqn:Ea.
    + constructor; [reflexivity | exact IH].
    + destruct (Str.split_on c s) as [|word words].
      * constructor; [|constructor]. unfold free_of. simpl. now rewrite Ea.
      * inversion IH as [|? ? Hw Hws]; subst. constructor; [|exact Hws].
        unfold free_of in *. simpl. now rewrite Ea.
Qed.

Lemma split_on_label c word rest :
  free_of c word ->
  Str.split_on c (word ++ String c rest) = word :: Str.split_on c rest.
Proof.
  unfold free_of. induction word as [|a word IH]; simpl.
  - intros _. now rewrite Ascii.eqb_refl.
  - intros H. apply andb_true_iff in H. destruct H as [Ha Hw].
    apply negb_true_iff in Ha. rewrite Ha, (IH Hw). reflexivity.
Qed.

Lemma split_on_free_word c word : free_of c word -> Str.split_on c word = [word].
Proof.
  unfold free_of. induction word as [|a word IH]; simpl; [reflexivity|].
  intros H. apply andb_true_iff in H. destruct H as [Ha Hw].
  apply negb_true_iff in Ha. now rewrite Ha, (IH Hw).
Qed.

(** [l.join(c).split(c)] is [l], for labels. *)
Lemma split_on_join c l :
  l <> [] -> Forall (free_of c) l ->
  Str.split_on c (Str.join (String c "") l) = l.
Proof.
  induction l as [|word l IH]; [congruence|]. intros _ Hl.
  inversion Hl as [|? ? Hw Hws]; subst.
  destruct l as [|word' l].
  - simpl. now apply split_on_free_word.
  - cbn [Str.join]. change (String c "" ++ ?x)%string with (String c x).
    rewrite (split_on_label c word _ Hw). f_equal.
    apply IH; [discriminate | exact Hws].
Qed.

Lemma string_app_assoc (a b c : string) :
  ((a ++ b) ++ c = a ++ (b ++ c))%string.
Proof. induction a as [|x a IH]; simpl; [reflexivity | now rewrite IH]. Qed.

Lemma join_app sep l1 l2 :
  l1 <> [] -> l2 <> [] ->
  Str.join sep (l1 ++ l2) = (Str.join sep l1 ++ sep ++ Str.join sep l2)%string.
Proof.
  induction l1 as [|word l1 IH]; [congruence|]. intros _ H2.
  destruct l1 as [|word' l1].
  - simpl. destruct l2; [congruence|reflexivity].
  - change ((word :: word' :: l1) ++ l2)%list
      with (word :: (word' :: l1) ++ l2)%list.
    cbn [Str.join app]. cbn [Str.join app] in IH.
    rewrite IH by (discriminate || assumption).
    now rewrite !string_app_assoc.
Qed.

Lemma last_two_not_nil {A} (l : list A) : l <> [] -> Str.last_two l <> [].
Proof.
  unfold Str.last_two. intros Hl H.
  assert (Hlen : List.length (skipn (List.length l - 2) l) = 0%nat)
    by now rewrite H.
  rewrite length_skipn in Hlen. destruct l; [congruence|].
  cbn [List.length] in Hlen. lia.
Qed.

(** X9.  When the public suffix list gives no domain for the host name,
    the domain that is looked up is made of the last two labels of the
    host name (of its only label, when it has no dot): it ends the host
    name, and is the host name itself when that has at most two labels.
    When the list gives a domain, that domain is looked up. *)
Theorem fallback_domain_is_last_two_labels w hostname :
  psl_domain w hostname = None ->
  let domain := domainName w hostname in
  let labels := Str.split_on "." hostname in
  Str.split_on "." domain = Str.last_two labels /\
  (exists front, hostname = (front ++ domain)%string) /\
  ((List.length labels <= 2)%nat -> domain = hostname).
Proof.
  intros Hp domain labels. unfold domain, domainName. rewrite Hp.
  assert (Hn : labels <> []) by apply split_on_not_nil.
  assert (Hf : Forall (free_of ".") labels) by apply split_on_free.
  split; [|split].
  - apply split_on_join.
    + now apply last_two_not_nil.
    + unfold Str.last_two.
      rewrite <- (firstn_skipn (List.length labels - 2) labels) in Hf.
      now apply Forall_app in Hf.
  - pose proof (join_split_on "." hostname) as Hj. fold labels in Hj.
    unfold Str.last_two. fold labels.
    rewrite <- (firstn_skipn (List.length labels - 2) labels) in Hj at 1.
    destruct (firstn (List.length labels - 2) labels) as [|word front] eqn:Efront.
    + exists ""%string. symmetry. exact Hj.
    + rewrite join_app in Hj.
      * exists (Str.join "." (word :: front) ++ ".")%string.
        rewrite string_app_assoc. symmetry. exact Hj.
      * discriminate.
      * now apply (last_two_not_nil labels).
  - intros Hlen. unfold Str.last_two. fold labels.
    replace (List.length labels - 2)%nat with 0%nat by lia.
    apply join_split_on.
Qed.

Lemma fallback_domain_is_last_two_labels_witness :
  domainName (Sample.world Sample.net_up) "www.example.co.uk" = "co.uk" /\
  domainName (Sample.world Sample.net_up) "localhost" = "localhost".
Proof.
  destruct (fallback_domain_is_last_two_labels (Sample.world Sample.net_up)
              "www.example.co.uk" eq_refl) as (H1 & _ & _).
  destruct (fallback_domain_is_last_two_labels (Sample.world Sample.net_up)
              "localhost" eq_refl) as (_ & _ & H2).
  split.
  - rewrite <- (join_split_on "." (domainName _ "www.example.co.uk")), H1.
    reflexivity.
  - apply H2. vm_compute. lia.
Defined.

(* ================================================================== *)
(** * The requests of a run *)
(* ================================================================== *)

Lemma sslMonitoring_log w hostname r s :
  log (after (sslMonitoring w hostname r) s) =
  (log s ++ [ReqTls hostname 443])%list.
Proof.
  assert (Ht : log (after (tls_certificate w hostname) s) =
               (log s ++ [ReqTls hostname 443])%list).
  { unfold after, tls_certificate.
    destruct (tls_connect w (clock s) hostname 443) as [d [cert| |err]];
      reflexivity. }
  rewrite <- Ht. unfold after.
  destruct (tls_certificate w hostname s) as [[cert|e] s1] eqn:E.
  - destruct (new_Date w (option_map JStr (valid_from cert))) as [vf|] eqn:Ef.
    + destruct (new_Date w (option_map JStr (valid_to cert))) as [vt|] eqn:Et.
      * now rewrite (sslMonitoring_completed w _ _ _ _ _ _ E Ef Et).
      * now rewrite (sslMonitoring_invalid_date w _ _ _ _ E (or_intror Et)).
    + now rewrite (sslMonitoring_invalid_date w _ _ _ _ E (or_introl Ef)).
  - now rewrite (sslMonitoring_rejected w _ _ _ _ E).
Qed.

Lemma rdapDomainInfo_log w domain s :
  log (after (rdapDomainInfo w domain) s) =
  (log s ++ [ReqFetch (rdap_url domain) GET])%list.
Proof.
  unfold after. rewrite rdapDomainInfo_unfold. cbv zeta.
  destruct (outcome (net_fetch w (clock s) (rdap_url domain) GET))
    as [res|e]; [|reflexivity].
  destruct (ok res); [|reflexivity].
  now destruct (outcome (json res)).
Qed.

Lemma domainExpiration_log w hostname r s :
  log (after (domainExpiration w hostname r) s) =
  (log s ++ [ReqFetch (rdap_url (domainName w hostname)) GET])%list.
Proof.
  rewrite <- (rdapDomainInfo_log w (domainName w hostname) s). unfold after.
  destruct (rdapDomainInfo w (domainName w hostname) s) as [[rdap|e] s1] eqn:E.
  - now rewrite (domainExpiration_success w _ _ _ _ E).
  - now rewrite (domainExpiration_error w _ _ _ _ E).
Qed.

(** The requests of the port checks: one or two for each port, in the
    order of the ports. *)
Lemma Promise_all_port_checks_log w hostname hps t0 s :
  exists l,
    log (snd (Promise_all_from t0 (map (port_check w hostname) hps) s)) =
      (log s ++ l)%list /\
    Forall (fun q => exists hp, In hp hps /\
                                fetch_of (port_target hostname hp) q) l /\
    (List.length hps <= List.length l <= 2 * List.length hps)%nat.
Proof.
  revert s. induction hps as [|hp hps IH]; intros s.
  - exists []. simpl. rewrite app_nil_r. repeat split; auto.
  - cbn [map Promise_all_from]. unfold start. rewrite port_check_returns.
    set (s1 := after (safeHeadOrGet w (port_target hostname hp) 5000)
                     (mkState t0 (log s))).
    assert (H1 : exists l1, log s1 = (log s ++ l1)%list /\
                   Forall (fetch_of (port_target hostname hp)) l1 /\
                   (1 <= List.length l1 <= 2)%nat).
    { destruct (safeHeadOrGet_requests w (port_target hostname hp) 5000
                  (mkState t0 (log s)) ltac:(reflexivity)) as [H|H];
        fold s1 in H; cbn [log] in H; rewrite H.
      - eexists. split; [reflexivity|]. split; [|simpl; lia].
        constructor; [now exists HEAD | constructor].
      - eexists. split; [reflexivity|]. split; [|simpl; lia].
        constructor; [now exists HEAD|].
        constructor; [now exists GET | constructor]. }
    destruct H1 as (l1 & El1 & Fl1 & Ln1).
    destruct (IH s1) as (l2 & El2 & Fl2 & Ln2).
    pose proof (Promise_all_port_checks w hostname hps t0 s1) as Hr.
    destruct (Promise_all_from t0 _ s1) as [cs s2]. cbn [fst snd] in *.
    subst cs. cbn [snd log].
    exists (l1 ++ l2)%list. rewrite El2, El1, app_assoc.
    split; [reflexivity|]. split.
    + apply Forall_app. split.
      * eapply Forall_impl; [|exact Fl1]. intros q Hq. exists hp.
        now split; [left|].
      * eapply Forall_impl; [|exact Fl2]. intros q (hp' & Hin & Hq).
        exists hp'. now split; [right|].
    + rewrite length_app. simpl List.length. lia.
Qed.

(** X10.  The requests of a run on a target that parses, in order: one
    HEAD, or one HEAD and one GET, to the URL; the four DNS queries A, MX,
    TXT and NS for the host; one TLS connection to port 443 of the host;
    one GET to the registry for the registrable domain; between three and
    six HEAD or GET requests to the three port URLs; and again one HEAD, or
    one HEAD and one GET, to the URL.  Between 11 and 16 requests, none to
    any other place. *)
Theorem requests_of_a_run w input hostname s :
  URL_hostname w (Str.trim input) = Some hostname ->
  let url := Str.trim input in
  let head_or_get l :=
    l = [ReqFetch url HEAD] \/ l = [ReqFetch url HEAD; ReqFetch url GET] in
  exists http ports ping,
    log (after (monitorWebsite w input) s) =
      (log s ++ http ++
       [ ReqResolve RR_A hostname; ReqResolve RR_MX hostname;
         ReqResolve RR_TXT hostname; ReqResolve RR_NS hostname ] ++
       [ ReqTls hostname 443 ] ++
       [ ReqFetch (rdap_url (domainName w hostname)) GET ] ++
       ports ++ ping)%list /\
    head_or_get http /\
    Forall (fun q => exists hp, In hp HTTP_PORTS /\
                                fetch_of (port_target hostname hp) q) ports /\
    (3 <= List.length ports <= 6)%nat /\
    head_or_get ping /\
    Forall (allowed_request w url hostname)
      (skipn (List.length (log s)) (log (after (monitorWebsite w input) s))) /\
    (11 <= List.length (log (after (monitorWebsite w input) s))
           - List.length (log s) <= 16)%nat.
Proof.
  intros E url head_or_get.
  destruct (monitorWebsite_report w input hostname s E)
    as (wm & rt & dns & ssl & de & pm & ping & _ & _ & _ & _ & _ & _ & HR).
  fold url in HR.
  assert (Hend : after (monitorWebsite w input) s = finish w url hostname s)
    by (unfold after; now rewrite HR).
  rewrite Hend.
  assert (H1 : exists http, log (dns_start w url s) = (log s ++ http)%list /\
                            head_or_get http).
  { unfold dns_start. rewrite websiteMonitoring_after.
    destruct (safeHeadOrGet_requests w url 8000 s ltac:(reflexivity)) as [H|H];
      rewrite H; eexists; (split; [reflexivity|]); [left|right]; reflexivity. }
  destruct H1 as (http & L1 & Hh).
  assert (L2 : log (ssl_start w url hostname s) =
               (log (dns_start w url s) ++
                [ ReqResolve RR_A hostname; ReqResolve RR_MX hostname;
                  ReqResolve RR_TXT hostname; ReqResolve RR_NS hostname ])%list).
  { unfold ssl_start, after.
    now rewrite dnsMonitoring_returns, dnsMonitoring_try_returns. }
  assert (L3 : log (rdap_start w url hostname s) =
               (log (ssl_start w url hostname s) ++ [ReqTls hostname 443])%list)
    by apply sslMonitoring_log.
  assert (L4 : log (ports_start w url hostname s) =
               (log (rdap_start w url hostname s) ++
                [ReqFetch (rdap_url (domainName w hostname)) GET])%list)
    by apply domainExpiration_log.
  assert (H5 : exists ports,
             log (ping_start w url hostname s) =
               (log (ports_start w url hostname s) ++ ports)%list /\
             Forall (fun q => exists hp, In hp HTTP_PORTS /\
                                 fetch_of (port_target hostname hp) q) ports /\
             (3 <= List.length ports <= 6)%nat).
  { unfold ping_start, after. rewrite portMonitoring_returns.
    unfold after, Promise_all. cbn [snd].
    apply (Promise_all_port_checks_log w hostname HTTP_PORTS). }
  destruct H5 as (ports & L5 & Fp & Np).
  assert (H6 : exists png, log (finish w url hostname s) =
                             (log (ping_start w url hostname s) ++ png)%list /\
                           head_or_get png).
  { unfold finish. rewrite pingMonitoring_after.
    destruct (safeHeadOrGet_requests w url 6000 (ping_start w url hostname s)
                ltac:(reflexivity)) as [H|H];
      rewrite H; eexists; (split; [reflexivity|]); [left|right]; reflexivity. }
  destruct H6 as (png & L6 & Hg).
  exists http, ports, png.
  assert (Hlog : log (finish w url hostname s) =
      (log s ++ http ++
       [ ReqResolve RR_A hostname; ReqResolve RR_MX hostname;
         ReqResolve RR_TXT hostname; ReqResolve RR_NS hostname ] ++
       [ ReqTls hostname 443 ] ++
       [ ReqFetch (rdap_url (domainName w hostname)) GET ] ++
       ports ++ png)%list).
  { rewrite L6, L5, L4, L3, L2, L1. now rewrite <- !app_assoc. }
  split; [exact Hlog|]. split; [exact Hh|]. split; [exact Fp|].
  split; [exact Np|]. split; [exact Hg|].
  assert (Hfetch : forall l, head_or_get l -> Forall (fetch_of url) l /\
                                              (1 <= List.length l <= 2)%nat).
  { intros l [-> | ->]; (split; [|simpl; lia]);
      repeat (constructor; [eexists; reflexivity|]); constructor. }
  destruct (Hfetch _ Hh) as [Fh Nh]. destruct (Hfetch _ Hg) as [Fg Ng].
  rewrite Hlog. split.
  - rewrite skipn_app, Nat.sub_diag, skipn_all. cbn [app skipn].
    apply Forall_app. split.
    { eapply Forall_impl; [|exact Fh]. intros q Hq. now left. }
    do 4 (constructor; [right; left; eexists; reflexivity|]).
    constructor; [right; right; left; reflexivity|].
    constructor; [right; right; right; left; reflexivity|].
    apply Forall_app. split.
    + eapply Forall_impl; [|exact Fp]. intros q Hq. now repeat right.
    + eapply Forall_impl; [|exact Fg]. intros q Hq. now left.
  - rewrite !length_app. cbn [List.length]. lia.
Qed.

Lemma requests_of_a_run_witness :
  let W := Sample.world Sample.net_up in
  (11 <= List.length (log (after (monitorWebsite W "https://example.com")
                             Sample.s0))
         - List.length (log Sample.s0) <= 16)%nat /\
  Forall (allowed_request W "https://example.com" "example.com")
    (log (after (monitorWebsite W "https://example.com") Sample.s0)).
Proof.
  intros W.
  assert (E : URL_hostname W (Str.trim "https://example.com")
              = Some "example.com") by (vm_compute; reflexivity).
  destruct (requests_of_a_run W "https://example.com" "example.com"
              Sample.s0 E) as (http & ports & ping & _ & _ & _ & _ & _ & Hall & Hn).
  split; [exact Hn | exact Hall].
Defined.

(* ================================================================== *)
(** * The API route *)
(* ================================================================== *)

(** The answers of the handler that need no run. *)
Lemma handler_not_GET w req s :
  not_GET (req_method req) = true ->
  handler w req s =
  (Return [ ResStatus 405;
            ResJson (error_body "Method not allowed. Use GET.") ], s).
Proof. unfold handler. now intros ->. Qed.

Lemma handler_no_target w req s :
  not_GET (req_method req) = false ->
  header_target (req_x_monitor_url req) = None \/
  header_target (req_x_monitor_url req) = Some "" ->
  handler w req s =
  (Return [ ResStatus 400;
            ResJson (error_body "Missing x-monitor-url header") ], s).
Proof. unfold handler. intros -> [-> | ->]; reflexivity. Qed.

Lemma handler_invalid_target w req s target :
  not_GET (req_method req) = false ->
  header_target (req_x_monitor_url req) = Some target ->
  target <> "" ->
  URL_hostname w (Str.trim target) = None ->
  handler w req s =
  (Return [ ResStatus 500; ResJson (error_body "Invalid URL") ], s).
Proof.
  unfold handler. intros -> -> Hne Hu. cbv zeta.
  apply String.eqb_neq in Hne. rewrite Hne.
  unfold try_catch, bind. now rewrite (monitorWebsite_invalid w target s Hu).
Qed.

(** X11.  The three refusals of the handler.  A request whose method is
    not GET is answered 405; a GET request without a target - no
    [x-monitor-url] header, an empty one, an empty list of values - is
    answered 400; a GET request whose trimmed target is not a URL is
    answered 500 with the message of [new URL], never with
    ['Internal error'].  In the three cases the body is [{ error }], no
    request has been sent to the network and no time has passed. *)
Theorem handler_refuses_without_probing w req s :
  (not_GET (req_method req) = true ->
   handler w req s =
   (Return [ ResStatus 405;
             ResJson (error_body "Method not allowed. Use GET.") ], s)) /\
  (not_GET (req_method req) = false ->
   header_target (req_x_monitor_url req) = None \/
   header_target (req_x_monitor_url req) = Some "" ->
   handler w req s =
   (Return [ ResStatus 400;
             ResJson (error_body "Missing x-monitor-url header") ], s)) /\
  (forall target,
     not_GET (req_method req) = false ->
     header_target (req_x_monitor_url req) = Some target ->
     target <> "" ->
     URL_hostname w (Str.trim target) = None ->
     handler w req s =
     (Return [ ResStatus 500; ResJson (error_body "Invalid URL") ], s)).
Proof.
  split; [|split].
  - apply handler_not_GET.
  - apply handler_no_target.
  - intros target. apply handler_invalid_target.
Qed.

Lemma handler_refuses_without_probing_witness :
  let W := Sample.world Sample.net_up in
  handler W (mkRequest (Some "POST") (header_one "https://example.com"))
    Sample.s0 =
    (Return [ ResStatus 405;
              ResJson (error_body "Method not allowed. Use GET.") ], Sample.s0) /\
  handler W (GET_with (header_many [])) Sample.s0 =
    (Return [ ResStatus 400;
              ResJson (error_body "Missing x-monitor-url header") ], Sample.s0) /\
  handler W (GET_with (header_one "example.com")) Sample.s0 =
    (Return [ ResStatus 500; ResJson (error_body "Invalid URL") ], Sample.s0).
Proof.
  intros W. split; [|split].
  - apply (handler_refuses_without_probing W). reflexivity.
  - apply (handler_refuses_without_probing W); [reflexivity | now left].
  - apply (proj2 (proj2 (handler_refuses_without_probing W
             (GET_with (header_one "example.com")) Sample.s0)) "example.com");
      [reflexivity | reflexivity | discriminate | reflexivity].
Defined.

(** X12.  A GET request whose target, once trimmed, is a URL is answered
    200: the handler sets the content type, and sends as body the report
    of [monitorWebsite] for the target as it is in the header - an object
    with the nine properties, not an array - when the run is over. *)
Theorem handler_returns_the_report w req target hostname s :
  not_GET (req_method req) = false ->
  header_target (req_x_monitor_url req) = Some target ->
  target <> "" ->
  URL_hostname w (Str.trim target) = Some hostname ->
  exists fields s',
    monitorWebsite w target s = (Return (JObj fields), s') /\
    handler w req s =
    (Return [ ResSetHeader "Content-Type" "application/json";
              ResStatus 200; ResJson (JObj fields) ], s') /\
    obj_keys fields = TOP_LEVEL_KEYS /\
    obj_get "url" fields = Some (JStr (Str.trim target)) /\
    s' = finish w (Str.trim target) hostname s.
Proof.
  intros Hm Ht Hne Hu.
  destruct (monitorWebsite_report w target hostname s Hu)
    as (wm & rt & dns & ssl & de & pm & ping & _ & _ & _ & _ & _ & _ & HR).
  do 2 eexists. split; [exact HR|].
  split; [|repeat split; reflexivity].
  unfold handler. rewrite Hm, Ht. cbv zeta.
  apply String.eqb_neq in Hne. rewrite Hne.
  unfold try_catch, bind. now rewrite HR.
Qed.

Lemma handler_returns_the_report_witness :
  exists fields s',
    handler (Sample.world Sample.net_up)
      (GET_with (header_one " https://example.com ")) Sample.s0 =
    (Return [ ResSetHeader "Content-Type" "application/json";
              ResStatus 200; ResJson (JObj fields) ], s') /\
    obj_keys fields = TOP_LEVEL_KEYS /\
    obj_get "url" fields = Some (JStr "https://example.com").
Proof.
  pose (W := Sample.world Sample.net_up).
  assert (E : URL_hostname W (Str.trim " https://example.com ")
              = Some "example.com") by (vm_compute; reflexivity).
  destruct (handler_returns_the_report W
              (GET_with (header_one " https://example.com "))
              " https://example.com " "example.com" Sample.s0
              eq_refl eq_refl ltac:(discriminate) E)
    as (fields & s' & _ & Hh & Hk & Hurl & _).
  exists fields, s'. split; [exact Hh|]. split; [exact Hk|].
  rewrite Hurl. vm_compute. reflexivity.
Defined.

(** X13.  The handler answers every request, and once: it never throws,
    and what it calls on [res] ends with one [status] and then one [json],
    the only ones; the status is 200, 400, 405 or 500, and it is 200
    exactly for a GET request with a target that, trimmed, is a URL. *)
Theorem handler_always_answers w req s :
  exists calls s' code body,
    handler w req s = (Return calls, s') /\
    (calls = [ ResStatus code; ResJson body ] \/
     calls = [ ResSetHeader "Content-Type" "application/json";
               ResStatus code; ResJson body ]) /\
    In code [200; 400; 405; 500] /\
    (code = 200 <->
     not_GET (req_method req) = false /\
     exists target,
       header_target (req_x_monitor_url req) = Some target /\
       target <> "" /\ URL_hostname w (Str.trim target) <> None).
Proof.
  pose proof (handler_not_GET w req s) as H405.
  pose proof (handler_no_target w req s) as H400.
  pose proof (fun target => handler_invalid_target w req s target) as H500.
  destruct (not_GET (req_method req)) eqn:Hm.
  - do 4 eexists. split; [now apply H405|]. split; [now left|].
    split; [simpl; tauto|]. split; [discriminate|]. now intros [? _].
  - destruct (header_target (req_x_monitor_url req)) as [target|] eqn:Ht.
    + destruct (String.eqb target "") eqn:Ee.
      * apply String.eqb_eq in Ee. subst target.
        do 4 eexists. split; [apply H400; auto|]. split; [now left|].
        split; [simpl; tauto|]. split; [discriminate|].
        intros [_ (t & Ht' & Hne & _)]. congruence.
      * apply String.eqb_neq in Ee.
        destruct (URL_hostname w (Str.trim target)) as [hostname|] eqn:Hu.
        -- destruct (monitorWebsite_report w target hostname s Hu)
             as (wm & rt & dns & ssl & de & pm & ping
                 & _ & _ & _ & _ & _ & _ & HR).
           do 4 eexists. split.
           { unfold handler. rewrite Hm, Ht. cbv zeta.
             apply String.eqb_neq in Ee. rewrite Ee.
             unfold try_catch, bind. rewrite HR. reflexivity. }
           split; [now right|]. split; [simpl; tauto|].
           split; [|reflexivity]. intros _. split; [reflexivity|].
           exists target. repeat split; [exact Ee | congruence].
        -- do 4 eexists. split; [now apply (H500 target)|].
           split; [now left|]. split; [simpl; tauto|].
           split; [discriminate|].
           intros [_ (t & Ht' & _ & Hp)]. congruence.
    + do 4 eexists. split; [apply H400; auto|]. split; [now left|].
      split; [simpl; tauto|]. split; [discriminate|].
      intros [_ (t & Ht' & _)]. discriminate Ht'.
Qed.

(* ================================================================== *)
(** * The earlier DNS step *)
(* ================================================================== *)

(** X14.  The DNS step of the earlier [monitorWebsite] is all or nothing,
    and stops at the first failure.  The A, MX, TXT and NS lookups are sent
    one after the other, each when the one before has answered.  When the
    four succeed the slot is ['resolved'] with the four record sets.  As
    soon as one fails the slot is [{ status: 'error' }] without any record,
    and the lookups that would follow are not sent. *)
Theorem legacy_dns_is_all_or_nothing w hostname result s :
  let a := dns_resolve4 w (clock s) hostname in
  let t1 := (clock s + latency a)%Q in
  let mx := dns_resolveMx w t1 hostname in
  let t2 := (t1 + latency mx)%Q in
  let txt := dns_resolveTxt w t2 hostname in
  let t3 := (t2 + latency txt)%Q in
  let ns := dns_resolveNs w t3 hostname in
  let t4 := (t3 + latency ns)%Q in
  let qA := ReqResolve RR_A hostname in
  let qMX := ReqResolve RR_MX hostname in
  let qTXT := ReqResolve RR_TXT hostname in
  let qNS := ReqResolve RR_NS hostname in
  Legacy.dnsMonitoring w hostname result s =
  match outcome a, outcome mx, outcome txt, outcome ns with
  | Return va, Return vmx, Return vtxt, Return vns =>
      (Return (obj_set "dnsMonitoring" (JObj
         [ ("status", JStr "resolved");
           ("records", JObj
              [ ("A", JStrings va);
                ("MX", JStrings (map exchange vmx));
                ("TXT", JStrings (List.concat vtxt));
                ("NS", JStrings vns) ]) ]) result),
       mkState t4 (log s ++ [qA; qMX; qTXT; qNS]))
  | Throw _, _, _, _ =>
      (Return (dns_error_slot result), mkState t1 (log s ++ [qA]))
  | Return _, Throw _, _, _ =>
      (Return (dns_error_slot result), mkState t2 (log s ++ [qA; qMX]))
  | Return _, Return _, Throw _, _ =>
      (Return (dns_error_slot result), mkState t3 (log s ++ [qA; qMX; qTXT]))
  | Return _, Return _, Return _, Throw _ =>
      (Return (dns_error_slot result),
       mkState t4 (log s ++ [qA; qMX; qTXT; qNS]))
  end.
Proof.
  cbv zeta.
  unfold Legacy.dnsMonitoring, try_catch, bind, resolve4, resolveMx,
    resolveTxt, resolveNs, await_reply, ret, dns_error_slot.
  cbn [clock log].
  destruct (outcome (dns_resolve4 w (clock s) hostname)) as [va|e];
    [|reflexivity].
  destruct (outcome (dns_resolveMx w _ hostname)) as [vmx|e];
    [|now rewrite <- app_assoc].
  destruct (outcome (dns_resolveTxt w _ hostname)) as [vtxt|e];
    [|now rewrite <- !app_assoc].
  destruct (outcome (dns_resolveNs w _ hostname)) as [vns|e];
    now rewrite <- !app_assoc.
Qed.

(** X15.  The two DNS steps compared, for a resolver whose answers for the
    host do not change during the step.  When the four lookups succeed,
    both write the same slot, and the present step, which runs them
    together, is over no later than the earlier one, which runs them in
    turn.  When a lookup fails, the earlier step writes
    [{ status: 'error' }] and the present one ['resolved'] with the records
    of the lookups that succeeded. *)
Theorem dns_steps_compared w hostname result s :
  (forall t, dns_resolve4 w t hostname = dns_resolve4 w (clock s) hostname) ->
  (forall t, dns_resolveMx w t hostname = dns_resolveMx w (clock s) hostname) ->
  (forall t, dns_resolveTxt w t hostname = dns_resolveTxt w (clock s) hostname) ->
  (forall t, dns_resolveNs w t hostname = dns_resolveNs w (clock s) hostname) ->
  let a := dns_resolve4 w (clock s) hostname in
  let mx := dns_resolveMx w (clock s) hostname in
  let txt := dns_resolveTxt w (clock s) hostname in
  let ns := dns_resolveNs w (clock s) hostname in
  fst (dnsMonitoring w hostname result s) =
    Return (obj_set "dnsMonitoring" (JObj
      [ ("status", JStr "resolved");
        ("records", JObj (dns_records (settle (outcome a)) (settle (outcome mx))
                            (settle (outcome txt)) (settle (outcome ns)))) ])
      result) /\
  match outcome a, outcome mx, outcome txt, outcome ns with
  | Return _, Return _, Return _, Return _ =>
      fst (Legacy.dnsMonitoring w hostname result s) =
      fst (dnsMonitoring w hostname result s) /\
      ((0 <= latency a)%Q -> (0 <= latency mx)%Q ->
       (0 <= latency txt)%Q -> (0 <= latency ns)%Q ->
       (clock (after (dnsMonitoring w hostname result) s) <=
        clock (after (Legacy.dnsMonitoring w hostname result) s))%Q)
  | _, _, _, _ =>
      fst (Legacy.dnsMonitoring w hostname result s) =
      Return (dns_error_slot result)
  end.
Proof.
  intros Ha Hmx Htxt Hns. cbv zeta.
  rewrite dnsMonitoring_returns, dnsMonitoring_try_returns.
  split; [reflexivity|].
  unfold after, Legacy.dnsMonitoring, try_catch, bind, resolve4, resolveMx,
    resolveTxt, resolveNs, await_reply, ret, dns_error_slot.
  cbn [clock log fst snd].
  rewrite (Hmx (clock s + latency (dns_resolve4 w (clock s) hostname))%Q).
  destruct (outcome (dns_resolve4 w (clock s) hostname)) as [va|e] eqn:Ea;
    [|reflexivity].
  cbn [clock log fst snd].
  rewrite (Htxt (clock s + latency (dns_resolve4 w (clock s) hostname)
                 + latency (dns_resolveMx w (clock s) hostname))%Q).
  destruct (outcome (dns_resolveMx w (clock s) hostname)) as [vmx|e] eqn:Emx;
    [|reflexivity].
  cbn [clock log fst snd].
  rewrite (Hns (clock s + latency (dns_resolve4 w (clock s) hostname)
                + latency (dns_resolveMx w (clock s) hostname)
                + latency (dns_resolveTxt w (clock s) hostname))%Q).
  destruct (outcome (dns_resolveTxt w (clock s) hostname)) as [vtxt|e] eqn:Etxt;
    [|reflexivity].
  cbn [clock log fst snd].
  destruct (outcome (dns_resolveNs w (clock s) hostname)) as [vns|e] eqn:Ens;
    [|reflexivity].
  cbn [clock log fst snd]. split; [reflexivity|].
  intros La Lmx Ltxt Lns.
  rewrite dnsMonitoring_returns, dnsMonitoring_try_returns.
  cbn [snd clock]. unfold dns_settled_at.
  repeat apply Q.max_lub; lra.
Qed.

Lemma dns_steps_compared_witness :
  let W := Sample.world Sample.net_up in
  fst (dnsMonitoring W "example.com" [] Sample.s0) =
    Return [ ("dnsMonitoring", JObj
      [ ("status", JStr "resolved");
        ("records", JObj
           [ ("A", JStrings ["93.184.215.14"]);
             ("NS", JStrings ["a.iana-servers.net"; "b.iana-servers.net"]) ]) ]) ]
  /\
  fst (Legacy.dnsMonitoring W "example.com" [] Sample.s0) =
    Return [ ("dnsMonitoring", JObj [ ("status", JStr "error") ]) ].
Proof.
  intros W.
  pose proof (dns_steps_compared W "example.com" [] Sample.s0
                (fun _ => eq_refl) (fun _ => eq_refl)
                (fun _ => eq_refl) (fun _ => eq_refl)) as [H1 H2].
  split; [exact H1 | exact H2].
Defined.

(* ================================================================== *)
(** * Trimming the target *)
(* ================================================================== *)












(* ================================================================== *)
(** * Stationary worlds *)
(* ================================================================== *)

Lemma Qle_bool_shift t a b : Qle_bool (t + a) (t + b) = Qle_bool a b.
Proof.
  destruct (Qle_bool a b) eqn:E.
  - apply Qle_bool_iff in E. apply Qle_bool_iff. lra.
  - apply Qle_bool_false in E. apply Qle_bool_lt_false. lra.
Qed.

Lemma Qle_bool_shift2 t a b c :
  Qle_bool (t + a) (t + b + c) = Qle_bool a (b + c).
Proof.
  destruct (Qle_bool a (b + c)) eqn:E.
  - apply Qle_bool_iff in E. apply Qle_bool_iff. lra.
  - apply Qle_bool_false in E. apply Qle_bool_lt_false. lra.
Qed.

Lemma Math_round_eq x y : (x == y)%Q -> Math_round x = Math_round y.
Proof. intros H. unfold Math_round. now rewrite H. Qed.

Lemma Qle_bool_eq a x y : (x == y)%Q -> Qle_bool a x = Qle_bool a y.
Proof. intros H. now rewrite H. Qed.

(** In a stationary world [safeHeadOrGet] comes to the same whenever it
    is called. *)
Lemma safeHeadOrGet_steady w url T s :
  stationary w -> (0 < T)%Q ->
  fst (safeHeadOrGet w url T s) = fst (steady_safeHeadOrGet w url T) /\
  (clock (snd (safeHeadOrGet w url T s)) - clock s ==
   snd (steady_safeHeadOrGet w url T))%Q.
Proof.
  intros Hs HT. rewrite safeHeadOrGet_unfold. cbv zeta.
  unfold fetch, steady_safeHeadOrGet. cbn [aborts_at].
  rewrite (Qle_bool_lt_false (clock s + T) (clock s)) by lra.
  rewrite (fetch_stationary w Hs (clock s) 0 url HEAD), Qle_bool_shift.
  destruct (Qle_bool T (latency (net_fetch w 0 url HEAD))) eqn:E1.
  - cbn [fst snd clock]. split; [reflexivity | lra].
  - destruct (outcome (net_fetch w 0 url HEAD)) as [res|e].
    + rewrite retry_test. destruct (ok res); cbn [negb].
      * cbn [fst snd clock]. split; [reflexivity | lra].
      * cbn [clock log].
        rewrite (Qle_bool_shift (clock s) T
                   (latency (net_fetch w 0 url HEAD))), E1.
        rewrite (fetch_stationary w Hs
                   (clock s + latency (net_fetch w 0 url HEAD))%Q 0 url GET).
        rewrite Qle_bool_shift2.
        destruct (Qle_bool T (latency (net_fetch w 0 url HEAD)
                              + latency (net_fetch w 0 url GET)));
          cbn [fst snd clock]; (split; [reflexivity | lra]).
    + cbn [fst snd clock]. split; [reflexivity | lra].
Qed.

Section Steady.

Variable w : World.
Hypothesis Hs : stationary w.

(** Two calls of [safeHeadOrGet] in a stationary world. *)
Lemma safeHeadOrGet_twice url T s s' :
  (0 < T)%Q ->
  fst (safeHeadOrGet w url T s) = fst (safeHeadOrGet w url T s') /\
  (clock (snd (safeHeadOrGet w url T s)) - clock s ==
   clock (snd (safeHeadOrGet w url T s')) - clock s')%Q.
Proof.
  intros HT.
  destruct (safeHeadOrGet_steady w url T s Hs HT) as [H1 H2].
  destruct (safeHeadOrGet_steady w url T s' Hs HT) as [H1' H2'].
  split; [congruence | now rewrite H2, H2'].
Qed.

Lemma websiteMonitoring_steady url r s s' :
  fst (websiteMonitoring w url r s) = fst (websiteMonitoring w url r s').
Proof.
  destruct (safeHeadOrGet_twice url 8000 s s' ltac:(reflexivity)) as [Hf He].
  destruct (safeHeadOrGet w url 8000 s) as [[resp|e] s1] eqn:E1;
    destruct (safeHeadOrGet w url 8000 s') as [[resp'|e'] s1'] eqn:E2;
    cbn [fst snd] in Hf, He; try discriminate Hf; injection Hf as <-.
  - rewrite (websiteMonitoring_resolved w _ _ _ _ E1),
            (websiteMonitoring_resolved w _ _ _ _ E2).
    cbn [fst]. now rewrite (Math_round_eq _ _ He), (Qle_bool_eq 500 _ _ He).
  - now rewrite (websiteMonitoring_rejected w _ _ _ _ E1),
                (websiteMonitoring_rejected w _ _ _ _ E2).
Qed.

Lemma pingMonitoring_steady url r s s' :
  fst (pingMonitoring w url r s) = fst (pingMonitoring w url r s').
Proof.
  destruct (safeHeadOrGet_twice url 6000 s s' ltac:(reflexivity)) as [Hf He].
  destruct (safeHeadOrGet w url 6000 s) as [[resp|e] s1] eqn:E1;
    destruct (safeHeadOrGet w url 6000 s') as [[resp'|e'] s1'] eqn:E2;
    cbn [fst snd] in Hf, He; try discriminate Hf; injection Hf as <-.
  - rewrite (pingMonitoring_resolved w _ _ _ _ E1),
            (pingMonitoring_resolved w _ _ _ _ E2).
    cbn [fst]. now rewrite (Math_round_eq _ _ He).
  - now rewrite (pingMonitoring_rejected w _ _ _ _ E1),
                (pingMonitoring_rejected w _ _ _ _ E2).
Qed.

Lemma dnsMonitoring_steady hostname r s s' :
  fst (dnsMonitoring w hostname r s) = fst (dnsMonitoring w hostname r s').
Proof.
  rewrite !dnsMonitoring_returns, !dnsMonitoring_try_returns. cbn [fst].
  now rewrite (resolve4_stationary w Hs (clock s) (clock s')),
              (resolveMx_stationary w Hs (clock s) (clock s')),
              (resolveTxt_stationary w Hs (clock s) (clock s')),
              (resolveNs_stationary w Hs (clock s) (clock s')).
Qed.

Lemma tls_certificate_steady hostname s s' :
  fst (tls_certificate w hostname s) = fst (tls_certificate w hostname s').
Proof.
  unfold tls_certificate.
  rewrite (tls_stationary w Hs (clock s) (clock s') hostname 443).
  now destruct (tls_connect w (clock s') hostname 443) as [d [cert| |err]].
Qed.

Lemma sslMonitoring_steady hostname r s s' :
  fst (sslMonitoring w hostname r s) = fst (sslMonitoring w hostname r s').
Proof.
  pose proof (tls_certificate_steady hostname s s') as Hf.
  destruct (tls_certificate w hostname s) as [[cert|e] s1] eqn:E1;
    destruct (tls_certificate w hostname s') as [[cert'|e'] s1'] eqn:E2;
    cbn [fst] in Hf; try discriminate Hf; injection Hf as <-.
  - destruct (new_Date w (option_map JStr (valid_from cert))) as [vf|] eqn:Ef.
    + destruct (new_Date w (option_map JStr (valid_to cert))) as [vt|] eqn:Et.
      * rewrite (sslMonitoring_completed w _ _ _ _ _ _ E1 Ef Et),
                (sslMonitoring_completed w _ _ _ _ _ _ E2 Ef Et).
        cbn [fst].
        now rewrite (date_stationary w Hs (clock s1) (clock s1')).
      * now rewrite (sslMonitoring_invalid_date w _ _ _ _ E1 (or_intror Et)),
                    (sslMonitoring_invalid_date w _ _ _ _ E2 (or_intror Et)).
    + now rewrite (sslMonitoring_invalid_date w _ _ _ _ E1 (or_introl Ef)),
                  (sslMonitoring_invalid_date w _ _ _ _ E2 (or_introl Ef)).
  - now rewrite (sslMonitoring_rejected w _ _ _ _ E1),
                (sslMonitoring_rejected w _ _ _ _ E2).
Qed.

Lemma rdapDomainInfo_steady domain s s' :
  fst (rdapDomainInfo w domain s) = fst (rdapDomainInfo w domain s').
Proof.
  rewrite !rdapDomainInfo_unfold. cbv zeta.
  rewrite (fetch_stationary w Hs (clock s) (clock s') (rdap_url domain) GET).
  destruct (outcome (net_fetch w (clock s') (rdap_url domain) GET))
    as [res|e]; [|reflexivity].
  destruct (ok res); [|reflexivity].
  destruct (outcome (json res)) as [data|e]; [|reflexivity].
  cbn [fst clock].
  now rewrite (date_stationary w Hs
                 (clock s + latency (net_fetch w (clock s') (rdap_url domain) GET)
                  + latency (json res))%Q
                 (clock s' + latency (net_fetch w (clock s') (rdap_url domain) GET)
                  + latency (json res))%Q).
Qed.

Lemma domainExpiration_steady hostname r s s' :
  fst (domainExpiration w hostname r s) = fst (domainExpiration w hostname r s').
Proof.
  pose proof (rdapDomainInfo_steady (domainName w hostname) s s') as Hf.
  destruct (rdapDomainInfo w (domainName w hostname) s) as [[i|e] s1] eqn:E1;
    destruct (rdapDomainInfo w (domainName w hostname) s') as [[i'|e'] s1'] eqn:E2;
    cbn [fst] in Hf; try discriminate Hf; injection Hf as <-.
  - now rewrite (domainExpiration_success w _ _ _ _ E1),
                (domainExpiration_success w _ _ _ _ E2).
  - now rewrite (domainExpiration_error w _ _ _ _ E1),
                (domainExpiration_error w _ _ _ _ E2).
Qed.

Lemma port_entry_steady hostname hp s s' :
  port_entry w hostname hp s = port_entry w hostname hp s'.
Proof.
  unfold port_entry.
  destruct (safeHeadOrGet_twice (port_target hostname hp) 5000 s s'
              ltac:(reflexivity)) as [Hf He].
  destruct (safeHeadOrGet w (port_target hostname hp) 5000 s) as [[resp|e] s1];
    destruct (safeHeadOrGet w (port_target hostname hp) 5000 s')
      as [[resp'|e'] s1'];
    cbn [fst snd] in Hf, He; try discriminate Hf; [|reflexivity].
  injection Hf as <-. now rewrite (Math_round_eq _ _ He).
Qed.

Lemma portMonitoring_steady hostname r s s' :
  fst (portMonitoring w hostname r s) = fst (portMonitoring w hostname r s').
Proof.
  rewrite !portMonitoring_returns. cbn [fst].
  now rewrite (port_entry_steady hostname http80 s s'),
              (port_entry_steady hostname https443 s s'),
              (port_entry_steady hostname http8080 s s').
Qed.

End Steady.

(** X17.  In a stationary world - the answers of the network, of the
    resolver and of the TLS peer, and the reading of the wall clock, do not
    depend on the instant they are asked at - the outcome of
    [monitorWebsite], the report with its durations and its counts of days
    or the error, is the same whenever the run starts and whatever was sent
    before: the program keeps nothing from one run to the next, and a
    report depends on the answers of the world only. *)
Theorem report_does_not_depend_on_the_start w input s s' :
  stationary w ->
  fst (monitorWebsite w input s) = fst (monitorWebsite w input s').
Proof.
  intros Hs.
  destruct (URL_hostname w (Str.trim input)) as [hostname|] eqn:E.
  - destruct (monitorWebsite_report w input hostname s E)
      as (wm & rt & dns & ssl & de & pm & ping
          & H1 & H2 & H3 & H4 & H5 & H6 & HR).
    destruct (monitorWebsite_report w input hostname s' E)
      as (wm' & rt' & dns' & ssl' & de' & pm' & ping'
          & H1' & H2' & H3' & H4' & H5' & H6' & HR').
    rewrite HR, HR'. cbn [fst].
    rewrite (date_stationary w Hs (clock s) (clock s')).
    pose proof (websiteMonitoring_steady w Hs (Str.trim input) [] s s') as E1.
    rewrite (H1 []), (H1' []) in E1.
    cbn [fst obj_set String.eqb Ascii.eqb Bool.eqb] in E1.
    injection E1 as <- <-.
    pose proof (dnsMonitoring_steady w Hs hostname []
                  (dns_start w (Str.trim input) s)
                  (dns_start w (Str.trim input) s')) as E2.
    rewrite (H2 []), (H2' []) in E2. cbn [fst obj_set] in E2.
    injection E2 as <-.
    pose proof (sslMonitoring_steady w Hs hostname []
                  (ssl_start w (Str.trim input) hostname s)
                  (ssl_start w (Str.trim input) hostname s')) as E3.
    rewrite (H3 []), (H3' []) in E3. cbn [fst obj_set] in E3.
    injection E3 as <-.
    pose proof (domainExpiration_steady w Hs hostname []
                  (rdap_start w (Str.trim input) hostname s)
                  (rdap_start w (Str.trim input) hostname s')) as E4.
    rewrite (H4 []), (H4' []) in E4. cbn [fst obj_set] in E4.
    injection E4 as <-.
    pose proof (portMonitoring_steady w Hs hostname []
                  (ports_start w (Str.trim input) hostname s)
                  (ports_start w (Str.trim input) hostname s')) as E5.
    rewrite (H5 []), (H5' []) in E5. cbn [fst obj_set] in E5.
    injection E5 as <-.
    pose proof (pingMonitoring_steady w Hs (Str.trim input) []
                  (ping_start w (Str.trim input) hostname s)
                  (ping_start w (Str.trim input) hostname s')) as E6.
    rewrite (H6 []), (H6' []) in E6. cbn [fst obj_set] in E6.
    injection E6 as <-.
    reflexivity.
  - now rewrite !(monitorWebsite_invalid w input _ E).
Qed.

Lemma frozen_stationary : stationary (Examples.frozen Sample.net_up).
Proof. constructor; reflexivity. Defined.

Lemma report_does_not_depend_on_the_start_witness :
  fst (monitorWebsite (Examples.frozen Sample.net_up) "https://example.com"
         Sample.s0) =
  fst (monitorWebsite (Examples.frozen Sample.net_up) "https://example.com"
         (mkState 86400000 [ReqTls "example.org" 443])).
Proof.
  apply report_does_not_depend_on_the_start. exact frozen_stationary.
Defined.

(** The two time-outs compared: with 6000 ms [safeHeadOrGet] does what it
    does with 8000 ms when that takes less than 6000 ms, and is aborted
    otherwise. *)
Lemma steady_timeouts w url :
  (0 <= latency (net_fetch w 0 url GET))%Q ->
  steady_safeHeadOrGet w url 6000 =
  if Qle_bool 6000 (snd (steady_safeHeadOrGet w url 8000))
  then (Throw AbortError, 6000%Q)
  else steady_safeHeadOrGet w url 8000.
Proof.
  intros Hg. unfold steady_safeHeadOrGet.
  set (lh := latency (net_fetch w 0 url HEAD)).
  set (lg := latency (net_fetch w 0 url GET)) in *.
  destruct (Qle_bool 8000 lh) eqn:E8.
  - cbn [snd]. change (Qle_bool 6000 8000) with true. cbv iota.
    apply Qle_bool_iff in E8.
    now rewrite (Qle_bool_true 6000 lh) by lra.
  - apply Qle_bool_false in E8.
    destruct (outcome (net_fetch w 0 url HEAD)) as [res|e].
    + destruct (ok res).
      * cbn [snd]. now destruct (Qle_bool 6000 lh).
      * destruct (Qle_bool 8000 (lh + lg)) eqn:E8'.
        -- cbn [snd]. change (Qle_bool 6000 8000) with true. cbv iota.
           apply Qle_bool_iff in E8'.
           destruct (Qle_bool 6000 lh); [reflexivity|].
           now rewrite (Qle_bool_true 6000 (lh + lg)) by lra.
        -- cbn [snd]. apply Qle_bool_false in E8'.
           destruct (Qle_bool 6000 (lh + lg)) eqn:E6.
           ++ now destruct (Qle_bool 6000 lh).
           ++ apply Qle_bool_false in E6.
              now rewrite (Qle_bool_lt_false 6000 lh) by lra.
    + cbn [snd]. now destruct (Qle_bool 6000 lh).
Qed.

(** X18.  The ping against the HTTP probe in a stationary world.  The two
    steps send the same request, the ping with 6000 ms where the probe has
    8000 ms.  When the request of the HTTP probe took less than 6000 ms, the
    ping reports what the probe reported: ['unreachable'] where the probe
    failed, and otherwise ['reachable'] with [time] equal to
    [responseTime.value].  When it took 6000 ms or more, the ping is
    ['unreachable'] with the message of the abort, whatever the probe
    reports. *)
Theorem ping_agrees_with_http_when_stationary w input hostname s :
  stationary w -> causal w ->
  URL_hostname w (Str.trim input) = Some hostname ->
  exists fields s',
    monitorWebsite w input s = (Return (JObj fields), s') /\
    let d := (clock (snd (safeHeadOrGet w (Str.trim input) 8000 s))
              - clock s)%Q in
    ((d < 6000)%Q -> ping_reuses_http_timing fields) /\
    ((6000 <= d)%Q ->
     obj_get "pingMonitoring" fields =
     Some (JObj [ ("status", JStr "unreachable");
                  ("method", JStr "http");
                  ("error", JStr "This operation was aborted") ])).
Proof.
  intros Hs Hc E.
  destruct (monitorWebsite_report w input hostname s E)
    as (wm & rt & dns & ssl & de & pm & ping
        & H1 & _ & _ & _ & _ & H6 & HR).
  cbv zeta in H1, H6, HR.
  eexists _, _. split; [exact HR|]. cbv zeta.
  set (url := Str.trim input) in *.
  set (p := ping_start w url hostname s) in *.
  destruct (safeHeadOrGet_steady w url 8000 s Hs ltac:(reflexivity))
    as [Hf8 Hd8].
  destruct (safeHeadOrGet_steady w url 6000 p Hs ltac:(reflexivity))
    as [Hf6 Hd6].
  rewrite (steady_timeouts w url (fetch_causal w Hc 0 url GET)) in Hf6, Hd6.
  rewrite <- (Qle_bool_eq 6000 _ _ Hd8) in Hf6, Hd6.
  specialize (H1 []). specialize (H6 []).
  split.
  - intros Hd. rewrite (Qle_bool_lt_false _ _ Hd) in Hf6, Hd6.
    rewrite <- Hf8 in Hf6. rewrite <- Hd8 in Hd6. clear Hf8 Hd8.
    exists rt, ping. split; [reflexivity|]. split; [reflexivity|].
    destruct (safeHeadOrGet w url 8000 s) as [[resp|e] s1] eqn:E8;
      destruct (safeHeadOrGet w url 6000 p) as [[resp'|e'] s6] eqn:E6;
      cbn [fst snd] in Hf6, Hd6; try discriminate Hf6.
    + rewrite (websiteMonitoring_resolved w _ _ _ _ E8) in H1.
      rewrite (pingMonitoring_resolved w _ _ _ _ E6) in H6.
      apply (f_equal fst) in H1, H6.
      cbn [fst obj_set String.eqb Ascii.eqb Bool.eqb] in H1, H6.
      injection H1 as <- <-. injection H6 as <-.
      cbn [get obj_get String.eqb Ascii.eqb Bool.eqb].
      split.
      * intros H. destruct (Qle_bool 500 (clock s1 - clock s));
          discriminate H.
      * intros _. split; [reflexivity|].
        now rewrite (Math_round_eq _ _ Hd6).
    + rewrite (websiteMonitoring_rejected w _ _ _ _ E8) in H1.
      rewrite (pingMonitoring_rejected w _ _ _ _ E6) in H6.
      apply (f_equal fst) in H1, H6.
      cbn [fst obj_set String.eqb Ascii.eqb Bool.eqb] in H1, H6.
      injection H1 as <- <-. injection H6 as <-.
      cbn [get obj_get String.eqb Ascii.eqb Bool.eqb].
      split; [reflexivity|]. intros H. now elim H.
  - intros Hd. rewrite (Qle_bool_true _ _ Hd) in Hf6.
    cbn [fst] in Hf6.
    destruct (safeHeadOrGet w url 6000 p) as [[resp'|e'] s6] eqn:E6;
      cbn [fst] in Hf6; [discriminate Hf6|].
    injection Hf6 as ->.
    rewrite (pingMonitoring_rejected w _ _ _ _ E6) in H6.
    apply (f_equal fst) in H6.
    cbn [fst obj_set] in H6. injection H6 as <-.
    reflexivity.
Qed.

Lemma frozen_causal : causal (Examples.frozen Sample.net_up).
Proof. unfold Sample.net_up. sample_causal. Defined.

Lemma ping_agrees_with_http_when_stationary_witness :
  exists fields s',
    monitorWebsite (Examples.frozen Sample.net_up) "https://example.com"
      Sample.s0 = (Return (JObj fields), s') /\
    ping_reuses_http_timing fields.
Proof.
  destruct (ping_agrees_with_http_when_stationary
              (Examples.frozen Sample.net_up) "https://example.com"
              "example.com" Sample.s0 frozen_stationary frozen_causal)
    as (fields & s' & HR & Hlt & _).
  - vm_compute; reflexivity.
  - exists fields, s'. split; [exact HR|]. apply Hlt.
    vm_compute; reflexivity.
Defined.
